(** * Shared-buffer polling channel of PGlite (spike-memory-polling)

    A shallow embedding of [pglite-comm-polling.h] and [test-wasm.c] and the
    properties of the channel they implement.

    Target: the module is built with [emcc] for wasm32, so [int], [size_t]
    and [ssize_t] are all 32 bits wide.  Machine integers are mathematical
    integers ([Z]) with every wrap-around written out.  The three globals
    [g_input_buffer], [g_output_buffer] and [g_control] are the fields of one
    [Channel] record that every function receives and returns.  A [memcpy]
    that would leave one of its arrays has no defined behaviour in C; the
    embedding returns [None] for it. *)

From Stdlib Require Import ZArith List Lia Bool.
Import ListNotations.
Open Scope Z_scope.

(* ------------------------------------------------------------------ *)
(** ** Machine integers *)

Definition two32 : Z := 4294967296.
Definition two31 : Z := 2147483648.

(** Conversion to [uint32_t]. *)
Definition to_uint32 (x : Z) : Z := x mod two32.

(** Conversion to [size_t] (32 bits on wasm32). *)
Definition to_size_t (x : Z) : Z := x mod two32.

(** Conversion to [ssize_t] / [int] (32 bits, two's complement). *)
Definition to_ssize_t (x : Z) : Z :=
  let y := x mod two32 in if y <? two31 then y else y - two32.

(** Conversion to [uint8_t]. *)
Definition to_uint8 (x : Z) : Z := x mod 256.

Definition uint32_range (x : Z) : Prop := 0 <= x < two32.
Definition int32_range (x : Z) : Prop := - two31 <= x < two31.

(* ------------------------------------------------------------------ *)
(** ** Constants and enumerations *)

(** [#define PGLITE_BUFFER_SIZE (64 * 1024)] *)
Definition PGLITE_BUFFER_SIZE : Z := 64 * 1024.
(** [#define PGLITE_MAX_MESSAGE_SIZE (1024 * 1024)] *)
Definition PGLITE_MAX_MESSAGE_SIZE : Z := 1024 * 1024.

(** [BufferStatus]; the struct field that holds it is a [uint32_t]. *)
Definition BUFFER_EMPTY : Z := 0.
Definition BUFFER_READY : Z := 1.
Definition BUFFER_PROCESSING : Z := 2.

(** [OperationType]; again stored in a [uint32_t]. *)
Definition OP_NONE : Z := 0.
Definition OP_READ_REQUEST : Z := 1.
Definition OP_WRITE_READY : Z := 2.
Definition OP_COMPLETED : Z := 3.
Definition OP_ERROR : Z := 4.

(* ------------------------------------------------------------------ *)
(** ** The shared records *)

(** [PGliteBuffer]: status, length, and the byte array [data]. Bytes are
    integers in [0, 256). *)
Record PGliteBuffer : Type := mkBuffer {
  status : Z;
  length : Z;
  data : list Z
}.

(** [PGliteControl]. *)
Record PGliteControl : Type := mkControl {
  operation : Z;
  error_code : Z;
  read_offset : Z;
  total_read : Z;
  total_written : Z
}.

(** The three globals. *)
Record Channel : Type := mkChannel {
  g_input_buffer : PGliteBuffer;
  g_output_buffer : PGliteBuffer;
  g_control : PGliteControl
}.

(** Field assignments. *)
Definition set_status (v : Z) (b : PGliteBuffer) : PGliteBuffer :=
  mkBuffer v (length b) (data b).
Definition set_length (v : Z) (b : PGliteBuffer) : PGliteBuffer :=
  mkBuffer (status b) v (data b).
Definition set_data (v : list Z) (b : PGliteBuffer) : PGliteBuffer :=
  mkBuffer (status b) (length b) v.

Definition set_operation (v : Z) (c : PGliteControl) : PGliteControl :=
  mkControl v (error_code c) (read_offset c) (total_read c) (total_written c).
Definition set_error_code (v : Z) (c : PGliteControl) : PGliteControl :=
  mkControl (operation c) v (read_offset c) (total_read c) (total_written c).
Definition set_read_offset (v : Z) (c : PGliteControl) : PGliteControl :=
  mkControl (operation c) (error_code c) v (total_read c) (total_written c).
Definition set_total_read (v : Z) (c : PGliteControl) : PGliteControl :=
  mkControl (operation c) (error_code c) (read_offset c) v (total_written c).
Definition set_total_written (v : Z) (c : PGliteControl) : PGliteControl :=
  mkControl (operation c) (error_code c) (read_offset c) (total_read c) v.

Definition upd_input (f : PGliteBuffer -> PGliteBuffer) (st : Channel) : Channel :=
  mkChannel (f (g_input_buffer st)) (g_output_buffer st) (g_control st).
Definition upd_output (f : PGliteBuffer -> PGliteBuffer) (st : Channel) : Channel :=
  mkChannel (g_input_buffer st) (f (g_output_buffer st)) (g_control st).
Definition upd_control (f : PGliteControl -> PGliteControl) (st : Channel) : Channel :=
  mkChannel (g_input_buffer st) (g_output_buffer st) (f (g_control st)).

(* ------------------------------------------------------------------ *)
(** ** Memory copies *)

(** [memcpy (dest + doff, src + soff, n)] on arrays held as lists: the new
    contents of [dest], or [None] when the copy would leave [dest] or
    [src]. *)
Definition memcpy (dest : list Z) (doff : Z) (src : list Z) (soff : Z) (n : Z)
  : option (list Z) :=
  if (0 <=? n) && (0 <=? doff) && (doff + n <=? Zlength dest)
     && (0 <=? soff) && (soff + n <=? Zlength src)
  then Some (firstn (Z.to_nat doff) dest
             ++ firstn (Z.to_nat n) (skipn (Z.to_nat soff) src)
             ++ skipn (Z.to_nat (doff + n)) dest)
  else None.

(** [a[i] = v] for an array held as a list; [None] out of bounds. *)
Definition store (a : list Z) (i : Z) (v : Z) : option (list Z) :=
  if (0 <=? i) && (i <? Zlength a)
  then Some (firstn (Z.to_nat i) a ++ v :: skipn (Z.to_nat (i + 1)) a)
  else None.

(** [a[i]] for an array held as a list (0 out of bounds; every use below is
    guarded by a bound). *)
Definition load (a : list Z) (i : Z) : Z := nth (Z.to_nat i) a 0.

(** Sequencing of calls that may be undefined. *)
Definition bind {A B : Type} (c : option A) (k : A -> option B) : option B :=
  match c with
  | Some a => k a
  | None => None
  end.

Notation "' p <- c ;; k" := (bind c (fun p => k))
  (at level 61, p pattern, c at next level, right associativity).

(* ------------------------------------------------------------------ *)
(** ** pglite-comm-polling.h *)

Module Polling.

(** [uint32_t pglite_get_buffer_size(void)] *)
Definition pglite_get_buffer_size : Z := PGLITE_BUFFER_SIZE.

(** [void pglite_signal_input_ready(uint32_t length)] *)
Definition pglite_signal_input_ready (len : Z) (st : Channel) : Channel :=
  let st := upd_input (set_length len) st in
  let st := upd_input (set_status BUFFER_READY) st in
  let st := upd_control (set_read_offset 0) st in
  st.

(** [void pglite_reset_buffers(void)] *)
Definition pglite_reset_buffers (st : Channel) : Channel :=
  let st := upd_input (set_status BUFFER_EMPTY) st in
  let st := upd_input (set_length 0) st in
  let st := upd_output (set_status BUFFER_EMPTY) st in
  let st := upd_output (set_length 0) st in
  let st := upd_control (set_operation OP_NONE) st in
  let st := upd_control (set_error_code 0) st in
  let st := upd_control (set_read_offset 0) st in
  let st := upd_control (set_total_read 0) st in
  let st := upd_control (set_total_written 0) st in
  st.

(** [int pglite_has_output(void)] *)
Definition pglite_has_output (st : Channel) : Z :=
  if status (g_output_buffer st) =? BUFFER_READY then 1 else 0.

(** [uint32_t pglite_get_output_length(void)] *)
Definition pglite_get_output_length (st : Channel) : Z :=
  length (g_output_buffer st).

(** [void pglite_ack_output(void)] *)
Definition pglite_ack_output (st : Channel) : Channel :=
  let st := upd_output (set_status BUFFER_EMPTY) st in
  let st := upd_output (set_length 0) st in
  st.

(** [static ssize_t pglite_polling_read(void *buf, size_t max_len)].
    [buf] is the contents of the destination array before the call; the
    result is its contents after the call, the returned value and the new
    globals. *)
Definition pglite_polling_read (buf : list Z) (max_len : Z) (st : Channel)
  : option (list Z * Z * Channel) :=
  if negb (status (g_input_buffer st) =? BUFFER_READY) then
    Some (buf, 0, st)
  else
    let available :=
      to_size_t (to_uint32 (length (g_input_buffer st) - read_offset (g_control st))) in
    if available =? 0 then
      let st := upd_input (set_status BUFFER_EMPTY) st in
      Some (buf, 0, st)
    else
      let to_read := if max_len <? available then max_len else available in
      ' buf <- memcpy buf 0 (data (g_input_buffer st)) (read_offset (g_control st)) to_read ;;
      let st := upd_control
                  (set_read_offset (to_uint32 (read_offset (g_control st) + to_read))) st in
      let st := upd_control
                  (set_total_read (to_uint32 (total_read (g_control st) + to_read))) st in
      let st := if length (g_input_buffer st) <=? read_offset (g_control st)
                then upd_input (set_status BUFFER_EMPTY) st
                else st in
      Some (buf, to_ssize_t to_read, st).

(** [static ssize_t pglite_polling_write(const void *buf, size_t len)] *)
Definition pglite_polling_write (buf : list Z) (len : Z) (st : Channel)
  : option (Z * Channel) :=
  if PGLITE_BUFFER_SIZE <? to_size_t (length (g_output_buffer st) + len) then
    let st := upd_output (set_status BUFFER_READY) st in
    let st := upd_control (set_operation OP_WRITE_READY) st in
    Some (-1, st)
  else
    ' d <- memcpy (data (g_output_buffer st)) (length (g_output_buffer st)) buf 0 len ;;
    let st := upd_output (set_data d) st in
    let st := upd_output (set_length (to_uint32 (length (g_output_buffer st) + len))) st in
    let st := upd_control
                (set_total_written (to_uint32 (total_written (g_control st) + len))) st in
    Some (to_ssize_t len, st).

(** [static void pglite_polling_flush(void)] *)
Definition pglite_polling_flush (st : Channel) : Channel :=
  if 0 <? length (g_output_buffer st) then
    let st := upd_output (set_status BUFFER_READY) st in
    let st := upd_control (set_operation OP_WRITE_READY) st in
    st
  else st.

(** [ssize_t recv(int, void *, size_t, int)] under [PGLITE_USE_POLLING] *)
Definition recv (buf : list Z) (n : Z) (st : Channel) : option (list Z * Z * Channel) :=
  pglite_polling_read buf n st.

(** [ssize_t send(int, const void *, size_t, int)] under [PGLITE_USE_POLLING] *)
Definition send (buf : list Z) (n : Z) (st : Channel) : option (Z * Channel) :=
  ' (result, st) <- pglite_polling_write buf n st ;;
  let st := pglite_polling_flush st in
  Some (result, st).

End Polling.

(* ------------------------------------------------------------------ *)
(** ** test-wasm.c *)

Module TestWasm.

(** [#define BUFFER_SIZE (64 * 1024)]. The [Buffer] and [Control] structs of
    this file repeat [PGliteBuffer] and [PGliteControl] field by field, and
    its globals [g_input], [g_output], [g_control] are the three fields of
    [Channel]. *)
Definition BUFFER_SIZE : Z := 64 * 1024.
Abbreviation Buffer := PGliteBuffer (only parsing).
Abbreviation Control := PGliteControl (only parsing).
Abbreviation g_input := g_input_buffer (only parsing).
Abbreviation g_output := g_output_buffer (only parsing).

(** [uint32_t get_buffer_size(void)] *)
Definition get_buffer_size : Z := BUFFER_SIZE.

(** [void reset_buffers(void)] *)
Definition reset_buffers (st : Channel) : Channel :=
  let st := upd_input (set_status BUFFER_EMPTY) st in
  let st := upd_input (set_length 0) st in
  let st := upd_output (set_status BUFFER_EMPTY) st in
  let st := upd_output (set_length 0) st in
  let st := upd_control (set_operation OP_NONE) st in
  let st := upd_control (set_error_code 0) st in
  let st := upd_control (set_read_offset 0) st in
  let st := upd_control (set_total_read 0) st in
  let st := upd_control (set_total_written 0) st in
  st.

(** [void signal_input_ready(uint32_t length)] *)
Definition signal_input_ready (len : Z) (st : Channel) : Channel :=
  let st := upd_input (set_length len) st in
  let st := upd_input (set_status BUFFER_READY) st in
  let st := upd_control (set_read_offset 0) st in
  st.

(** [int has_output(void)] *)
Definition has_output (st : Channel) : Z :=
  if status (g_output st) =? BUFFER_READY then 1 else 0.

(** [uint32_t get_output_length(void)] *)
Definition get_output_length (st : Channel) : Z := length (g_output st).

(** [void ack_output(void)] *)
Definition ack_output (st : Channel) : Channel :=
  let st := upd_output (set_status BUFFER_EMPTY) st in
  let st := upd_output (set_length 0) st in
  st.

(** [static ssize_t internal_read(void *buf, size_t max_len)] *)
Definition internal_read (buf : list Z) (max_len : Z) (st : Channel)
  : option (list Z * Z * Channel) :=
  if negb (status (g_input st) =? BUFFER_READY) then
    Some (buf, 0, st)
  else
    let available :=
      to_size_t (to_uint32 (length (g_input st) - read_offset (g_control st))) in
    if available =? 0 then
      let st := upd_input (set_status BUFFER_EMPTY) st in
      Some (buf, 0, st)
    else
      let to_read := if max_len <? available then max_len else available in
      ' buf <- memcpy buf 0 (data (g_input st)) (read_offset (g_control st)) to_read ;;
      let st := upd_control
                  (set_read_offset (to_uint32 (read_offset (g_control st) + to_read))) st in
      let st := upd_control
                  (set_total_read (to_uint32 (total_read (g_control st) + to_read))) st in
      let st := if length (g_input st) <=? read_offset (g_control st)
                then upd_input (set_status BUFFER_EMPTY) st
                else st in
      Some (buf, to_ssize_t to_read, st).

(** [static ssize_t internal_write(const void *buf, size_t len)] *)
Definition internal_write (buf : list Z) (len : Z) (st : Channel)
  : option (Z * Channel) :=
  if BUFFER_SIZE <? to_size_t (length (g_output st) + len) then
    let st := upd_output (set_status BUFFER_READY) st in
    let st := upd_control (set_operation OP_WRITE_READY) st in
    Some (-1, st)
  else
    ' d <- memcpy (data (g_output st)) (length (g_output st)) buf 0 len ;;
    let st := upd_output (set_data d) st in
    let st := upd_output (set_length (to_uint32 (length (g_output st) + len))) st in
    let st := upd_control
                (set_total_written (to_uint32 (total_written (g_control st) + len))) st in
    Some (to_ssize_t len, st).

(** [static void internal_flush(void)] *)
Definition internal_flush (st : Channel) : Channel :=
  if 0 <? length (g_output st) then
    let st := upd_output (set_status BUFFER_READY) st in
    let st := upd_control (set_operation OP_WRITE_READY) st in
    st
  else st.

(** The five header bytes: the tag and the big-endian [uint32_t] length. *)
Definition header_bytes (tag : Z) (len : Z) : list Z :=
  [ tag;
    Z.land (Z.shiftr len 24) 255;
    Z.land (Z.shiftr len 16) 255;
    Z.land (Z.shiftr len 8) 255;
    Z.land len 255 ].

(** The loop [for (int i = 0; i < bytes_read; i++)] of [process_message],
    [n] iterations from index [i]: letters ['a'] (97) to ['z'] (122) are
    replaced by [c - 'a' + 'A']. *)
Fixpoint uppercase_loop (n : nat) (i : Z) (local_buffer : list Z) : option (list Z) :=
  match n with
  | O => Some local_buffer
  | S n' =>
      let c := load local_buffer i in
      ' local_buffer <- (if (97 <=? c) && (c <=? 122)
                         then store local_buffer i (to_uint8 (c - 97 + 65))
                         else Some local_buffer) ;;
      uppercase_loop n' (i + 1) local_buffer
  end.

(** [int process_message(void)]. [local_buffer] is what the 1024-byte stack
    array of that name holds on entry (it is not initialised). *)
Definition process_message (local_buffer : list Z) (st : Channel)
  : option (Z * Channel) :=
  ' (local_buffer, bytes_read, st) <- internal_read local_buffer (1024 - 1) st ;;
  if bytes_read <=? 0 then
    let st := upd_control (set_error_code (-1)) st in
    let st := upd_control (set_operation OP_ERROR) st in
    Some (-1, st)
  else
    ' local_buffer <- store local_buffer bytes_read 0 ;;
    ' local_buffer <- uppercase_loop (Z.to_nat bytes_read) 0 local_buffer ;;
    let len := to_uint32 (bytes_read + 4) in
    let header := header_bytes 82 len in
    ' (_, st) <- internal_write header 5 st ;;
    ' (_, st) <- internal_write local_buffer (to_size_t bytes_read) st ;;
    let st := internal_flush st in
    let st := upd_control (set_operation OP_COMPLETED) st in
    Some (0, st).

(** Decimal digits of a non-negative [int], most significant first (an
    [int] has at most ten of them). *)
Fixpoint digits (fuel : nat) (n : Z) (acc : list Z) : list Z :=
  match fuel with
  | O => acc
  | S fuel' =>
      let acc := (48 + n mod 10) :: acc in
      if n / 10 =? 0 then acc else digits fuel' (n / 10) acc
  end.

(** What [%d] prints for an [int]. *)
Definition fmt_d (v : Z) : list Z :=
  if v <? 0 then 45 :: digits 10 (- v) [] else digits 10 v [].

(** The text of ["Row %d of %d\n"]. *)
Definition row_text (a b : Z) : list Z :=
  [82; 111; 119; 32] ++ fmt_d a ++ [32; 111; 102; 32] ++ fmt_d b ++ [10].

(** [snprintf(row_data, size, "Row %d of %d\n", a, b)]: the bytes it stores
    (at most [size - 1] characters and the terminating zero) and the value it
    returns (the length of the whole text). *)
Definition snprintf_row (size : Z) (a b : Z) : list Z * Z :=
  let text := row_text a b in
  (firstn (Z.to_nat (size - 1)) text ++ [0], Zlength text).

(** The [for] loop of [process_multi_row], [n] iterations from row index
    [i]. The first component of the result is the value of an early
    [return], if one was taken. *)
Fixpoint multi_row_loop (n : nat) (i : Z) (num_rows : Z) (st : Channel)
  : option (option Z * Channel) :=
  match n with
  | O => Some (None, st)
  | S n' =>
      let '(row_data, len) := snprintf_row 64 (i + 1) num_rows in
      let msg_len := to_uint32 (len + 4) in
      let header := header_bytes 68 msg_len in
      ' (r, st) <- internal_write header 5 st ;;
      if r <? 0 then
        let st := upd_control (set_error_code (-2)) st in
        let st := upd_control (set_operation OP_ERROR) st in
        Some (Some (-1), st)
      else
        ' (r, st) <- internal_write row_data (to_size_t len) st ;;
        if r <? 0 then
          let st := upd_control (set_error_code (-3)) st in
          let st := upd_control (set_operation OP_ERROR) st in
          Some (Some (-1), st)
        else
          multi_row_loop n' (i + 1) num_rows st
  end.

(** [int process_multi_row(int num_rows)] *)
Definition process_multi_row (num_rows : Z) (st : Channel) : option (Z * Channel) :=
  ' (early, st) <- multi_row_loop (Z.to_nat num_rows) 0 num_rows st ;;
  match early with
  | Some r => Some (r, st)
  | None =>
      let st := internal_flush st in
      let st := upd_control (set_operation OP_COMPLETED) st in
      Some (0, st)
  end.

(** [int main(void)] without its [printf] calls. *)
Definition main (st : Channel) : Z * Channel := (0, reset_buffers st).

End TestWasm.

(* ------------------------------------------------------------------ *)
(** ** Vocabulary of the properties *)

(** *** Runs of calls *)

(** The operations of the channel, as calls with their arguments. *)
Inductive call : Type :=
| SignalInputReady (len : Z)
| ResetBuffers
| AckOutput
| Read (buf : list Z) (max_len : Z)
| Write (buf : list Z) (len : Z)
| Flush.

(** The arguments fit their C types, and [signal_input_ready] is given at
    most the capacity. *)
Definition call_ok (c : call) : Prop :=
  match c with
  | SignalInputReady len => 0 <= len <= PGLITE_BUFFER_SIZE
  | Read _ max_len => uint32_range max_len
  | Write _ len => uint32_range len
  | ResetBuffers | AckOutput | Flush => True
  end.

(** The globals after a call, when it is defined. *)
Definition run_call (c : call) (st : Channel) : option Channel :=
  match c with
  | SignalInputReady len => Some (Polling.pglite_signal_input_ready len st)
  | ResetBuffers => Some (Polling.pglite_reset_buffers st)
  | AckOutput => Some (Polling.pglite_ack_output st)
  | Read buf max_len =>
      ' (_, _, st) <- Polling.pglite_polling_read buf max_len st ;; Some st
  | Write buf len =>
      ' (_, st) <- Polling.pglite_polling_write buf len st ;; Some st
  | Flush => Some (Polling.pglite_polling_flush st)
  end.

(** Calls in sequence. *)
Fixpoint run_calls (cs : list call) (st : Channel) : option Channel :=
  match cs with
  | [] => Some st
  | c :: cs' => ' st <- run_call c st ;; run_calls cs' st
  end.

(** A run of [read] calls, each with its destination array and its
    [max_len]; the result lists, call by call, the destination after the
    call and the returned value. *)
Fixpoint read_calls (reqs : list (list Z * Z)) (st : Channel)
  : option (list (list Z * Z) * Channel) :=
  match reqs with
  | [] => Some ([], st)
  | (buf, max_len) :: reqs' =>
      ' (buf', r, st) <- Polling.pglite_polling_read buf max_len st ;;
      ' (rest, st) <- read_calls reqs' st ;;
      Some ((buf', r) :: rest, st)
  end.

(** The bytes the calls delivered, in call order: the first [r] cells of
    each destination. *)
Definition received (results : list (list Z * Z)) : list Z :=
  flat_map (fun p => firstn (Z.to_nat (snd p)) (fst p)) results.

(** The sum of the second components: of the returned values for a list of
    results, of the [max_len]s for a list of requests. *)
Definition total (l : list (list Z * Z)) : Z :=
  fold_right (fun p acc => snd p + acc) 0 l.

(** A request is a [size_t] and does not exceed its destination array. *)
Definition request_ok (p : list Z * Z) : Prop :=
  uint32_range (snd p) /\ snd p <= Zlength (fst p).

(** Side B feeding [process_message] one input after the other and never
    acknowledging the output: [signal_input_ready (n)], then
    [process_message ()], for every [n] of the list. *)
Fixpoint echo_cycles (sizes : list Z) (local_buffer : list Z) (st : Channel)
  : option Channel :=
  match sizes with
  | [] => Some st
  | n :: sizes' =>
      ' (_, st) <- TestWasm.process_message local_buffer
                     (TestWasm.signal_input_ready n st) ;;
      echo_cycles sizes' local_buffer st
  end.

(** The bytes of the framed messages for payloads of the given sizes. *)
Definition framed_bytes (sizes : list Z) : Z :=
  fold_right (fun n acc => 5 + n + acc) 0 sizes.

(** *** Predicates on channels *)

(** The read cursor is inside the input: [0 <= read_offset <= input.length]. *)
Definition offset_inv (st : Channel) : Prop :=
  0 <= read_offset (g_control st) <= length (g_input_buffer st).

(** [input.length] is a [uint32_t]. *)
Definition input_length_typed (st : Channel) : Prop :=
  uint32_range (length (g_input_buffer st)).

(** The output buffer respects its array: [0 <= length <= capacity] and
    [data] has [capacity] cells. *)
Definition output_ok (st : Channel) : Prop :=
  Zlength (data (g_output_buffer st)) = PGLITE_BUFFER_SIZE /\
  0 <= length (g_output_buffer st) <= PGLITE_BUFFER_SIZE.

(** The bytes the output buffer of [st] holds are still there in [st']. *)
Definition output_kept (st st' : Channel) : Prop :=
  length (g_output_buffer st) <= length (g_output_buffer st') /\
  firstn (Z.to_nat (length (g_output_buffer st))) (data (g_output_buffer st'))
  = firstn (Z.to_nat (length (g_output_buffer st))) (data (g_output_buffer st)).

(** *** What the emitters compute *)

(** What one pass of the loop body of [process_message] makes of a byte. *)
Definition to_upper (c : Z) : Z :=
  if (97 <=? c) && (c <=? 122) then to_uint8 (c - 97 + 65) else c.

(** The bytes of the framed rows that [n] iterations from row index [i]
    emit when no [write] is rejected. *)
Fixpoint rows_bytes (n : nat) (i : Z) (num_rows : Z) : Z :=
  match n with
  | O => 0
  | S n' => 5 + Zlength (TestWasm.row_text (i + 1) num_rows) + rows_bytes n' (i + 1) num_rows
  end.

(** *** Concrete channels *)

(** The number of cells of a [data] array. *)
Definition cells : nat := Z.to_nat PGLITE_BUFFER_SIZE.

(** The statics at module start: zero-initialised. *)
Definition zero_data : list Z := repeat 0 cells.
Definition zero_buffer : PGliteBuffer := mkBuffer 0 0 zero_data.
Definition zero_channel : Channel :=
  mkChannel zero_buffer zero_buffer (mkControl 0 0 0 0 0).

(** ["hello"] and ["HELLO"]. *)
Definition hello : list Z := [104; 101; 108; 108; 111].
Definition HELLO : list Z := [72; 69; 76; 76; 79].

(** The zero-initialised channel after Side B has copied ["hello"] to the
    start of the input array. *)
Definition hello_data : list Z := hello ++ skipn 5 zero_data.
Definition hello_channel : Channel :=
  mkChannel (mkBuffer 0 0 hello_data) zero_buffer (mkControl 0 0 0 0 0).

(** The reset channel after a [write] of ["hello"] that was not flushed. *)
Definition pending_channel : Channel :=
  mkChannel zero_buffer
    (mkBuffer BUFFER_EMPTY 5 (hello ++ skipn 5 zero_data))
    (mkControl OP_NONE 0 0 0 5).

(** The reset channel after a [write] of [PGLITE_BUFFER_SIZE] bytes ['A']:
    the output buffer is full. *)
Definition full_channel : Channel :=
  mkChannel zero_buffer
    (mkBuffer BUFFER_EMPTY PGLITE_BUFFER_SIZE (repeat 65 cells))
    (mkControl OP_NONE 0 0 0 PGLITE_BUFFER_SIZE).

(** The channel in which ["hello"] has been signalled ready. *)
Definition hello_ready : Channel :=
  Polling.pglite_signal_input_ready 5 hello_channel.

(** *** Further runs of calls *)

(** A run of [write] calls, each writing one whole source array; the result
    lists the returned values. *)
Fixpoint write_calls (bufs : list (list Z)) (st : Channel)
  : option (list Z * Channel) :=
  match bufs with
  | [] => Some ([], st)
  | buf :: bufs' =>
      ' (r, st) <- Polling.pglite_polling_write buf (Zlength buf) st ;;
      ' (rs, st) <- write_calls bufs' st ;;
      Some (r :: rs, st)
  end.

(** Both buffers respect their arrays: [data] has [capacity] cells and
    [0 <= length <= capacity]. *)
Definition buffers_ok (st : Channel) : Prop :=
  Zlength (data (g_input_buffer st)) = PGLITE_BUFFER_SIZE /\
  0 <= length (g_input_buffer st) <= PGLITE_BUFFER_SIZE /\
  output_ok st.

(** The number that four bytes encode, most significant byte first. *)
Definition be32 (b1 b2 b3 b4 : Z) : Z := ((b1 * 256 + b2) * 256 + b3) * 256 + b4.

(** [st'] is [st] with [bytes] appended to the output buffer. *)
Definition appended (st st' : Channel) (bytes : list Z) : Prop :=
  output_ok st' /\
  output_kept st st' /\
  length (g_output_buffer st') = length (g_output_buffer st) + Zlength bytes /\
  firstn (Z.to_nat (Zlength bytes))
    (skipn (Z.to_nat (length (g_output_buffer st))) (data (g_output_buffer st')))
  = bytes.

(** The framed rows that [n] iterations from row index [i] emit when no
    [write] is rejected: for each row the tag ['D'], the big-endian length
    of the text plus 4, and the text. *)
Fixpoint rows_frames (n : nat) (i : Z) (num_rows : Z) : list Z :=
  match n with
  | O => []
  | S n' =>
      TestWasm.header_bytes 68 (Zlength (TestWasm.row_text (i + 1) num_rows) + 4)
      ++ TestWasm.row_text (i + 1) num_rows
      ++ rows_frames n' (i + 1) num_rows
  end.

(** *** Calls whose arrays are really there *)

(** The caller's side of the copies: the destination of a [read] has room
    for [max_len] bytes, the source of a [write] holds [len] bytes, and the
    host announces no more input than the buffer can hold. *)
Definition call_safe (c : call) : Prop :=
  match c with
  | SignalInputReady len => 0 <= len <= PGLITE_BUFFER_SIZE
  | Read buf max_len => 0 <= max_len <= Zlength buf /\ max_len < two32
  | Write buf len => 0 <= len <= Zlength buf /\ len < two32 - PGLITE_BUFFER_SIZE
  | ResetBuffers | AckOutput | Flush => True
  end.

(** *** The exported interface of the test module *)

(** The state-changing exports of test-wasm.c. [process_message] comes with
    the contents its stack array [local_buffer] happens to have on entry. *)
Inductive export_call : Type :=
  | ExportResetBuffers
  | ExportSignalInputReady (len : Z)
  | ExportAckOutput
  | ExportProcessMessage (local_buffer : list Z)
  | ExportProcessMultiRow (num_rows : Z).

Definition export_ok (c : export_call) : Prop :=
  match c with
  | ExportSignalInputReady len => 0 <= len <= TestWasm.BUFFER_SIZE
  | ExportProcessMessage local_buffer => Zlength local_buffer = 1024
  | ExportProcessMultiRow num_rows => int32_range num_rows
  | ExportResetBuffers | ExportAckOutput => True
  end.

Definition run_export (c : export_call) (st : Channel) : option Channel :=
  match c with
  | ExportResetBuffers => Some (TestWasm.reset_buffers st)
  | ExportSignalInputReady len => Some (TestWasm.signal_input_ready len st)
  | ExportAckOutput => Some (TestWasm.ack_output st)
  | ExportProcessMessage local_buffer =>
      ' (_, st) <- TestWasm.process_message local_buffer st ;; Some st
  | ExportProcessMultiRow num_rows =>
      ' (_, st) <- TestWasm.process_multi_row num_rows st ;; Some st
  end.

Fixpoint run_exports (cs : list export_call) (st : Channel) : option Channel :=
  match cs with
  | [] => Some st
  | c :: cs' => ' st <- run_export c st ;; run_exports cs' st
  end.

(** What the host can rely on between two exported calls. *)
Definition export_inv (st : Channel) : Prop :=
  buffers_ok st /\
  offset_inv st /\
  (status (g_input_buffer st) = BUFFER_EMPTY \/
   status (g_input_buffer st) = BUFFER_READY) /\
  (status (g_output_buffer st) = BUFFER_READY \/
   status (g_output_buffer st) = BUFFER_EMPTY /\ length (g_output_buffer st) = 0) /\
  (operation (g_control st) = OP_NONE \/
   operation (g_control st) = OP_COMPLETED \/
   operation (g_control st) = OP_ERROR) /\
  (error_code (g_control st) = 0 \/ error_code (g_control st) = -1 \/
   error_code (g_control st) = -2 \/ error_code (g_control st) = -3).

(** *** Sources that can exist *)

(** [sizeof (PGliteBuffer)]: the packed struct holds two [uint32_t] fields
    and the data array. *)
Definition sizeof_PGliteBuffer : Z := 4 + 4 + PGLITE_BUFFER_SIZE.

(** A source array that lies beside the output buffer in the [2^32] bytes a
    wasm32 memory can address. *)
Definition source_in_memory (buf : list Z) : Prop :=
  Zlength buf + sizeof_PGliteBuffer <= two32.

(* ------------------------------------------------------------------ *)
(** ** The two files agree *)

(** The two files hold the same channel code under different names. *)
Lemma internal_read_same : forall buf max_len st,
  TestWasm.internal_read buf max_len st = Polling.pglite_polling_read buf max_len st.
Proof. reflexivity. Qed.

Lemma internal_write_same : forall buf len st,
  TestWasm.internal_write buf len st = Polling.pglite_polling_write buf len st.
Proof. reflexivity. Qed.

Lemma internal_flush_same : forall st,
  TestWasm.internal_flush st = Polling.pglite_polling_flush st.
Proof. reflexivity. Qed.

Lemma ack_output_same : forall st,
  TestWasm.ack_output st = Polling.pglite_ack_output st.
Proof. reflexivity. Qed.

Lemma reset_buffers_same : forall st,
  TestWasm.reset_buffers st = Polling.pglite_reset_buffers st.
Proof. reflexivity. Qed.

Lemma signal_input_ready_same : forall len st,
  TestWasm.signal_input_ready len st = Polling.pglite_signal_input_ready len st.
Proof. reflexivity. Qed.


(* ------------------------------------------------------------------ *)
(** ** Facts on machine integers and arrays *)

Section MachineIntegers.

Lemma to_uint32_small : forall x, uint32_range x -> to_uint32 x = x.
Proof. intros x Hx. unfold to_uint32. apply Z.mod_small. exact Hx. Qed.

Lemma to_size_t_small : forall x, uint32_range x -> to_size_t x = x.
Proof. intros x Hx. unfold to_size_t. apply Z.mod_small. exact Hx. Qed.

Lemma to_uint32_range : forall x, uint32_range (to_uint32 x).
Proof.
  intro x. unfold uint32_range, to_uint32.
  apply Z.mod_pos_bound. unfold two32. lia.
Qed.

Lemma to_size_t_range : forall x, uint32_range (to_size_t x).
Proof. exact to_uint32_range. Qed.

Lemma to_ssize_t_small : forall x, 0 <= x < two31 -> to_ssize_t x = x.
Proof.
  intros x Hx. unfold to_ssize_t.
  rewrite Z.mod_small by (unfold two31, two32 in *; lia).
  destruct (Z.ltb_spec x two31); lia.
Qed.

(** The unsigned difference of [read]: exact when the cursor is inside the
    input, a wrapped value otherwise. *)
Lemma available_exact : forall len off,
  uint32_range len -> 0 <= off <= len ->
  to_size_t (to_uint32 (len - off)) = len - off.
Proof.
  intros len off Hlen Hoff.
  assert (uint32_range (len - off)) by (unfold uint32_range in *; lia).
  rewrite (to_uint32_small (len - off)) by assumption.
  apply to_size_t_small. assumption.
Qed.

End MachineIntegers.

Section Arrays.

Lemma Zlength_nonneg : forall (l : list Z), 0 <= Zlength l.
Proof. intro l. rewrite Zlength_correct. lia. Qed.

Lemma Zlength_app : forall (l1 l2 : list Z),
  Zlength (l1 ++ l2) = Zlength l1 + Zlength l2.
Proof. intros. rewrite !Zlength_correct, length_app. lia. Qed.

Lemma Zlength_firstn : forall (l : list Z) n,
  0 <= n <= Zlength l -> Zlength (firstn (Z.to_nat n) l) = n.
Proof. intros l n. rewrite !Zlength_correct, length_firstn. lia. Qed.

Lemma Zlength_skipn : forall (l : list Z) n,
  0 <= n <= Zlength l -> Zlength (skipn (Z.to_nat n) l) = Zlength l - n.
Proof. intros l n. rewrite !Zlength_correct, length_skipn. lia. Qed.

Lemma Zlength_repeat : forall (x : Z) n, Zlength (repeat x n) = Z.of_nat n.
Proof. intros. rewrite Zlength_correct, repeat_length. reflexivity. Qed.

(** A copy inside both arrays is defined and is the expected splice. *)
Lemma memcpy_in_bounds : forall dest doff src soff n,
  0 <= n -> 0 <= doff -> doff + n <= Zlength dest ->
  0 <= soff -> soff + n <= Zlength src ->
  memcpy dest doff src soff n =
    Some (firstn (Z.to_nat doff) dest
          ++ firstn (Z.to_nat n) (skipn (Z.to_nat soff) src)
          ++ skipn (Z.to_nat (doff + n)) dest).
Proof.
  intros. unfold memcpy.
  repeat match goal with
         | |- context [?a <=? ?b] => destruct (Z.leb_spec a b); try lia
         end.
  reflexivity.
Qed.

(** Conversely a defined copy was inside both arrays. *)
Lemma memcpy_defined : forall dest doff src soff n d,
  memcpy dest doff src soff n = Some d ->
  (0 <= n /\ 0 <= doff /\ doff + n <= Zlength dest /\
   0 <= soff /\ soff + n <= Zlength src) /\
  d = firstn (Z.to_nat doff) dest
      ++ firstn (Z.to_nat n) (skipn (Z.to_nat soff) src)
      ++ skipn (Z.to_nat (doff + n)) dest.
Proof.
  intros dest doff src soff n d. unfold memcpy.
  repeat match goal with
         | |- context [?a <=? ?b] => destruct (Z.leb_spec a b)
         end; simpl; intro Heq; try discriminate.
  injection Heq as <-. split; [lia | reflexivity].
Qed.

(** A copy keeps the size of the destination, leaves the cells before
    [doff] alone and puts the source bytes at [doff]. *)
Lemma memcpy_Zlength : forall dest doff src soff n d,
  memcpy dest doff src soff n = Some d -> Zlength d = Zlength dest.
Proof.
  intros dest doff src soff n d Hd.
  apply memcpy_defined in Hd. destruct Hd as [Hb ->].
  rewrite !Zlength_app, Zlength_firstn, Zlength_firstn, Zlength_skipn; try lia.
  rewrite Zlength_skipn; lia.
Qed.

Lemma memcpy_before : forall dest doff src soff n d,
  memcpy dest doff src soff n = Some d ->
  firstn (Z.to_nat doff) d = firstn (Z.to_nat doff) dest.
Proof.
  intros dest doff src soff n d Hd.
  apply memcpy_defined in Hd. destruct Hd as [Hb ->].
  rewrite firstn_app.
  assert (Hl : List.length (firstn (Z.to_nat doff) dest) = Z.to_nat doff).
  { rewrite length_firstn. rewrite Zlength_correct in Hb. lia. }
  rewrite Hl, Nat.sub_diag, firstn_0, app_nil_r.
  rewrite firstn_firstn. f_equal. lia.
Qed.

Lemma memcpy_copied : forall dest doff src soff n d,
  memcpy dest doff src soff n = Some d ->
  firstn (Z.to_nat n) (skipn (Z.to_nat doff) d)
  = firstn (Z.to_nat n) (skipn (Z.to_nat soff) src).
Proof.
  intros dest doff src soff n d Hd.
  apply memcpy_defined in Hd. destruct Hd as [Hb ->].
  rewrite !Zlength_correct in Hb.
  assert (Hl : List.length (firstn (Z.to_nat doff) dest) = Z.to_nat doff).
  { rewrite length_firstn. lia. }
  rewrite skipn_app, Hl, Nat.sub_diag, skipn_0.
  rewrite skipn_all2 by lia. simpl.
  rewrite firstn_app.
  assert (Hc : List.length (firstn (Z.to_nat n) (skipn (Z.to_nat soff) src)) = Z.to_nat n).
  { rewrite length_firstn, length_skipn. lia. }
  rewrite Hc, Nat.sub_diag, firstn_0, app_nil_r.
  rewrite firstn_firstn. f_equal. lia.
Qed.

End Arrays.

(* ------------------------------------------------------------------ *)
(** ** The adapter's operations, case by case *)

Section Adapter.

Import Polling.

Variable st : Channel.

Let inp := g_input_buffer st.
Let out := g_output_buffer st.
Let ctl := g_control st.

(** Step 1 of [read]: nothing is ready. *)
Lemma read_not_ready : forall buf max_len,
  status inp <> BUFFER_READY ->
  pglite_polling_read buf max_len st = Some (buf, 0, st).
Proof.
  intros buf max_len Hs. unfold pglite_polling_read.
  fold inp. destruct (Z.eqb_spec (status inp) BUFFER_READY); [contradiction | reflexivity].
Qed.

(** Step 2 of [read]: the input is ready but the cursor is at its end. *)
Lemma read_drained : forall buf max_len,
  status inp = BUFFER_READY ->
  read_offset ctl = length inp ->
  pglite_polling_read buf max_len st
  = Some (buf, 0, upd_input (set_status BUFFER_EMPTY) st).
Proof.
  intros buf max_len Hs Ho. unfold pglite_polling_read.
  fold inp ctl. rewrite Hs, Ho, Z.sub_diag. reflexivity.
Qed.

(** Steps 3 to 5 of [read]: [n = min (max_len, available)] bytes are copied
    from the cursor on. *)
Lemma read_copies : forall buf max_len,
  status inp = BUFFER_READY ->
  Zlength (data inp) = PGLITE_BUFFER_SIZE ->
  0 <= read_offset ctl < length inp ->
  length inp <= PGLITE_BUFFER_SIZE ->
  0 <= max_len ->
  Z.min max_len (length inp - read_offset ctl) <= Zlength buf ->
  let n := Z.min max_len (length inp - read_offset ctl) in
  pglite_polling_read buf max_len st
  = Some (firstn (Z.to_nat n) (skipn (Z.to_nat (read_offset ctl)) (data inp))
            ++ skipn (Z.to_nat n) buf,
          n,
          mkChannel
            (if length inp <=? read_offset ctl + n
             then set_status BUFFER_EMPTY inp else inp)
            out
            (mkControl (operation ctl) (error_code ctl)
                       (read_offset ctl + n)
                       (to_uint32 (total_read ctl + n))
                       (total_written ctl))).
Proof.
  intros buf max_len Hs Hd Ho Hlen Hm Hb n.
  assert (Hsz : PGLITE_BUFFER_SIZE = 65536) by reflexivity.
  assert (Hu : uint32_range (length inp)) by (unfold uint32_range, two32; lia).
  unfold pglite_polling_read. fold inp ctl.
  rewrite Hs. simpl negb. cbv iota.
  rewrite available_exact by (assumption || lia).
  destruct (Z.eqb_spec (length inp - read_offset ctl) 0) as [E|_]; [lia|].
  replace (if max_len <? length inp - read_offset ctl
           then max_len else length inp - read_offset ctl) with n
    by (subst n; destruct (Z.ltb_spec max_len (length inp - read_offset ctl)); lia).
  assert (Hn : 0 <= n <= length inp - read_offset ctl) by (subst n; lia).
  rewrite memcpy_in_bounds by (fold n in Hb; lia).
  unfold bind. simpl firstn. rewrite Z.add_0_l. simpl app.
  unfold upd_control, upd_input, set_read_offset, set_total_read; simpl.
  fold inp ctl out.
  rewrite (to_uint32_small (read_offset ctl + n))
    by (unfold uint32_range, two32; lia).
  rewrite to_ssize_t_small by (unfold two31; lia).
  destruct (Z.leb_spec (length inp) (read_offset ctl + n)); reflexivity.
Qed.

(** The overflow branch of [write], as the code tests it: on the 32-bit sum. *)
Lemma write_rejects : forall buf len,
  PGLITE_BUFFER_SIZE < to_size_t (length out + len) ->
  pglite_polling_write buf len st
  = Some (-1, upd_control (set_operation OP_WRITE_READY)
                (upd_output (set_status BUFFER_READY) st)).
Proof.
  intros buf len H. unfold pglite_polling_write. fold out.
  destruct (Z.ltb_spec PGLITE_BUFFER_SIZE (to_size_t (length out + len))); [reflexivity | lia].
Qed.

(** The append branch of [write]. *)
Lemma write_appends : forall buf len,
  Zlength (data out) = PGLITE_BUFFER_SIZE ->
  0 <= length out ->
  0 <= len <= Zlength buf ->
  length out + len <= PGLITE_BUFFER_SIZE ->
  pglite_polling_write buf len st
  = Some (len,
          mkChannel inp
            (mkBuffer (status out) (length out + len)
               (firstn (Z.to_nat (length out)) (data out)
                ++ firstn (Z.to_nat len) buf
                ++ skipn (Z.to_nat (length out + len)) (data out)))
            (mkControl (operation ctl) (error_code ctl) (read_offset ctl)
                       (total_read ctl) (to_uint32 (total_written ctl + len)))).
Proof.
  intros buf len Hd Ho Hl Hfit.
  assert (Hsz : PGLITE_BUFFER_SIZE = 65536) by reflexivity.
  assert (Hu : uint32_range (length out + len)) by (unfold uint32_range, two32; lia).
  unfold pglite_polling_write. fold out.
  rewrite (to_size_t_small _ Hu).
  destruct (Z.ltb_spec PGLITE_BUFFER_SIZE (length out + len)); [lia|].
  rewrite memcpy_in_bounds by lia.
  unfold bind. rewrite skipn_0.
  unfold upd_output, upd_control, set_data, set_length, set_total_written; simpl.
  fold inp out ctl.
  rewrite (to_uint32_small _ Hu).
  rewrite to_ssize_t_small by (unfold two31; lia).
  reflexivity.
Qed.

(** What a defined [write] went through: the overflow branch, or a copy
    that stayed inside both arrays. *)
Lemma write_defined_cases : forall buf len r st',
  pglite_polling_write buf len st = Some (r, st') ->
  (PGLITE_BUFFER_SIZE < to_size_t (length out + len) /\ r = -1) \/
  (to_size_t (length out + len) <= PGLITE_BUFFER_SIZE /\
   0 <= len <= Zlength buf /\
   0 <= length out /\
   length out + len <= Zlength (data out)).
Proof.
  intros buf len r st' H. unfold pglite_polling_write in H. fold out in H.
  destruct (Z.ltb_spec PGLITE_BUFFER_SIZE (to_size_t (length out + len))).
  - left. injection H as <- _. split; [assumption | reflexivity].
  - right. unfold bind in H.
    destruct (memcpy (data out) (length out) buf 0 len) as [d|] eqn:Hm; [|discriminate].
    apply memcpy_defined in Hm. destruct Hm as [Hb _]. lia.
Qed.

End Adapter.

(* ------------------------------------------------------------------ *)
(** ** Concrete channels *)

Section ConcreteChannels.

Import Polling.

Lemma cells_size : Z.of_nat cells = PGLITE_BUFFER_SIZE.
Proof. unfold cells. apply Z2Nat.id. unfold PGLITE_BUFFER_SIZE. lia. Qed.

Lemma zero_data_Zlength : Zlength zero_data = PGLITE_BUFFER_SIZE.
Proof. unfold zero_data. rewrite Zlength_repeat. apply cells_size. Qed.

Lemma hello_data_Zlength : Zlength hello_data = PGLITE_BUFFER_SIZE.
Proof.
  unfold hello_data. rewrite Zlength_app.
  change (skipn 5 zero_data) with (skipn (Z.to_nat 5) zero_data).
  rewrite (Zlength_skipn zero_data 5) by (rewrite zero_data_Zlength; unfold PGLITE_BUFFER_SIZE; lia).
  rewrite zero_data_Zlength. reflexivity.
Qed.

Lemma full_data_Zlength :
  Zlength (data (g_output_buffer full_channel)) = PGLITE_BUFFER_SIZE.
Proof.
  change (data (g_output_buffer full_channel)) with (repeat 65 cells).
  rewrite Zlength_repeat. apply cells_size.
Qed.

Lemma pending_channel_reached :
  pglite_polling_write hello 5 (pglite_reset_buffers zero_channel)
  = Some (5, pending_channel).
Proof.
  rewrite write_appends.
  - reflexivity.
  - exact zero_data_Zlength.
  - simpl. lia.
  - split; [lia | reflexivity].
  - simpl. unfold PGLITE_BUFFER_SIZE. lia.
Qed.

Lemma full_channel_reached :
  pglite_polling_write (repeat 65 cells) PGLITE_BUFFER_SIZE
    (pglite_reset_buffers zero_channel)
  = Some (PGLITE_BUFFER_SIZE, full_channel).
Proof.
  assert (Hc : Z.to_nat PGLITE_BUFFER_SIZE = cells) by reflexivity.
  rewrite write_appends.
  - change (length (g_output_buffer (pglite_reset_buffers zero_channel))) with 0.
    change (data (g_output_buffer (pglite_reset_buffers zero_channel))) with zero_data.
    rewrite Z.add_0_l, Hc. change (Z.to_nat 0) with 0%nat.
    rewrite firstn_0, app_nil_l.
    rewrite (firstn_all2 (n := cells) (repeat 65 cells)) by (rewrite repeat_length; apply Nat.le_refl).
    rewrite (skipn_all2 (n := cells) zero_data) by (unfold zero_data; rewrite repeat_length; apply Nat.le_refl).
    rewrite app_nil_r. reflexivity.
  - exact zero_data_Zlength.
  - simpl. lia.
  - rewrite Zlength_repeat, cells_size. unfold PGLITE_BUFFER_SIZE. lia.
  - simpl. lia.
Qed.

End ConcreteChannels.

(* ------------------------------------------------------------------ *)
(** ** Reset, flush, acknowledge *)

Section Handshake.

Import Polling.

(** C8. After [reset]: [has_output] is false, [get_output_length] is 0, both
    cumulative counters are 0, both buffers are Empty with length 0 and the
    control block is all-zero. *)
Theorem reset_complete : forall st,
  let st' := pglite_reset_buffers st in
  pglite_has_output st' = 0 /\
  pglite_get_output_length st' = 0 /\
  total_read (g_control st') = 0 /\
  total_written (g_control st') = 0 /\
  status (g_input_buffer st') = BUFFER_EMPTY /\
  length (g_input_buffer st') = 0 /\
  status (g_output_buffer st') = BUFFER_EMPTY /\
  length (g_output_buffer st') = 0 /\
  g_control st' = mkControl OP_NONE 0 0 0 0.
Proof. intro st. repeat split. Qed.

(** C7. [flush] sets the output status to Ready and the operation to
    WriteReady when [output.length > 0] and touches nothing else; when the
    length is not positive (for an unsigned field: is 0) it changes nothing
    at all; it never changes [output.length] or the output bytes.
    [internal_flush] does the same. *)
Theorem flush_spec : forall st,
  let st' := pglite_polling_flush st in
  TestWasm.internal_flush st = st' /\
  (0 < length (g_output_buffer st) ->
     status (g_output_buffer st') = BUFFER_READY /\
     operation (g_control st') = OP_WRITE_READY /\
     st' = upd_control (set_operation OP_WRITE_READY)
             (upd_output (set_status BUFFER_READY) st)) /\
  (length (g_output_buffer st) <= 0 -> st' = st) /\
  length (g_output_buffer st') = length (g_output_buffer st) /\
  data (g_output_buffer st') = data (g_output_buffer st).
Proof.
  intro st. cbv zeta. split; [apply internal_flush_same|].
  unfold pglite_polling_flush.
  destruct (Z.ltb_spec 0 (length (g_output_buffer st))).
  - repeat split; intros; try reflexivity; lia.
  - repeat split; intros; try reflexivity; lia.
Qed.

Lemma flush_spec_witness :
  status (g_output_buffer (pglite_polling_flush pending_channel)) = BUFFER_READY /\
  pglite_polling_flush zero_channel = zero_channel.
Proof.
  split.
  - apply (proj2 (flush_spec pending_channel)). reflexivity.
  - apply (proj2 (flush_spec zero_channel)). simpl. lia.
Defined.

(** C5, as stated, fails: after a [write] that has not been flushed
    [has_output] is false, yet [acknowledge_output] clears the pending
    length. *)
Lemma ack_not_noop :
  pglite_polling_write hello 5 (pglite_reset_buffers zero_channel)
    = Some (5, pending_channel) /\
  pglite_has_output pending_channel = 0 /\
  length (g_output_buffer pending_channel) = 5 /\
  length (g_output_buffer (pglite_ack_output pending_channel)) = 0 /\
  g_output_buffer (pglite_ack_output pending_channel) <> g_output_buffer pending_channel.
Proof.
  split; [exact pending_channel_reached|].
  repeat split. intro H. apply (f_equal length) in H. discriminate H.
Qed.

(** C5, amended. When [has_output] is false, [acknowledge_output] leaves the
    output Empty with length 0 and touches nothing else, so [has_output]
    stays false; it is a no-op exactly on the channels whose output already
    is Empty with length 0. [ack_output] of [test-wasm.c] does the same. *)
Theorem ack_output_spec : forall st,
  pglite_has_output st = 0 ->
  let st' := pglite_ack_output st in
  TestWasm.ack_output st = st' /\
  status (g_output_buffer st') = BUFFER_EMPTY /\
  length (g_output_buffer st') = 0 /\
  data (g_output_buffer st') = data (g_output_buffer st) /\
  g_input_buffer st' = g_input_buffer st /\
  g_control st' = g_control st /\
  pglite_has_output st' = 0 /\
  (st' = st <->
   status (g_output_buffer st) = BUFFER_EMPTY /\ length (g_output_buffer st) = 0).
Proof.
  intros st _. cbv zeta.
  do 7 (split; [reflexivity|]).
  split.
  - intro H. apply (f_equal g_output_buffer) in H. simpl in H.
    rewrite <- H. split; reflexivity.
  - intros [Hs Hl]. destruct st as [i [s l d] c]. simpl in *. subst. reflexivity.
Qed.

Lemma ack_output_spec_witness :
  pglite_has_output zero_channel = 0 /\ pglite_ack_output zero_channel = zero_channel.
Proof.
  split; [reflexivity|].
  apply (ack_output_spec zero_channel); [reflexivity | split; reflexivity].
Defined.

End Handshake.

(* ------------------------------------------------------------------ *)
(** ** Overflow of the output buffer *)

Section Overflow.

Import Polling.

(** C2. Whenever [output.length + len] exceeds the capacity, [write] copies
    nothing ([output.data] and [output.length] keep their values), returns
    the error value -1, and sets the output status to Ready and the operation
    to WriteReady; nothing else changes. This is what every defined call
    does, on every channel state; and the call is defined for every source
    that can exist: on an output of at most [capacity] bytes, with [len]
    bytes in a source array that lies beside the output buffer in the memory
    of the wasm32 target. The same holds of [internal_write]. *)
Theorem write_overflow : forall st buf len,
  Zlength (data (g_output_buffer st)) = PGLITE_BUFFER_SIZE ->
  PGLITE_BUFFER_SIZE < length (g_output_buffer st) + len ->
  let st_err := upd_control (set_operation OP_WRITE_READY)
                  (upd_output (set_status BUFFER_READY) st) in
  data (g_output_buffer st_err) = data (g_output_buffer st) /\
  length (g_output_buffer st_err) = length (g_output_buffer st) /\
  status (g_output_buffer st_err) = BUFFER_READY /\
  operation (g_control st_err) = OP_WRITE_READY /\
  (forall r st',
     pglite_polling_write buf len st = Some (r, st') -> r = -1 /\ st' = st_err) /\
  (forall r st',
     TestWasm.internal_write buf len st = Some (r, st') -> r = -1 /\ st' = st_err) /\
  (length (g_output_buffer st) <= PGLITE_BUFFER_SIZE ->
   0 <= len <= Zlength buf ->
   source_in_memory buf ->
   pglite_polling_write buf len st = Some (-1, st_err) /\
   TestWasm.internal_write buf len st = Some (-1, st_err)).
Proof.
  intros st buf len Hd Hover st_err.
  split; [reflexivity|]. split; [reflexivity|].
  split; [reflexivity|]. split; [reflexivity|].
  assert (Hdef : forall r st',
            pglite_polling_write buf len st = Some (r, st') -> r = -1 /\ st' = st_err).
  { intros r st' H.
    destruct (write_defined_cases st buf len r st' H) as [[Hw ->] | (_ & _ & _ & Hin)].
    - rewrite (write_rejects st buf len Hw) in H. injection H as <-.
      split; reflexivity.
    - rewrite Hd in Hin. lia. }
  split; [exact Hdef|].
  split; [intros r st' H; rewrite internal_write_same in H; exact (Hdef r st' H)|].
  intros Hl Hlen Hmem.
  assert (Hw : PGLITE_BUFFER_SIZE < to_size_t (length (g_output_buffer st) + len)).
  { rewrite to_size_t_small; [exact Hover|].
    unfold source_in_memory, sizeof_PGliteBuffer in Hmem.
    unfold uint32_range, two32, PGLITE_BUFFER_SIZE in *. lia. }
  split; [|rewrite internal_write_same]; apply write_rejects; exact Hw.
Qed.

Lemma write_overflow_witness :
  pglite_polling_write hello 5 full_channel
  = Some (-1, upd_control (set_operation OP_WRITE_READY)
                (upd_output (set_status BUFFER_READY) full_channel)) /\
  TestWasm.internal_write hello 5 full_channel
  = Some (-1, upd_control (set_operation OP_WRITE_READY)
                (upd_output (set_status BUFFER_READY) full_channel)).
Proof.
  assert (Hover : PGLITE_BUFFER_SIZE < length (g_output_buffer full_channel) + 5)
    by reflexivity.
  pose proof (write_overflow full_channel hello 5 full_data_Zlength Hover) as H.
  cbv zeta in H. destruct H as (_ & _ & _ & _ & _ & _ & H).
  apply H.
  - change (length (g_output_buffer full_channel)) with PGLITE_BUFFER_SIZE. lia.
  - split; [lia | reflexivity].
  - unfold source_in_memory. discriminate.
Defined.

(** Why the source has to be one that can exist: on the full output buffer
    a [len] of [2^32 - 65536] makes the 32-bit sum [output.length + len]
    wrap to 0, the capacity test passes, and the [memcpy] that follows would
    leave the array, so that the call has no defined result. No array of
    that length lies beside the output buffer in a wasm32 memory. *)
Lemma write_overflow_wraps :
  PGLITE_BUFFER_SIZE < length (g_output_buffer full_channel) + 4294901760 /\
  uint32_range 4294901760 /\
  to_size_t (length (g_output_buffer full_channel) + 4294901760) = 0 /\
  (forall buf, Zlength buf = 4294901760 -> ~ source_in_memory buf) /\
  ~ (exists buf r st', pglite_polling_write buf 4294901760 full_channel = Some (r, st')).
Proof.
  split; [reflexivity|]. split; [split; [discriminate | reflexivity]|].
  split; [reflexivity|].
  split.
  { intros buf Hb. unfold source_in_memory, sizeof_PGliteBuffer, two32, PGLITE_BUFFER_SIZE.
    rewrite Hb. lia. }
  intros (buf & r & st' & H).
  apply write_defined_cases in H.
  rewrite full_data_Zlength in H.
  change (length (g_output_buffer full_channel)) with PGLITE_BUFFER_SIZE in H.
  change (to_size_t (PGLITE_BUFFER_SIZE + 4294901760)) with 0 in H.
  unfold PGLITE_BUFFER_SIZE in H. lia.
Qed.

End Overflow.

(* ------------------------------------------------------------------ *)
(** ** The two directions do not interfere *)

Section Frame.

Import Polling.

Lemma read_frame : forall st buf max_len buf' r st',
  pglite_polling_read buf max_len st = Some (buf', r, st') ->
  g_output_buffer st' = g_output_buffer st /\
  operation (g_control st') = operation (g_control st) /\
  error_code (g_control st') = error_code (g_control st) /\
  total_written (g_control st') = total_written (g_control st).
Proof.
  intros st buf max_len buf' r st' H. unfold pglite_polling_read in H.
  destruct (negb (status (g_input_buffer st) =? BUFFER_READY)).
  { injection H as _ _ <-. repeat split. }
  destruct (to_size_t (to_uint32 (length (g_input_buffer st) - read_offset (g_control st))) =? 0).
  { injection H as _ _ <-. repeat split. }
  unfold bind in H.
  destruct (memcpy buf 0 (data (g_input_buffer st)) (read_offset (g_control st)) _);
    [|discriminate].
  injection H as _ _ <-.
  match goal with |- context [if ?c then _ else _] => destruct c end; repeat split.
Qed.

Lemma write_frame : forall st buf len r st',
  pglite_polling_write buf len st = Some (r, st') ->
  g_input_buffer st' = g_input_buffer st /\
  read_offset (g_control st') = read_offset (g_control st) /\
  total_read (g_control st') = total_read (g_control st).
Proof.
  intros st buf len r st' H. unfold pglite_polling_write in H.
  destruct (PGLITE_BUFFER_SIZE <? to_size_t (length (g_output_buffer st) + len)).
  { injection H as _ <-. repeat split. }
  unfold bind in H.
  destruct (memcpy (data (g_output_buffer st)) (length (g_output_buffer st)) buf 0 len);
    [|discriminate].
  injection H as _ <-. repeat split.
Qed.

Lemma flush_frame : forall st,
  g_input_buffer (pglite_polling_flush st) = g_input_buffer st /\
  read_offset (g_control (pglite_polling_flush st)) = read_offset (g_control st) /\
  total_read (g_control (pglite_polling_flush st)) = total_read (g_control st).
Proof.
  intro st. unfold pglite_polling_flush.
  destruct (0 <? length (g_output_buffer st)); repeat split.
Qed.

(** C10. A defined [read] leaves the output buffer (status, length and
    bytes), the operation code, the error code and [total_written] as they
    were; a defined [write], and [flush], leave the input buffer (status,
    length and bytes), [read_offset] and [total_read] as they were. *)
Theorem directions_independent : forall st,
  (forall buf max_len buf' r st',
     pglite_polling_read buf max_len st = Some (buf', r, st') ->
     g_output_buffer st' = g_output_buffer st /\
     operation (g_control st') = operation (g_control st) /\
     error_code (g_control st') = error_code (g_control st) /\
     total_written (g_control st') = total_written (g_control st)) /\
  (forall buf len r st',
     pglite_polling_write buf len st = Some (r, st') ->
     g_input_buffer st' = g_input_buffer st /\
     read_offset (g_control st') = read_offset (g_control st) /\
     total_read (g_control st') = total_read (g_control st)) /\
  (g_input_buffer (pglite_polling_flush st) = g_input_buffer st /\
   read_offset (g_control (pglite_polling_flush st)) = read_offset (g_control st) /\
   total_read (g_control (pglite_polling_flush st)) = total_read (g_control st)).
Proof.
  intro st. split; [|split].
  - intros buf max_len buf' r st'. apply read_frame.
  - intros buf len r st'. apply write_frame.
  - apply flush_frame.
Qed.

End Frame.

Section FrameWitness.

Import Polling.

Lemma hello_ready_read3 :
  pglite_polling_read [0; 0; 0] 3 hello_ready
  = Some (firstn 3 (skipn 0 hello_data) ++ [],
          3,
          mkChannel (mkBuffer BUFFER_READY 5 hello_data) zero_buffer
                    (mkControl 0 0 3 3 0)).
Proof.
  rewrite read_copies.
  - reflexivity.
  - reflexivity.
  - exact hello_data_Zlength.
  - simpl. lia.
  - simpl. unfold PGLITE_BUFFER_SIZE. lia.
  - lia.
  - simpl. rewrite Zlength_correct. simpl. lia.
Qed.

Lemma directions_independent_witness :
  (exists buf' r st',
     pglite_polling_read [0; 0; 0] 3 hello_ready = Some (buf', r, st') /\
     g_output_buffer st' = g_output_buffer hello_ready) /\
  g_input_buffer pending_channel
  = g_input_buffer (pglite_reset_buffers zero_channel).
Proof.
  split.
  - eexists _, _, _. split; [exact hello_ready_read3|].
    eapply (proj1 (directions_independent hello_ready)). exact hello_ready_read3.
  - eapply (proj1 (proj2 (directions_independent (pglite_reset_buffers zero_channel)))).
    exact pending_channel_reached.
Defined.

End FrameWitness.

(* ------------------------------------------------------------------ *)
(** ** The read cursor stays inside the input *)

Section OffsetInvariant.

Import Polling.

Lemma offset_inv_step : forall c st st',
  call_ok c -> input_length_typed st -> offset_inv st ->
  run_call c st = Some st' ->
  offset_inv st' /\ input_length_typed st'.
Proof.
  intros c st st' Hok Hty Hinv Hrun.
  unfold offset_inv, input_length_typed, uint32_range in *.
  destruct c as [len | | | buf max_len | buf len | ]; simpl in Hrun, Hok.
  - injection Hrun as <-. simpl. unfold PGLITE_BUFFER_SIZE, two32 in *. lia.
  - injection Hrun as <-. simpl. unfold two32. lia.
  - injection Hrun as <-. simpl. lia.
  - unfold bind in Hrun.
    destruct (pglite_polling_read buf max_len st) as [[[buf' r] s]|] eqn:Hr; [|discriminate].
    injection Hrun as ->.
    unfold pglite_polling_read in Hr.
    destruct (negb (status (g_input_buffer st) =? BUFFER_READY)).
    { injection Hr as _ _ <-. lia. }
    rewrite available_exact in Hr by (unfold uint32_range; lia).
    destruct (Z.eqb_spec (length (g_input_buffer st) - read_offset (g_control st)) 0).
    { injection Hr as _ _ <-. simpl. lia. }
    unfold bind in Hr.
    destruct (memcpy buf 0 (data (g_input_buffer st)) (read_offset (g_control st)) _);
      [|discriminate].
    injection Hr as _ _ <-.
    set (k := if max_len <? length (g_input_buffer st) - read_offset (g_control st)
              then max_len
              else length (g_input_buffer st) - read_offset (g_control st)).
    assert (Hn : 0 <= k <= length (g_input_buffer st) - read_offset (g_control st)).
    { subst k. unfold uint32_range in Hok.
      destruct (Z.ltb_spec max_len (length (g_input_buffer st) - read_offset (g_control st))); lia. }
    assert (Hs : to_uint32 (read_offset (g_control st) + k) = read_offset (g_control st) + k).
    { apply to_uint32_small. unfold uint32_range. lia. }
    match goal with |- context [if ?t then _ else _] => destruct t end;
      simpl; rewrite Hs; lia.
  - unfold bind in Hrun.
    destruct (pglite_polling_write buf len st) as [[r s]|] eqn:Hw; [|discriminate].
    injection Hrun as ->.
    apply write_frame in Hw.
    destruct Hw as (Hi & Ho & _). rewrite Hi, Ho. lia.
  - injection Hrun as <-.
    destruct (flush_frame st) as (Hi & Ho & _).
    rewrite Hi, Ho. lia.
Qed.

End OffsetInvariant.

Section OffsetInvariantTheorem.

Import Polling.

Lemma offset_inv_run : forall cs st st',
  Forall call_ok cs -> input_length_typed st -> offset_inv st ->
  run_calls cs st = Some st' ->
  offset_inv st' /\ input_length_typed st'.
Proof.
  induction cs as [|c cs IH]; intros st st' Hok Hty Hinv Hrun; simpl in Hrun.
  - injection Hrun as <-. split; assumption.
  - inversion Hok as [|c' cs' Hc Hcs]; subst.
    unfold bind in Hrun.
    destruct (run_call c st) as [s|] eqn:Hs; [|discriminate].
    destruct (offset_inv_step c st s Hc Hty Hinv Hs) as [Hi Ht].
    exact (IH s st' Hcs Ht Hi Hrun).
Qed.

(** C9. [0 <= read_offset <= input.length] holds in the zero-initialised
    channel and after [reset], and every defined call ([signal_input_ready]
    with a length of at most the capacity, [reset], [read], [write], [flush],
    [acknowledge_output]) preserves it, alone or in sequence; under it the
    unsigned subtraction [input.length - read_offset] of [read] is the exact
    difference and does not wrap. *)
Theorem offset_invariant :
  offset_inv zero_channel /\
  (forall st, offset_inv (pglite_reset_buffers st)) /\
  (forall c st st',
     call_ok c -> input_length_typed st -> offset_inv st ->
     run_call c st = Some st' -> offset_inv st') /\
  (forall cs st',
     Forall call_ok cs -> run_calls cs zero_channel = Some st' -> offset_inv st') /\
  (forall st,
     input_length_typed st -> offset_inv st ->
     to_size_t (to_uint32 (length (g_input_buffer st) - read_offset (g_control st)))
     = length (g_input_buffer st) - read_offset (g_control st)).
Proof.
  assert (Hz : offset_inv zero_channel) by (unfold offset_inv; simpl; lia).
  assert (Hzt : input_length_typed zero_channel)
    by (unfold input_length_typed, uint32_range, two32; simpl; lia).
  split; [exact Hz|]. split; [|split; [|split]].
  - intro st. unfold offset_inv. simpl. lia.
  - intros c st st' Hok Hty Hinv Hrun.
    exact (proj1 (offset_inv_step c st st' Hok Hty Hinv Hrun)).
  - intros cs st' Hok Hrun.
    exact (proj1 (offset_inv_run cs zero_channel st' Hok Hzt Hz Hrun)).
  - intros st Hty Hinv. apply available_exact; assumption.
Qed.

Lemma offset_invariant_witness :
  exists st',
    run_call (Read [0; 0; 0] 3) hello_ready = Some st' /\
    read_offset (g_control st') = 3 /\
    offset_inv st'.
Proof.
  assert (Hrun : run_call (Read [0; 0; 0] 3) hello_ready
                 = Some (mkChannel (mkBuffer BUFFER_READY 5 hello_data) zero_buffer
                                   (mkControl 0 0 3 3 0))).
  { unfold run_call. rewrite hello_ready_read3. reflexivity. }
  eexists. split; [exact Hrun|]. split; [reflexivity|].
  refine (proj1 (proj2 (proj2 offset_invariant)) _ hello_ready _ _ _ _ Hrun).
  - unfold call_ok, uint32_range, two32. lia.
  - unfold input_length_typed, uint32_range, two32. simpl. lia.
  - unfold offset_inv. simpl. lia.
Defined.

End OffsetInvariantTheorem.

(* ------------------------------------------------------------------ *)
(** ** Draining the input *)

Section ListFacts.

Lemma firstn_add_split : forall (a b : nat) (l : list Z),
  firstn (a + b) l = firstn a l ++ firstn b (skipn a l).
Proof.
  induction a as [|a IH]; intros b l.
  - reflexivity.
  - destruct l as [|x l].
    + simpl. rewrite firstn_nil. reflexivity.
    + simpl. rewrite IH. reflexivity.
Qed.

Lemma firstn_app_exact : forall (n : nat) (l1 l2 : list Z),
  List.length l1 = n -> firstn n (l1 ++ l2) = l1.
Proof.
  intros n l1 l2 H. rewrite firstn_app, H, Nat.sub_diag, firstn_0, app_nil_r.
  apply firstn_all2. lia.
Qed.

Lemma total_nonneg : forall reqs, Forall request_ok reqs -> 0 <= total reqs.
Proof.
  induction 1 as [|p reqs [Hp _] _ IH]; simpl.
  - lia.
  - unfold uint32_range in Hp. lia.
Qed.

End ListFacts.

Section Drain.

Import Polling.

(** Once the cursor is at the end of the input, [read] returns 0 and leaves
    the destination alone. *)
Lemma read_at_end : forall st buf max_len,
  read_offset (g_control st) = length (g_input_buffer st) ->
  exists st',
    pglite_polling_read buf max_len st = Some (buf, 0, st') /\
    data (g_input_buffer st') = data (g_input_buffer st) /\
    length (g_input_buffer st') = length (g_input_buffer st) /\
    g_control st' = g_control st /\
    status (g_input_buffer st') <> BUFFER_READY.
Proof.
  intros st buf max_len Hend.
  destruct (Z.eq_dec (status (g_input_buffer st)) BUFFER_READY) as [Hs|Hs].
  - eexists. split; [apply read_drained; assumption|].
    simpl. repeat split. discriminate.
  - eexists. split; [apply read_not_ready; assumption|].
    repeat split. assumption.
Qed.

(** The general step: from a cursor [ro] inside a ready input, a run of
    requests delivers the next [k = min (total, length - ro)] bytes and
    moves the cursor by [k]. *)
Lemma read_calls_deliver : forall reqs st,
  Zlength (data (g_input_buffer st)) = PGLITE_BUFFER_SIZE ->
  length (g_input_buffer st) <= PGLITE_BUFFER_SIZE ->
  0 <= read_offset (g_control st) <= length (g_input_buffer st) ->
  (status (g_input_buffer st) = BUFFER_READY \/
   read_offset (g_control st) = length (g_input_buffer st)) ->
  Forall request_ok reqs ->
  let k := Z.min (total reqs) (length (g_input_buffer st) - read_offset (g_control st)) in
  exists results st',
    read_calls reqs st = Some (results, st') /\
    received results
    = firstn (Z.to_nat k)
        (skipn (Z.to_nat (read_offset (g_control st))) (data (g_input_buffer st))) /\
    total results = k /\
    data (g_input_buffer st') = data (g_input_buffer st) /\
    length (g_input_buffer st') = length (g_input_buffer st) /\
    read_offset (g_control st') = read_offset (g_control st) + k.
Proof.
  induction reqs as [|[buf m] reqs IH]; intros st Hd Hlen Hro Hst Hok k.
  - exists [], st. subst k. simpl.
    rewrite Z.min_l by lia. simpl. repeat split. lia.
  - inversion Hok as [|p ps [Hm Hbuf] Hoks]; subst. simpl in Hm, Hbuf.
    pose proof (total_nonneg reqs Hoks) as Htot.
    unfold uint32_range in Hm.
    destruct (Z.eq_dec (read_offset (g_control st)) (length (g_input_buffer st))) as [Hend|Hmore].
    + (* nothing left: this call and all later ones return 0 *)
      destruct (read_at_end st buf m Hend) as (s & Hr & Hsd & Hsl & Hsc & _).
      destruct (IH s) as (res & st' & Hrun & Hrec & Hsum & Hd' & Hl' & Ho'); try assumption.
      * rewrite Hsd. assumption.
      * rewrite Hsl. assumption.
      * rewrite Hsc, Hsl. assumption.
      * right. rewrite Hsc, Hsl. assumption.
      * exists ((buf, 0) :: res), st'.
        simpl read_calls. rewrite Hr. unfold bind at 1. rewrite Hrun. unfold bind.
        rewrite Hsd, Hsl, Hsc in *.
        subst k. simpl total.
        rewrite Z.min_r in * by lia.
        split; [reflexivity|].
        split; [simpl; exact Hrec|].
        split; [simpl; lia|].
        split; [assumption|]. split; [assumption|]. assumption.
    + (* bytes are left, so the input is ready and the call copies *)
      destruct Hst as [Hready|Hend]; [|contradiction].
      set (n := Z.min m (length (g_input_buffer st) - read_offset (g_control st))).
      assert (Hn : 0 <= n <= length (g_input_buffer st) - read_offset (g_control st))
        by (subst n; lia).
      pose proof (read_copies st buf m Hready Hd) as Hr.
      cbv zeta in Hr. fold n in Hr.
      specialize (Hr ltac:(lia) Hlen ltac:(lia) ltac:(lia)).
      set (s := mkChannel
                  (if length (g_input_buffer st) <=? read_offset (g_control st) + n
                   then set_status BUFFER_EMPTY (g_input_buffer st)
                   else g_input_buffer st)
                  (g_output_buffer st)
                  (mkControl (operation (g_control st)) (error_code (g_control st))
                     (read_offset (g_control st) + n)
                     (to_uint32 (total_read (g_control st) + n))
                     (total_written (g_control st)))) in *.
      assert (Hsd : data (g_input_buffer s) = data (g_input_buffer st)).
      { subst s. simpl. destruct (_ <=? _); reflexivity. }
      assert (Hsl : length (g_input_buffer s) = length (g_input_buffer st)).
      { subst s. simpl. destruct (_ <=? _); reflexivity. }
      assert (Hso : read_offset (g_control s) = read_offset (g_control st) + n)
        by reflexivity.
      destruct (IH s) as (res & st' & Hrun & Hrec & Hsum & Hd' & Hl' & Ho'); try assumption.
      * rewrite Hsd. assumption.
      * rewrite Hsl. assumption.
      * rewrite Hso, Hsl. lia.
      * rewrite Hso, Hsl. subst s. simpl.
        destruct (Z.leb_spec (length (g_input_buffer st)) (read_offset (g_control st) + n)).
        -- right. lia.
        -- left. assumption.
      * rewrite Hsd, Hsl, Hso in *.
        set (k' := Z.min (total reqs)
                     (length (g_input_buffer st) - (read_offset (g_control st) + n))) in *.
        assert (Hk : k = n + k') by (subst k k' n; simpl total; lia).
        assert (Hk' : 0 <= k') by (subst k'; lia).
        eexists ((_, n) :: res), st'.
        simpl read_calls. rewrite Hr. unfold bind at 1. rewrite Hrun. unfold bind.
        split; [reflexivity|].
        split; [|split; [|split; [|split]]].
        -- unfold received. simpl flat_map. fold (received res). rewrite Hrec.
           rewrite firstn_app_exact.
           ++ rewrite Hk, (Z2Nat.inj_add n k') by lia.
              rewrite firstn_add_split, skipn_skipn.
              rewrite (Z2Nat.inj_add (read_offset (g_control st)) n) by lia.
              rewrite (Nat.add_comm (Z.to_nat n)). reflexivity.
           ++ rewrite length_firstn, length_skipn.
              rewrite Zlength_correct in Hd. unfold PGLITE_BUFFER_SIZE in *. lia.
        -- simpl total. lia.
        -- assumption.
        -- assumption.
        -- lia.
Qed.

End Drain.

Section RoundTrip.

Import Polling.

(** C1. Round trip. Take a payload of [L <= capacity] bytes sitting at the
    start of the input array of a reset channel and signal it ready. Then any
    run of [read] calls that together ask for at least [L] bytes is defined,
    delivers exactly the payload, in order, the returned lengths sum to [L],
    and one more [read], whatever its arguments, returns 0 and delivers
    nothing. *)
Theorem round_trip : forall st payload reqs,
  Zlength payload <= PGLITE_BUFFER_SIZE ->
  Zlength (data (g_input_buffer st)) = PGLITE_BUFFER_SIZE ->
  firstn (Z.to_nat (Zlength payload)) (data (g_input_buffer st)) = payload ->
  Forall request_ok reqs ->
  Zlength payload <= total reqs ->
  exists results st',
    read_calls reqs
      (pglite_signal_input_ready (Zlength payload) (pglite_reset_buffers st))
    = Some (results, st') /\
    received results = payload /\
    total results = Zlength payload /\
    forall buf max_len, exists st'',
      pglite_polling_read buf max_len st' = Some (buf, 0, st'').
Proof.
  intros st payload reqs HL Hd Hp Hok Hreq.
  pose proof (Zlength_nonneg payload) as H0.
  set (L := Zlength payload) in *.
  set (s := pglite_signal_input_ready L (pglite_reset_buffers st)).
  destruct (read_calls_deliver reqs s) as (res & st' & Hrun & Hrec & Hsum & Hd' & Hl' & Ho').
  - exact Hd.
  - exact HL.
  - simpl. lia.
  - left. reflexivity.
  - exact Hok.
  - change (length (g_input_buffer s)) with L in *.
    change (read_offset (g_control s)) with 0 in *.
    change (data (g_input_buffer s)) with (data (g_input_buffer st)) in *.
    rewrite Z.sub_0_r, Z.min_r in * by lia.
    exists res, st'. split; [exact Hrun|]. split; [|split].
    + rewrite Hrec. change (Z.to_nat 0) with 0%nat. rewrite skipn_0. exact Hp.
    + exact Hsum.
    + intros buf max_len.
      destruct (read_at_end st' buf max_len) as (st'' & Hr & _).
      * rewrite Ho', Hl'. lia.
      * exists st''. exact Hr.
Qed.

Lemma round_trip_witness :
  exists results st',
    read_calls [([0; 0; 0], 3); ([0; 0; 0], 3)]
      (pglite_signal_input_ready 5 (pglite_reset_buffers hello_channel))
    = Some (results, st') /\
    received results = hello /\
    total results = 5.
Proof.
  destruct (round_trip hello_channel hello [([0; 0; 0], 3); ([0; 0; 0], 3)])
    as (results & st' & Hrun & Hrec & Hsum & _).
  - vm_compute. discriminate.
  - exact hello_data_Zlength.
  - reflexivity.
  - repeat constructor; vm_compute; congruence.
  - vm_compute. discriminate.
  - exists results, st'. split; [exact Hrun|]. split; [exact Hrec | exact Hsum].
Defined.

(** C6. Partial read. With a payload of [L] bytes signalled ready and
    [max_len < L], the first [read] returns exactly [max_len], delivers the
    first [max_len] bytes of the payload and leaves the input Ready; a second
    [read] whose [max_len] is at least [L - max_len] returns exactly
    [L - max_len] and delivers the rest of the payload. The same holds of
    [internal_read]. *)
Theorem partial_read : forall st payload buf1 max_len buf2 max_len2,
  Zlength (data (g_input_buffer st)) = PGLITE_BUFFER_SIZE ->
  firstn (Z.to_nat (Zlength payload)) (data (g_input_buffer st)) = payload ->
  0 <= max_len < Zlength payload ->
  max_len <= Zlength buf1 ->
  Zlength payload - max_len <= max_len2 ->
  Zlength payload - max_len <= Zlength buf2 ->
  exists buf1' st1 buf2' st2,
    pglite_polling_read buf1 max_len
      (pglite_signal_input_ready (Zlength payload) st) = Some (buf1', max_len, st1) /\
    TestWasm.internal_read buf1 max_len
      (TestWasm.signal_input_ready (Zlength payload) st) = Some (buf1', max_len, st1) /\
    firstn (Z.to_nat max_len) buf1' = firstn (Z.to_nat max_len) payload /\
    status (g_input_buffer st1) = BUFFER_READY /\
    pglite_polling_read buf2 max_len2 st1
      = Some (buf2', Zlength payload - max_len, st2) /\
    TestWasm.internal_read buf2 max_len2 st1
      = Some (buf2', Zlength payload - max_len, st2) /\
    firstn (Z.to_nat (Zlength payload - max_len)) buf2' = skipn (Z.to_nat max_len) payload.
Proof.
  intros st payload buf1 m buf2 m2 Hd Hp Hm Hb1 Hm2 Hb2.
  set (L := Zlength payload) in *.
  assert (HL : L <= PGLITE_BUFFER_SIZE).
  { apply (f_equal (@List.length Z)) in Hp. rewrite length_firstn in Hp.
    subst L. rewrite !Zlength_correct in *. lia. }
  set (s := pglite_signal_input_ready L st).
  pose proof (read_copies s buf1 m) as H1. cbv zeta in H1.
  change (length (g_input_buffer s)) with L in H1.
  change (read_offset (g_control s)) with 0 in H1.
  change (data (g_input_buffer s)) with (data (g_input_buffer st)) in H1.
  rewrite Z.sub_0_r, Z.min_l in H1 by lia.
  specialize (H1 eq_refl Hd ltac:(lia) HL ltac:(lia) Hb1).
  destruct (Z.leb_spec L (0 + m)) as [Habs|_] in H1; [lia|].
  match type of H1 with _ = Some (?b, _, ?c) => set (b1 := b) in *; set (s1 := c) in * end.
  pose proof (read_copies s1 buf2 m2) as H2. cbv zeta in H2.
  change (length (g_input_buffer s1)) with L in H2.
  change (read_offset (g_control s1)) with (0 + m) in H2.
  change (data (g_input_buffer s1)) with (data (g_input_buffer st)) in H2.
  rewrite Z.add_0_l in H2.
  rewrite (Z.min_r m2 (L - m)) in H2 by lia.
  specialize (H2 eq_refl Hd ltac:(lia) HL ltac:(lia) Hb2).
  match type of H2 with _ = Some (?b, _, ?c) => set (b2 := b) in *; set (s2 := c) in * end.
  exists b1, s1, b2, s2.
  split; [exact H1|]. split; [exact H1|].
  split; [|split; [reflexivity|split; [exact H2|split; [exact H2|]]]].
  - subst b1. change (Z.to_nat 0) with 0%nat. rewrite skipn_0.
    rewrite firstn_app_exact.
    + rewrite <- Hp. rewrite firstn_firstn. f_equal. lia.
    + rewrite length_firstn. rewrite Zlength_correct in Hd.
      unfold PGLITE_BUFFER_SIZE in *. lia.
  - subst b2. rewrite firstn_app_exact.
    + rewrite <- Hp. rewrite skipn_firstn_comm. f_equal. lia.
    + rewrite length_firstn, length_skipn. rewrite Zlength_correct in Hd.
      unfold PGLITE_BUFFER_SIZE in *. lia.
Qed.

Lemma partial_read_witness :
  exists buf1' st1 buf2' st2,
    pglite_polling_read [0; 0; 0] 3 (pglite_signal_input_ready 5 hello_channel)
      = Some (buf1', 3, st1) /\
    firstn 3 buf1' = [104; 101; 108] /\
    pglite_polling_read [0; 0; 0] 3 st1 = Some (buf2', 2, st2) /\
    firstn 2 buf2' = [108; 111].
Proof.
  destruct (partial_read hello_channel hello [0; 0; 0] 3 [0; 0; 0] 3)
    as (b1 & s1 & b2 & s2 & H1 & _ & Hb1 & _ & H2 & _ & Hb2).
  - exact hello_data_Zlength.
  - reflexivity.
  - vm_compute. split; congruence.
  - vm_compute. discriminate.
  - vm_compute. discriminate.
  - vm_compute. discriminate.
  - exists b1, s1, b2, s2.
    split; [exact H1|]. split; [exact Hb1|]. split; [exact H2 | exact Hb2].
Defined.

End RoundTrip.

(* ------------------------------------------------------------------ *)
(** ** The echo emitter *)

Section Echo.

Import TestWasm.

Lemma load_middle : forall pre c post i,
  Zlength pre = i -> load (pre ++ c :: post) i = c.
Proof.
  intros pre c post i Hi. unfold load.
  rewrite Zlength_correct in Hi. subst i. rewrite Nat2Z.id.
  rewrite app_nth2 by lia. rewrite Nat.sub_diag. reflexivity.
Qed.

Lemma store_middle : forall pre c post i v,
  Zlength pre = i -> store (pre ++ c :: post) i v = Some (pre ++ v :: post).
Proof.
  intros pre c post i v Hi. unfold store.
  pose proof (Zlength_nonneg pre) as Hp. pose proof (Zlength_nonneg post) as Hq.
  rewrite Zlength_app, Zlength_cons.
  destruct (Z.leb_spec 0 i); [|lia].
  destruct (Z.ltb_spec i (Zlength pre + Z.succ (Zlength post))); [|lia].
  simpl. f_equal.
  rewrite Zlength_correct in Hi.
  assert (Hn : Z.to_nat i = List.length pre) by lia.
  assert (Hn1 : Z.to_nat (i + 1) = S (List.length pre)) by lia.
  rewrite Hn, Hn1.
  rewrite firstn_app_exact by reflexivity.
  rewrite skipn_app, skipn_all2 by lia.
  replace (S (List.length pre) - List.length pre)%nat with 1%nat by lia.
  reflexivity.
Qed.

(** The loop upper-cases the [n] cells from index [i] on and nothing else. *)
Lemma uppercase_loop_spec : forall mid pre post i,
  Zlength pre = i ->
  uppercase_loop (List.length mid) i (pre ++ mid ++ post)
  = Some (pre ++ map to_upper mid ++ post).
Proof.
  induction mid as [|c mid IH]; intros pre post i Hi.
  - reflexivity.
  - simpl List.length. simpl uppercase_loop.
    change ((c :: mid) ++ post) with (c :: mid ++ post).
    rewrite (load_middle pre c (mid ++ post) i Hi).
    assert (Hstep :
      (if (97 <=? c) && (c <=? 122)
       then store (pre ++ c :: mid ++ post) i (to_uint8 (c - 97 + 65))
       else Some (pre ++ c :: mid ++ post))
      = Some ((pre ++ [to_upper c]) ++ mid ++ post)).
    { unfold to_upper. destruct ((97 <=? c) && (c <=? 122)).
      - rewrite (store_middle pre c (mid ++ post) i _ Hi).
        rewrite <- app_assoc. reflexivity.
      - rewrite <- app_assoc. reflexivity. }
    rewrite Hstep. unfold bind.
    rewrite (IH (pre ++ [to_upper c]) post (i + 1)).
    + rewrite <- app_assoc. reflexivity.
    + rewrite Zlength_app, Hi. reflexivity.
Qed.

(** [process_message] up to its two [write] calls: with input ready and
    [n = min (1023, available) > 0], it reads the next [n] bytes, and what
    remains is to write the header for [n + 4] and the upper-cased bytes. *)
Lemma process_message_reads : forall local_buffer st,
  Zlength local_buffer = 1024 ->
  status (g_input st) = BUFFER_READY ->
  Zlength (data (g_input st)) = BUFFER_SIZE ->
  0 <= read_offset (g_control st) < length (g_input st) ->
  length (g_input st) <= BUFFER_SIZE ->
  let n := Z.min 1023 (length (g_input st) - read_offset (g_control st)) in
  let chunk := firstn (Z.to_nat n)
                 (skipn (Z.to_nat (read_offset (g_control st))) (data (g_input st))) in
  let st_r :=
    mkChannel
      (if length (g_input st) <=? read_offset (g_control st) + n
       then set_status BUFFER_EMPTY (g_input st) else g_input st)
      (g_output st)
      (mkControl (operation (g_control st)) (error_code (g_control st))
         (read_offset (g_control st) + n)
         (to_uint32 (total_read (g_control st) + n))
         (total_written (g_control st))) in
  process_message local_buffer st
  = (' (_, st1) <- internal_write (header_bytes 82 (n + 4)) 5 st_r ;;
     ' (_, st2) <- internal_write
                     (map to_upper chunk ++ 0 :: skipn (Z.to_nat (n + 1)) local_buffer)
                     n st1 ;;
     Some (0, upd_control (set_operation OP_COMPLETED) (internal_flush st2))).
Proof.
  intros local st Hloc Hs Hd Hro Hlen n chunk st_r.
  assert (Hn : 0 < n <= 1023) by (subst n; lia).
  assert (Hsz : BUFFER_SIZE = 65536) by reflexivity.
  unfold process_message.
  rewrite internal_read_same.
  change (1024 - 1) with 1023.
  rewrite (read_copies st local 1023 Hs Hd Hro Hlen) by (fold n; lia).
  fold n chunk st_r. unfold bind at 1.
  destruct (Z.leb_spec n 0); [lia|].
  assert (Hchunk : List.length chunk = Z.to_nat n).
  { subst chunk. rewrite length_firstn, length_skipn.
    rewrite Zlength_correct in Hd. lia. }
  (* the cell that receives the terminating zero *)
  assert (Htail : exists x, skipn (Z.to_nat n) local = x :: skipn (Z.to_nat (n + 1)) local).
  { rewrite Zlength_correct in Hloc.
    replace (Z.to_nat (n + 1)) with (1 + Z.to_nat n)%nat by lia.
    rewrite <- skipn_skipn.
    destruct (skipn (Z.to_nat n) local) as [|x tl] eqn:Hsk.
    - apply (f_equal (@List.length Z)) in Hsk. rewrite length_skipn in Hsk. simpl in Hsk. lia.
    - exists x. reflexivity. }
  destruct Htail as [x Hx]. rewrite Hx.
  rewrite (store_middle chunk x _ n 0) by (rewrite Zlength_correct; lia).
  unfold bind at 1.
  replace (Z.to_nat n) with (List.length chunk) by exact Hchunk.
  pose proof (uppercase_loop_spec chunk []
                (0 :: skipn (Z.to_nat (n + 1)) local) 0 eq_refl) as Hu.
  rewrite !app_nil_l in Hu. rewrite Hu.
  unfold bind at 1.
  rewrite (to_uint32_small (n + 4)) by (unfold uint32_range, two32; lia).
  rewrite (to_size_t_small n) by (unfold uint32_range, two32; lia).
  reflexivity.
Qed.

End Echo.

Section Appending.

Import Polling.

(** The append branch of [write], field by field: the bytes already in the
    output stay, the new ones follow them. *)
Lemma write_appends_fields : forall st buf len,
  Zlength (data (g_output_buffer st)) = PGLITE_BUFFER_SIZE ->
  0 <= length (g_output_buffer st) ->
  0 <= len <= Zlength buf ->
  length (g_output_buffer st) + len <= PGLITE_BUFFER_SIZE ->
  exists st',
    pglite_polling_write buf len st = Some (len, st') /\
    g_input_buffer st' = g_input_buffer st /\
    status (g_output_buffer st') = status (g_output_buffer st) /\
    length (g_output_buffer st') = length (g_output_buffer st) + len /\
    Zlength (data (g_output_buffer st')) = PGLITE_BUFFER_SIZE /\
    firstn (Z.to_nat (length (g_output_buffer st))) (data (g_output_buffer st'))
    = firstn (Z.to_nat (length (g_output_buffer st))) (data (g_output_buffer st)) /\
    firstn (Z.to_nat len)
      (skipn (Z.to_nat (length (g_output_buffer st))) (data (g_output_buffer st')))
    = firstn (Z.to_nat len) buf /\
    operation (g_control st') = operation (g_control st) /\
    error_code (g_control st') = error_code (g_control st).
Proof.
  intros st buf len Hd Ho Hl Hfit.
  pose proof (memcpy_in_bounds (data (g_output_buffer st)) (length (g_output_buffer st))
                buf 0 len) as Hm.
  specialize (Hm ltac:(lia) Ho ltac:(lia) ltac:(lia) ltac:(lia)).
  eexists. split; [apply write_appends; assumption|].
  simpl. rewrite skipn_0 in Hm.
  split; [reflexivity|]. split; [reflexivity|]. split; [reflexivity|].
  split; [|split; [|split; [|split]]]; try reflexivity.
  - rewrite <- Hd. exact (memcpy_Zlength _ _ _ _ _ _ Hm).
  - exact (memcpy_before _ _ _ _ _ _ Hm).
  - rewrite (memcpy_copied _ _ _ _ _ _ Hm). reflexivity.
Qed.

End Appending.

Section EchoScenario.

Import TestWasm.

(** Echo of any payload of 1 to 1023 bytes that sits at the start of the
    input array of a reset channel: the output receives the tag ['R'], the
    big-endian length [n + 4] and the upper-cased payload, [5 + n] bytes in
    all, whatever the stack array of [process_message] held. *)
Lemma process_message_echo : forall st local_buffer payload,
  Zlength local_buffer = 1024 ->
  Zlength (data (g_input st)) = BUFFER_SIZE ->
  Zlength (data (g_output st)) = BUFFER_SIZE ->
  1 <= Zlength payload <= 1023 ->
  firstn (Z.to_nat (Zlength payload)) (data (g_input st)) = payload ->
  exists st',
    process_message local_buffer
      (signal_input_ready (Zlength payload) (reset_buffers st)) = Some (0, st') /\
    firstn (Z.to_nat (5 + Zlength payload)) (data (g_output st'))
    = header_bytes 82 (Zlength payload + 4) ++ map to_upper payload /\
    length (g_output st') = 5 + Zlength payload /\
    status (g_output st') = BUFFER_READY /\
    operation (g_control st') = OP_COMPLETED /\
    error_code (g_control st') = 0.
Proof.
  intros st local payload Hloc Hdi Hdo Hn Hpay.
  set (n := Zlength payload) in *.
  set (s := signal_input_ready n (reset_buffers st)).
  pose proof (process_message_reads local s Hloc eq_refl Hdi) as Hpm.
  cbv zeta in Hpm.
  change (length (g_input s)) with n in Hpm.
  change (read_offset (g_control s)) with 0 in Hpm.
  change (data (g_input s)) with (data (g_input st)) in Hpm.
  rewrite Z.sub_0_r, (Z.min_r 1023 n) in Hpm by lia.
  change (Z.to_nat 0) with 0%nat in Hpm.
  rewrite skipn_0, Hpay in Hpm.
  specialize (Hpm ltac:(lia) ltac:(unfold BUFFER_SIZE; lia)).
  rewrite !internal_write_same in Hpm.
  match type of Hpm with
  | _ = bind (Polling.pglite_polling_write _ _ ?c) _ => set (s_r := c) in *
  end.
  (* the header *)
  destruct (write_appends_fields s_r (header_bytes 82 (n + 4)) 5)
    as (s1 & Hw1 & _ & Hs1 & Hl1 & Hd1 & _ & Hc1 & Hop1 & He1).
  { exact Hdo. } { simpl. lia. } { rewrite Zlength_correct. simpl. lia. }
  { simpl. unfold PGLITE_BUFFER_SIZE. lia. }
  change (length (g_output_buffer s_r)) with 0 in *.
  change (Z.to_nat 0) with 0%nat in Hc1. change (Z.to_nat 5) with 5%nat in Hc1.
  rewrite skipn_0 in Hc1.
  change (firstn 5 (header_bytes 82 (n + 4))) with (header_bytes 82 (n + 4)) in Hc1.
  rewrite Z.add_0_l in Hl1.
  (* the payload *)
  destruct (write_appends_fields s1
              (map to_upper payload ++ 0 :: skipn (Z.to_nat (n + 1)) local) n)
    as (s2 & Hw2 & _ & Hs2 & Hl2 & Hd2 & Hp2 & Hc2 & Hop2 & He2).
  { exact Hd1. } { lia. }
  { rewrite Zlength_app, Zlength_cons.
    pose proof (Zlength_nonneg (skipn (Z.to_nat (n + 1)) local)).
    rewrite (Zlength_correct (map _ _)), length_map, <- Zlength_correct. fold n. lia. }
  { rewrite Hl1. unfold PGLITE_BUFFER_SIZE. lia. }
  rewrite Hl1 in *. change (Z.to_nat 5) with 5%nat in *.
  rewrite firstn_app_exact in Hc2
    by (rewrite length_map; subst n; rewrite Zlength_correct; lia).
  rewrite Hw1 in Hpm. unfold bind at 1 in Hpm. cbv beta iota in Hpm.
  rewrite internal_write_same, Hw2 in Hpm. unfold bind in Hpm.
  eexists. split; [exact Hpm|].
  unfold internal_flush. rewrite Hl2.
  destruct (Z.ltb_spec 0 (5 + n)); [|lia].
  cbn [upd_control upd_output set_operation set_status g_output_buffer g_control
       status length data operation error_code].
  split; [|split; [|split; [reflexivity|split; [reflexivity|]]]].
  - rewrite (Z2Nat.inj_add 5 n) by lia. change (Z.to_nat 5) with 5%nat.
    rewrite firstn_add_split, Hp2, Hc1, Hc2. reflexivity.
  - exact Hl2.
  - rewrite He2, He1. reflexivity.
Qed.

End EchoScenario.

Section EchoScenarioTheorem.

Import TestWasm.

(** C3, as stated, fails: on the zero-initialised channel holding ["hello"]
    the scenario leaves [output.length = 10] (five header bytes and five
    payload bytes), not 14. *)
Lemma echo_length_is_not_14 :
  exists st',
    process_message (repeat 0 1024) (signal_input_ready 5 (reset_buffers hello_channel))
    = Some (0, st') /\
    length (g_output st') = 10 /\
    length (g_output st') <> 14.
Proof.
  destruct (process_message_echo hello_channel (repeat 0 1024) hello)
    as (st' & Hrun & _ & Hlen & _).
  - rewrite Zlength_repeat. reflexivity.
  - exact hello_data_Zlength.
  - exact zero_data_Zlength.
  - split; discriminate.
  - reflexivity.
  - exists st'. split; [exact Hrun|]. split; [exact Hlen|]. rewrite Hlen. discriminate.
Qed.

(** C3, amended. From a reset channel whose input array starts with
    ["hello"], [signal_input_ready (5)] followed by [process_message]
    returns 0 and leaves an output buffer whose first byte is ['R'] (82),
    whose next four bytes are the big-endian encoding of 9, whose next five
    bytes are ["HELLO"], and whose length field is 10; the output is Ready
    and the operation Completed. *)
Theorem echo_scenario : forall st local_buffer,
  Zlength local_buffer = 1024 ->
  Zlength (data (g_input st)) = BUFFER_SIZE ->
  Zlength (data (g_output st)) = BUFFER_SIZE ->
  firstn 5 (data (g_input st)) = hello ->
  exists st',
    process_message local_buffer (signal_input_ready 5 (reset_buffers st)) = Some (0, st') /\
    firstn 10 (data (g_output st')) = [82; 0; 0; 0; 9] ++ HELLO /\
    length (g_output st') = 10 /\
    status (g_output st') = BUFFER_READY /\
    operation (g_control st') = OP_COMPLETED /\
    error_code (g_control st') = 0.
Proof.
  intros st local Hloc Hdi Hdo Hhello.
  destruct (process_message_echo st local hello Hloc Hdi Hdo)
    as (st' & Hrun & Hbytes & Hlen & Hst & Hop & Herr).
  - split; discriminate.
  - exact Hhello.
  - exists st'.
    change (Zlength hello) with 5 in *.
    change (header_bytes 82 (5 + 4)) with [82; 0; 0; 0; 9] in Hbytes.
    change (map to_upper hello) with HELLO in Hbytes.
    change (Z.to_nat (5 + 5)) with 10%nat in Hbytes.
    change (5 + 5) with 10 in Hlen.
    repeat split; assumption.
Qed.

Lemma echo_scenario_witness :
  exists st',
    process_message (repeat 0 1024) (signal_input_ready 5 (reset_buffers hello_channel))
    = Some (0, st') /\
    firstn 10 (data (g_output st')) = [82; 0; 0; 0; 9; 72; 69; 76; 76; 79] /\
    length (g_output st') = 10.
Proof.
  destruct (echo_scenario hello_channel (repeat 0 1024))
    as (st' & Hrun & Hbytes & Hlen & _).
  - rewrite Zlength_repeat. reflexivity.
  - exact hello_data_Zlength.
  - exact zero_data_Zlength.
  - reflexivity.
  - exists st'. split; [exact Hrun|]. split; [exact Hbytes | exact Hlen].
Defined.

End EchoScenarioTheorem.

(* ------------------------------------------------------------------ *)
(** ** Write failures inside the emitters *)

Section WriteOutcome.

Import Polling.

Lemma output_kept_refl : forall st, output_kept st st.
Proof. intro st. split; [lia | reflexivity]. Qed.

Lemma output_kept_trans : forall st1 st2 st3,
  0 <= length (g_output_buffer st1) ->
  output_kept st1 st2 -> output_kept st2 st3 -> output_kept st1 st3.
Proof.
  intros st1 st2 st3 H0 [Hl12 Hd12] [Hl23 Hd23]. split; [lia|].
  rewrite <- Hd12.
  replace (Z.to_nat (length (g_output_buffer st1)))
    with (Nat.min (Z.to_nat (length (g_output_buffer st1)))
                  (Z.to_nat (length (g_output_buffer st2)))) by lia.
  rewrite <- !firstn_firstn. rewrite Hd23. reflexivity.
Qed.

(** A [write] of a source that is really there and far from [2^32] bytes
    long is defined, and either is rejected (returns -1, marks the output
    Ready, copies nothing) or appends (returns [len]). Either way the bytes
    already in the output stay and the error code is not touched. *)
Lemma write_outcome : forall st buf len,
  output_ok st ->
  0 <= len <= Zlength buf ->
  len < two32 - PGLITE_BUFFER_SIZE ->
  exists r st',
    pglite_polling_write buf len st = Some (r, st') /\
    output_ok st' /\
    output_kept st st' /\
    g_input_buffer st' = g_input_buffer st /\
    error_code (g_control st') = error_code (g_control st) /\
    ((r = -1 /\ PGLITE_BUFFER_SIZE < length (g_output_buffer st) + len /\
      length (g_output_buffer st') = length (g_output_buffer st) /\
      status (g_output_buffer st') = BUFFER_READY) \/
     (r = len /\ length (g_output_buffer st) + len <= PGLITE_BUFFER_SIZE /\
      length (g_output_buffer st') = length (g_output_buffer st) + len /\
      status (g_output_buffer st') = status (g_output_buffer st))).
Proof.
  intros st buf len [Hd Hl] Hlen Hsmall.
  destruct (Z_lt_le_dec PGLITE_BUFFER_SIZE (length (g_output_buffer st) + len)) as [Hover|Hfit].
  - exists (-1), (upd_control (set_operation OP_WRITE_READY)
                   (upd_output (set_status BUFFER_READY) st)).
    split.
    { apply write_rejects. rewrite to_size_t_small; [exact Hover|].
      unfold uint32_range. lia. }
    split; [split; [exact Hd | exact Hl]|].
    split; [split; [simpl; lia | reflexivity]|].
    split; [reflexivity|]. split; [reflexivity|].
    left. repeat split. exact Hover.
  - destruct (write_appends_fields st buf len Hd ltac:(lia) Hlen Hfit)
      as (st' & Hw & Hi & Hs & Hl' & Hd' & Hp & _ & _ & He).
    exists len, st'. split; [exact Hw|].
    split; [split; [exact Hd' | lia]|].
    split; [split; [lia | exact Hp]|].
    split; [exact Hi|]. split; [exact He|].
    right. repeat split; assumption.
Qed.

End WriteOutcome.

Section EchoFailure.

Import TestWasm.

(** Once its [read] has delivered [n > 0] bytes, [process_message] returns 0
    with operation Completed and the error code untouched, whatever its two
    [write] calls returned. [r1] and [r2] are the values those calls
    returned: -1 for a rejected write, the byte count otherwise. The bytes
    already in the output stay; the header and the payload are appended
    exactly where their [write] was not rejected. *)
Lemma process_message_outcome : forall local_buffer st,
  Zlength local_buffer = 1024 ->
  status (g_input st) = BUFFER_READY ->
  Zlength (data (g_input st)) = BUFFER_SIZE ->
  0 <= read_offset (g_control st) < length (g_input st) ->
  length (g_input st) <= BUFFER_SIZE ->
  output_ok st ->
  let n := Z.min 1023 (length (g_input st) - read_offset (g_control st)) in
  exists r1 r2 st',
    process_message local_buffer st = Some (0, st') /\
    operation (g_control st') = OP_COMPLETED /\
    error_code (g_control st') = error_code (g_control st) /\
    output_ok st' /\
    output_kept st st' /\
    data (g_input st') = data (g_input st) /\
    (r1 = -1 /\ BUFFER_SIZE < length (g_output st) + 5 \/
     r1 = 5 /\ length (g_output st) + 5 <= BUFFER_SIZE) /\
    let o1 := length (g_output st) + (if r1 =? -1 then 0 else 5) in
    (r2 = -1 /\ BUFFER_SIZE < o1 + n \/ r2 = n /\ o1 + n <= BUFFER_SIZE) /\
    length (g_output st') = o1 + (if r2 =? -1 then 0 else n).
Proof.
  intros local st Hloc Hs Hd Hro Hlen Hout n.
  rewrite (process_message_reads local st Hloc Hs Hd Hro Hlen).
  fold n.
  assert (Hn : 0 < n <= 1023) by (subst n; lia).
  match goal with
  | |- context [internal_write _ 5 ?c] => set (s_r := c)
  end.
  assert (Hout_r : output_ok s_r) by exact Hout.
  assert (Hdr : data (g_input s_r) = data (g_input st)).
  { subst s_r. cbn [g_input_buffer]. destruct (_ <=? _); reflexivity. }
  destruct (write_outcome s_r (header_bytes 82 (n + 4)) 5 Hout_r)
    as (r1 & s1 & Hw1 & Hok1 & Hk1 & Hi1 & He1 & Hcase1).
  { rewrite Zlength_correct. simpl. lia. }
  { unfold two32, PGLITE_BUFFER_SIZE. lia. }
  match goal with
  | |- context [internal_write ?b n] => set (payload := b)
  end.
  destruct (write_outcome s1 payload n Hok1)
    as (r2 & s2 & Hw2 & Hok2 & Hk2 & Hi2 & He2 & Hcase2).
  { subst payload. rewrite Zlength_app, Zlength_cons, Zlength_correct, length_map.
    rewrite length_firstn, length_skipn.
    pose proof (Zlength_nonneg (skipn (Z.to_nat (n + 1)) local)).
    rewrite (Zlength_correct (data _)) in Hd. unfold BUFFER_SIZE in *. lia. }
  { unfold two32, PGLITE_BUFFER_SIZE. lia. }
  rewrite internal_write_same, Hw1. unfold bind at 1. cbv beta iota.
  rewrite internal_write_same, Hw2. unfold bind.
  exists r1, r2. eexists. split; [reflexivity|].
  rewrite internal_flush_same.
  assert (Hflush :
    g_output_buffer (Polling.pglite_polling_flush s2)
      = (if 0 <? length (g_output_buffer s2)
         then set_status BUFFER_READY (g_output_buffer s2) else g_output_buffer s2) /\
    g_input_buffer (Polling.pglite_polling_flush s2) = g_input_buffer s2 /\
    error_code (g_control (Polling.pglite_polling_flush s2)) = error_code (g_control s2)).
  { unfold Polling.pglite_polling_flush.
    destruct (0 <? length (g_output_buffer s2)); repeat split. }
  destruct Hflush as (Hfo & Hfi & Hfe).
  assert (Hfl : length (g_output_buffer (Polling.pglite_polling_flush s2))
                = length (g_output_buffer s2))
    by (rewrite Hfo; destruct (0 <? length (g_output_buffer s2)); reflexivity).
  assert (Hfd : data (g_output_buffer (Polling.pglite_polling_flush s2))
                = data (g_output_buffer s2))
    by (rewrite Hfo; destruct (0 <? length (g_output_buffer s2)); reflexivity).
  unfold output_ok, output_kept in *.
  cbn [upd_control set_operation g_control g_output_buffer g_input_buffer operation error_code].
  split; [reflexivity|].
  split; [rewrite Hfe, He2, He1; reflexivity|].
  rewrite Hfl, Hfd.
  split; [exact Hok2|].
  split.
  { destruct Hout_r as [_ Hl0].
    apply (output_kept_trans s_r s1 s2); [lia | exact Hk1 | exact Hk2]. }
  split; [rewrite Hfi, Hi2, Hi1; exact Hdr|].
  change (length (g_output_buffer st)) with (length (g_output_buffer s_r)).
  change BUFFER_SIZE with PGLITE_BUFFER_SIZE.
  destruct Hcase1 as [(-> & Hov1 & Hl1 & _) | (-> & Hfit1 & Hl1 & _)];
    (split; [tauto|]); cbv zeta.
  - change (-1 =? -1) with true. cbv iota. rewrite Z.add_0_r.
    rewrite Hl1 in Hcase2.
    destruct Hcase2 as [(-> & Hov2 & Hl2 & _) | (-> & Hfit2 & Hl2 & _)].
    + change (-1 =? -1) with true. cbv iota. split; [tauto | lia].
    + destruct (Z.eqb_spec n (-1)); [lia|]. split; [tauto | lia].
  - change (5 =? -1) with false. cbv iota.
    rewrite Hl1 in Hcase2.
    destruct Hcase2 as [(-> & Hov2 & Hl2 & _) | (-> & Hfit2 & Hl2 & _)].
    + change (-1 =? -1) with true. cbv iota. split; [tauto | lia].
    + destruct (Z.eqb_spec n (-1)); [lia|]. split; [tauto | lia].
Qed.

End EchoFailure.

(* ------------------------------------------------------------------ *)
(** ** Filling the output through the echo emitter *)

Section EchoCycles.

Import TestWasm.

Lemma framed_bytes_nonneg : forall sizes,
  Forall (fun n => 1 <= n <= 1023) sizes -> 0 <= framed_bytes sizes.
Proof.
  induction 1 as [|n sizes Hn _ IH]; unfold framed_bytes in *; cbn [fold_right]; lia.
Qed.

Lemma echo_cycles_fill : forall sizes local_buffer st,
  Zlength local_buffer = 1024 ->
  Zlength (data (g_input st)) = BUFFER_SIZE ->
  output_ok st ->
  Forall (fun n => 1 <= n <= 1023) sizes ->
  length (g_output st) + framed_bytes sizes <= BUFFER_SIZE ->
  exists st',
    echo_cycles sizes local_buffer st = Some st' /\
    length (g_output st') = length (g_output st) + framed_bytes sizes /\
    output_ok st' /\
    Zlength (data (g_input st')) = BUFFER_SIZE /\
    error_code (g_control st') = error_code (g_control st).
Proof.
  induction sizes as [|n sizes IH]; intros local st Hloc Hd Hout Hsizes Hfit.
  - exists st. simpl. repeat split; try assumption; try lia; apply Hout.
  - inversion Hsizes as [|n' sizes' Hn Hrest]; subst.
    pose proof (framed_bytes_nonneg sizes Hrest) as Hnn.
    change (framed_bytes (n :: sizes)) with (5 + n + framed_bytes sizes) in *.
    set (s := signal_input_ready n st).
    destruct (process_message_outcome local s Hloc eq_refl Hd)
      as (r1 & r2 & s' & Hrun & _ & He & Hok' & _ & Hd' & Hc1 & Hc2 & Hl').
    { simpl. lia. } { simpl. unfold BUFFER_SIZE. lia. } { exact Hout. }
    change (length (g_input s)) with n in *.
    change (read_offset (g_control s)) with 0 in *.
    change (length (g_output s)) with (length (g_output st)) in *.
    change (data (g_input s)) with (data (g_input st)) in *.
    change (error_code (g_control s)) with (error_code (g_control st)) in *.
    rewrite Z.sub_0_r, Z.min_r in * by lia.
    cbv zeta in Hc2, Hl'.
    destruct Hc1 as [[-> Hover]|[-> _]]; [lia|].
    change (5 =? -1) with false in *. cbv iota in *.
    destruct Hc2 as [[-> Hover]|[-> _]]; [lia|].
    destruct (Z.eqb_spec n (-1)); [lia|].
    destruct (IH local s') as (st' & Hrun' & Hlen' & Hok'' & Hd'' & He'); try assumption.
    + rewrite Hd'. exact Hd.
    + lia.
    + exists st'. simpl echo_cycles. fold s. rewrite Hrun. unfold bind.
      split; [exact Hrun'|]. split; [lia|]. split; [exact Hok''|].
      split; [exact Hd''|]. rewrite He', He. reflexivity.
Qed.

End EchoCycles.

Section EchoBug.

Import TestWasm.

(** C4 at a failing input. On the reset channel, 64 calls of
    [process_message] (63 on inputs of 1023 bytes, one on 761 bytes) whose
    output is never acknowledged leave 65530 bytes in the output buffer.
    The next call, on the input ["hello"], appends its 5 header bytes; the
    [write] of the payload would need 65540 bytes and is rejected. The
    emitter goes on all the same: it returns 0, the operation is Completed,
    the error code is still 0, and the output ends in a header without
    payload. *)
Theorem echo_swallows_write_failure :
  exists s st',
    echo_cycles (repeat 1023 63 ++ [761]) (repeat 0 1024) (reset_buffers hello_channel)
    = Some s /\
    length (g_output s) = 65530 /\
    process_message (repeat 0 1024) (signal_input_ready 5 s) = Some (0, st') /\
    operation (g_control st') = OP_COMPLETED /\
    error_code (g_control st') = 0 /\
    length (g_output st') = 65535.
Proof.
  assert (Hloc : Zlength (repeat 0 1024) = 1024) by (rewrite Zlength_repeat; reflexivity).
  destruct (echo_cycles_fill (repeat 1023 63 ++ [761]) (repeat 0 1024)
              (reset_buffers hello_channel) Hloc)
    as (s & Hrun & Hlen & Hok & Hd & He).
  { exact hello_data_Zlength. }
  { split; [exact zero_data_Zlength | simpl; unfold PGLITE_BUFFER_SIZE; lia]. }
  { apply Forall_forall. intros x Hin. apply in_app_or in Hin. destruct Hin as [Hin|Hin].
    - apply repeat_spec in Hin. subst x. lia.
    - destruct Hin as [<-|[]]. lia. }
  { vm_compute. discriminate. }
  change (length (g_output (reset_buffers hello_channel))) with 0 in Hlen.
  change (framed_bytes (repeat 1023 63 ++ [761])) with 65530 in Hlen.
  change (error_code (g_control (reset_buffers hello_channel))) with 0 in He.
  rewrite Z.add_0_l in Hlen.
  set (s5 := signal_input_ready 5 s).
  destruct (process_message_outcome (repeat 0 1024) s5 Hloc eq_refl Hd)
    as (r1 & r2 & st' & Hrun5 & Hop & He5 & _ & _ & _ & Hc1 & Hc2 & Hl5).
  { simpl. lia. } { simpl. unfold BUFFER_SIZE. lia. } { exact Hok. }
  change (length (g_input s5)) with 5 in *.
  change (read_offset (g_control s5)) with 0 in *.
  change (length (g_output s5)) with (length (g_output s)) in *.
  change (error_code (g_control s5)) with (error_code (g_control s)) in *.
  change (Z.min 1023 (5 - 0)) with 5 in *.
  cbv zeta in Hc2, Hl5. rewrite Hlen in *.
  unfold BUFFER_SIZE in *.
  destruct Hc1 as [[-> Hover]|[-> _]]; [lia|].
  change (5 =? -1) with false in *. cbv iota in *.
  destruct Hc2 as [[-> _]|[-> Hfit]]; [|lia].
  change (-1 =? -1) with true in *. cbv iota in *.
  exists s, st'. split; [exact Hrun|]. split; [exact Hlen|].
  split; [exact Hrun5|]. split; [exact Hop|].
  split; [rewrite He5, He; reflexivity | rewrite Hl5; reflexivity].
Qed.

End EchoBug.

(* ------------------------------------------------------------------ *)
(** ** The multi-row emitter *)

Section MultiRow.

Import TestWasm.

Lemma digits_length : forall fuel n acc,
  (List.length (digits fuel n acc) <= fuel + List.length acc)%nat.
Proof.
  induction fuel as [|fuel IH]; intros n acc; simpl.
  - lia.
  - destruct (n / 10 =? 0).
    + simpl. lia.
    + specialize (IH (n / 10) ((48 + n mod 10) :: acc)). simpl in IH. lia.
Qed.

Lemma digits_nonempty : forall fuel n acc,
  (List.length acc <= List.length (digits fuel n acc))%nat.
Proof.
  induction fuel as [|fuel IH]; intros n acc; simpl.
  - lia.
  - destruct (n / 10 =? 0).
    + simpl. lia.
    + specialize (IH (n / 10) ((48 + n mod 10) :: acc)). simpl in IH. lia.
Qed.

Lemma fmt_d_length : forall v, 0 <= Zlength (fmt_d v) <= 11.
Proof.
  intro v. unfold fmt_d. destruct (v <? 0).
  - rewrite Zlength_cons, Zlength_correct.
    pose proof (digits_length 10 (- v) []) as H.
    change (10 + List.length (@nil Z))%nat with 10%nat in H. lia.
  - rewrite Zlength_correct.
    pose proof (digits_length 10 v []) as H.
    change (10 + List.length (@nil Z))%nat with 10%nat in H. lia.
Qed.

Lemma row_text_length : forall a b, 9 <= Zlength (row_text a b) <= 31.
Proof.
  intros a b. unfold row_text.
  rewrite !Zlength_app.
  pose proof (fmt_d_length a). pose proof (fmt_d_length b).
  change (Zlength [82; 111; 119; 32]) with 4.
  change (Zlength [32; 111; 102; 32]) with 4.
  change (Zlength [10]) with 1. lia.
Qed.

(** [snprintf] has room for the whole text in the 64-byte array. *)
Lemma snprintf_row_fits : forall a b,
  snprintf_row 64 a b = (row_text a b ++ [0], Zlength (row_text a b)).
Proof.
  intros a b. unfold snprintf_row.
  pose proof (row_text_length a b) as H. rewrite Zlength_correct in H.
  rewrite firstn_all2 by (change (Z.to_nat (64 - 1)) with 63%nat; lia).
  reflexivity.
Qed.

Lemma rows_bytes_nonneg : forall n i num_rows, 0 <= rows_bytes n i num_rows.
Proof.
  induction n as [|n IH]; intros i num_rows; cbn [rows_bytes].
  - lia.
  - pose proof (row_text_length (i + 1) num_rows). specialize (IH (i + 1) num_rows). lia.
Qed.

(** The loop of [process_multi_row] is defined, keeps the bytes already in
    the output, and either runs through, every row written in full and
    operation and error code untouched, or takes the early [return -1] at
    the first rejected [write], with operation Error and error code -2 (the
    header was rejected) or -3 (the row was). *)
Lemma multi_row_loop_outcome : forall n i num_rows st,
  output_ok st ->
  exists early st',
    multi_row_loop n i num_rows st = Some (early, st') /\
    output_ok st' /\
    output_kept st st' /\
    ((early = None /\
      operation (g_control st') = operation (g_control st) /\
      error_code (g_control st') = error_code (g_control st) /\
      length (g_output st') = length (g_output st) + rows_bytes n i num_rows) \/
     (early = Some (-1) /\
      operation (g_control st') = OP_ERROR /\
      (error_code (g_control st') = -2 \/ error_code (g_control st') = -3) /\
      status (g_output st') = BUFFER_READY /\
      length (g_output st') < length (g_output st) + rows_bytes n i num_rows)).
Proof.
  induction n as [|n IH]; intros i num_rows st Hok.
  - exists None, st. cbn [multi_row_loop rows_bytes].
    split; [reflexivity|]. split; [exact Hok|].
    split; [apply output_kept_refl|]. left. repeat split. lia.
  - cbn [multi_row_loop]. rewrite snprintf_row_fits.
    set (text := row_text (i + 1) num_rows).
    pose proof (row_text_length (i + 1) num_rows) as Htext. fold text in Htext.
    pose proof (rows_bytes_nonneg n (i + 1) num_rows) as Hrest.
    assert (H0 : 0 <= length (g_output st)) by (destruct Hok as [_ H]; lia).
    rewrite internal_write_same.
    destruct (write_outcome st (header_bytes 68 (to_uint32 (Zlength text + 4))) 5 Hok)
      as (r1 & s1 & Hw1 & Hok1 & Hk1 & _ & He1 & Hc1).
    { rewrite Zlength_correct. simpl. lia. }
    { unfold two32, PGLITE_BUFFER_SIZE. lia. }
    rewrite Hw1. unfold bind at 1. cbv beta iota.
    cbn [rows_bytes]. fold text.
    destruct Hc1 as [(-> & Hov1 & Hl1 & Hs1) | (-> & Hfit1 & Hl1 & Hs1)].
    + (* the header is rejected *)
      change (-1 <? 0) with true. cbv iota.
      eexists _, _. split; [reflexivity|].
      split; [exact Hok1|]. split; [exact Hk1|].
      right. cbn [upd_control set_operation set_error_code g_control g_output_buffer
                  operation error_code].
      split; [reflexivity|]. split; [reflexivity|]. split; [left; reflexivity|].
      split; [exact Hs1 | lia].
    + change (5 <? 0) with false. cbv iota.
      rewrite (to_size_t_small (Zlength text)) by (unfold uint32_range, two32; lia).
      rewrite internal_write_same.
      destruct (write_outcome s1 (text ++ [0]) (Zlength text) Hok1)
        as (r2 & s2 & Hw2 & Hok2 & Hk2 & _ & He2 & Hc2).
      { rewrite Zlength_app. change (Zlength [0]) with 1. lia. }
      { unfold two32, PGLITE_BUFFER_SIZE. lia. }
      rewrite Hw2. unfold bind at 1. cbv beta iota.
      assert (Hk12 : output_kept st s2) by (apply (output_kept_trans st s1 s2); assumption).
      destruct Hc2 as [(-> & Hov2 & Hl2 & Hs2) | (-> & Hfit2 & Hl2 & Hs2)].
      * (* the row is rejected *)
        change (-1 <? 0) with true. cbv iota.
        eexists _, _. split; [reflexivity|].
        split; [exact Hok2|]. split; [exact Hk12|].
        right. cbn [upd_control set_operation set_error_code g_control g_output_buffer
                    operation error_code].
        split; [reflexivity|]. split; [reflexivity|]. split; [right; reflexivity|].
        split; [exact Hs2 | lia].
      * destruct (Z.ltb_spec (Zlength text) 0); [lia|].
        destruct (IH (i + 1) num_rows s2 Hok2) as (early & st' & Hrun & Hok' & Hk' & Hc').
        exists early, st'. split; [exact Hrun|]. split; [exact Hok'|].
        split; [apply (output_kept_trans st s2 st'); assumption|].
        assert (Hop1 : operation (g_control s1) = operation (g_control st)).
        { apply write_appends_fields with (buf := header_bytes 68 (to_uint32 (Zlength text + 4)))
            (len := 5) in H0 as (x & Hx & Hrest').
          - rewrite Hw1 in Hx. injection Hx as <-. tauto.
          - apply Hok.
          - rewrite Zlength_correct. simpl. lia.
          - exact Hfit1. }
        assert (Hop2 : operation (g_control s2) = operation (g_control s1)).
        { assert (H1 : 0 <= length (g_output s1)) by lia.
          apply write_appends_fields with (buf := text ++ [0]) (len := Zlength text)
            in H1 as (x & Hx & Hrest').
          - rewrite Hw2 in Hx. injection Hx as <-. tauto.
          - apply Hok1.
          - rewrite Zlength_app. change (Zlength [0]) with 1. lia.
          - exact Hfit2. }
        destruct Hc' as [(-> & Hop & He & Hl) | (-> & Hop & He & Hs & Hl)].
        -- left. split; [reflexivity|].
           split; [rewrite Hop, Hop2, Hop1; reflexivity|].
           split; [rewrite He, He2, He1; reflexivity | lia].
        -- right. split; [reflexivity|]. split; [exact Hop|]. split; [exact He|].
           split; [exact Hs | lia].
Qed.

(** [process_multi_row] is defined and keeps the bytes already in the
    output. It returns 0, with operation Completed and the error code
    untouched, exactly when every row went out in full; when a [write] was
    rejected it returns -1 with operation Error and error code -2 or -3, and
    the bytes written before the rejected [write] are still in the output. *)
Lemma process_multi_row_outcome : forall num_rows st,
  output_ok st ->
  exists r st',
    process_multi_row num_rows st = Some (r, st') /\
    output_ok st' /\
    output_kept st st' /\
    ((r = 0 /\
      operation (g_control st') = OP_COMPLETED /\
      error_code (g_control st') = error_code (g_control st) /\
      length (g_output st')
      = length (g_output st) + rows_bytes (Z.to_nat num_rows) 0 num_rows) \/
     (r = -1 /\
      operation (g_control st') = OP_ERROR /\
      (error_code (g_control st') = -2 \/ error_code (g_control st') = -3) /\
      length (g_output st')
      < length (g_output st) + rows_bytes (Z.to_nat num_rows) 0 num_rows)).
Proof.
  intros num_rows st Hok. unfold process_multi_row.
  destruct (multi_row_loop_outcome (Z.to_nat num_rows) 0 num_rows st Hok)
    as (early & s & Hrun & Hok' & Hk & Hc).
  rewrite Hrun. unfold bind.
  destruct Hc as [(-> & Hop & He & Hl) | (-> & Hop & He & Hs & Hl)].
  - eexists _, _. split; [reflexivity|].
    rewrite internal_flush_same.
    assert (Hflush :
      length (g_output_buffer (Polling.pglite_polling_flush s)) = length (g_output_buffer s) /\
      data (g_output_buffer (Polling.pglite_polling_flush s)) = data (g_output_buffer s) /\
      error_code (g_control (Polling.pglite_polling_flush s)) = error_code (g_control s)).
    { unfold Polling.pglite_polling_flush.
      destruct (0 <? length (g_output_buffer s)); repeat split. }
    destruct Hflush as (Hfl & Hfd & Hfe).
    unfold output_ok, output_kept in *.
    cbn [upd_control set_operation g_control g_output_buffer operation error_code].
    rewrite Hfl, Hfd.
    split; [exact Hok'|]. split; [exact Hk|].
    left. split; [reflexivity|]. split; [reflexivity|].
    split; [rewrite Hfe; exact He | exact Hl].
  - exists (-1), s. split; [reflexivity|]. split; [exact Hok'|]. split; [exact Hk|].
    right. split; [reflexivity|]. split; [exact Hop|]. split; [exact He | exact Hl].
Qed.

End MultiRow.

(* ------------------------------------------------------------------ *)
(** ** What a defined [read] or [write] did *)

Section DefinedCalls.

Import Polling.

(** The three ways through [read]. *)
Lemma read_defined_cases : forall st buf max_len buf' r st',
  pglite_polling_read buf max_len st = Some (buf', r, st') ->
  let available :=
    to_size_t (to_uint32 (length (g_input_buffer st) - read_offset (g_control st))) in
  (status (g_input_buffer st) <> BUFFER_READY /\ buf' = buf /\ r = 0 /\ st' = st) \/
  (status (g_input_buffer st) = BUFFER_READY /\ available = 0 /\
   buf' = buf /\ r = 0 /\ st' = upd_input (set_status BUFFER_EMPTY) st) \/
  (status (g_input_buffer st) = BUFFER_READY /\ available <> 0 /\
   let k := if max_len <? available then max_len else available in
   memcpy buf 0 (data (g_input_buffer st)) (read_offset (g_control st)) k = Some buf' /\
   r = to_ssize_t k /\
   st' = mkChannel
           (if length (g_input_buffer st) <=? to_uint32 (read_offset (g_control st) + k)
            then set_status BUFFER_EMPTY (g_input_buffer st) else g_input_buffer st)
           (g_output_buffer st)
           (mkControl (operation (g_control st)) (error_code (g_control st))
              (to_uint32 (read_offset (g_control st) + k))
              (to_uint32 (total_read (g_control st) + k))
              (total_written (g_control st)))).
Proof.
  intros st buf max_len buf' r st' H available.
  unfold pglite_polling_read in H. fold available in H.
  destruct (Z.eqb_spec (status (g_input_buffer st)) BUFFER_READY) as [Hs|Hs]; simpl negb in H; cbv iota in H.
  - destruct (Z.eqb_spec available 0) as [Ha|Ha].
    + right. left. injection H as <- <- <-. repeat split; assumption.
    + right. right. unfold bind in H.
      destruct (memcpy buf 0 (data (g_input_buffer st)) (read_offset (g_control st))
                  (if max_len <? available then max_len else available)) as [b|] eqn:Hm;
        [|discriminate].
      injection H as <- <- <-.
      split; [assumption|]. split; [assumption|]. cbv zeta.
      split; [exact Hm|]. split; [reflexivity|].
      cbn [upd_control upd_input set_read_offset set_total_read g_control g_input_buffer
           g_output_buffer read_offset total_read operation error_code total_written length].
      destruct (_ <=? _); reflexivity.
  - left. injection H as <- <- <-. repeat split. assumption.
Qed.

(** The state a defined [write] leaves, in both branches. *)
Lemma write_defined_state : forall st buf len r st',
  output_ok st ->
  pglite_polling_write buf len st = Some (r, st') ->
  (r = -1 /\ ~ (0 <= len /\ length (g_output_buffer st) + len <= PGLITE_BUFFER_SIZE) /\
   st' = upd_control (set_operation OP_WRITE_READY)
           (upd_output (set_status BUFFER_READY) st)) \/
  (r = len /\ 0 <= len <= Zlength buf /\
   length (g_output_buffer st) + len <= PGLITE_BUFFER_SIZE /\
   st' = mkChannel (g_input_buffer st)
           (mkBuffer (status (g_output_buffer st)) (length (g_output_buffer st) + len)
              (firstn (Z.to_nat (length (g_output_buffer st))) (data (g_output_buffer st))
               ++ firstn (Z.to_nat len) buf
               ++ skipn (Z.to_nat (length (g_output_buffer st) + len))
                    (data (g_output_buffer st))))
           (mkControl (operation (g_control st)) (error_code (g_control st))
              (read_offset (g_control st)) (total_read (g_control st))
              (to_uint32 (total_written (g_control st) + len)))).
Proof.
  intros st buf len r st' [Hd Hl] H.
  destruct (write_defined_cases st buf len r st' H) as [[Hover ->] | (Hfit & Hlen & H0 & Hin)].
  - left. split; [reflexivity|].
    rewrite (write_rejects st buf len Hover) in H. injection H as <-.
    split; [|reflexivity].
    intros [Hlen Hfit]. rewrite to_size_t_small in Hover; [lia|].
    unfold uint32_range, two32, PGLITE_BUFFER_SIZE in *. lia.
  - right. rewrite Hd in Hin.
    rewrite (write_appends st buf len Hd H0 Hlen Hin) in H. injection H as <- <-.
    repeat split; try assumption; lia.
Qed.

End DefinedCalls.

Section ReadResult.

Import Polling.

(** A defined [read] on a channel whose cursor is inside an input of at most
    the capacity, in one formula: [k] bytes are copied, with
    [k = min (max_len, available)] when the input is Ready and [k = 0]
    otherwise. *)
Lemma read_wf_cases : forall st buf max_len buf' r st',
  length (g_input_buffer st) <= PGLITE_BUFFER_SIZE ->
  offset_inv st ->
  0 <= max_len ->
  pglite_polling_read buf max_len st = Some (buf', r, st') ->
  let k := if status (g_input_buffer st) =? BUFFER_READY
           then Z.min max_len (length (g_input_buffer st) - read_offset (g_control st))
           else 0 in
  r = k /\
  0 <= k <= Zlength buf /\
  (k <> 0 -> read_offset (g_control st) + k <= Zlength (data (g_input_buffer st))) /\
  buf' = firstn (Z.to_nat k)
           (skipn (Z.to_nat (read_offset (g_control st))) (data (g_input_buffer st)))
         ++ skipn (Z.to_nat k) buf /\
  g_input_buffer st'
  = (if (status (g_input_buffer st) =? BUFFER_READY)
        && (length (g_input_buffer st) <=? read_offset (g_control st) + k)
     then set_status BUFFER_EMPTY (g_input_buffer st) else g_input_buffer st) /\
  g_output_buffer st' = g_output_buffer st /\
  read_offset (g_control st') = read_offset (g_control st) + k /\
  (k <> 0 -> total_read (g_control st') = to_uint32 (total_read (g_control st) + k)) /\
  (k = 0 -> total_read (g_control st') = total_read (g_control st) \/
            total_read (g_control st') = to_uint32 (total_read (g_control st))).
Proof.
  intros st buf m buf' r st' Hlen Hinv Hm H k.
  unfold offset_inv in Hinv.
  assert (Hsz : PGLITE_BUFFER_SIZE = 65536) by reflexivity.
  pose proof (Zlength_nonneg buf) as Hbuf.
  assert (Hav : to_size_t (to_uint32 (length (g_input_buffer st) - read_offset (g_control st)))
                = length (g_input_buffer st) - read_offset (g_control st)).
  { apply available_exact; [unfold uint32_range, two32; lia | lia]. }
  apply read_defined_cases in H. cbv zeta in H. rewrite Hav in H.
  destruct H as [(Hs & -> & -> & ->) | [(Hs & Ha & -> & -> & ->) | (Hs & Ha & Hcopy & -> & ->)]].
  - assert (Hk : k = 0).
    { subst k. destruct (Z.eqb_spec (status (g_input_buffer st)) BUFFER_READY);
        [contradiction | reflexivity]. }
    rewrite Hk.
    destruct (Z.eqb_spec (status (g_input_buffer st)) BUFFER_READY); [contradiction|].
    cbn [andb]. rewrite Z.add_0_r.
    split; [reflexivity|]. split; [lia|]. split; [intro; lia|]. split; [reflexivity|].
    split; [reflexivity|]. split; [reflexivity|]. split; [reflexivity|].
    split; [intro; lia|]. intros _. left. reflexivity.
  - assert (Hk : k = 0).
    { subst k. rewrite Hs. change (BUFFER_READY =? BUFFER_READY) with true. cbv iota. lia. }
    rewrite Hk. rewrite Hs. change (BUFFER_READY =? BUFFER_READY) with true.
    cbn [andb]. rewrite Z.add_0_r.
    destruct (Z.leb_spec (length (g_input_buffer st)) (read_offset (g_control st))); [|lia].
    split; [reflexivity|]. split; [lia|]. split; [intro; lia|]. split; [reflexivity|].
    split; [reflexivity|]. split; [reflexivity|]. split; [reflexivity|].
    split; [intro; lia|]. intros _. left. reflexivity.
  - assert (Hk : (if m <? length (g_input_buffer st) - read_offset (g_control st)
                  then m else length (g_input_buffer st) - read_offset (g_control st)) = k).
    { subst k. rewrite Hs. change (BUFFER_READY =? BUFFER_READY) with true. cbv iota.
      destruct (Z.ltb_spec m (length (g_input_buffer st) - read_offset (g_control st))); lia. }
    rewrite Hk in *.
    assert (Hk0 : 0 <= k <= length (g_input_buffer st) - read_offset (g_control st)).
    { subst k. rewrite Hs. change (BUFFER_READY =? BUFFER_READY) with true. cbv iota. lia. }
    apply memcpy_defined in Hcopy. destruct Hcopy as [Hb ->].
    rewrite (to_uint32_small (read_offset (g_control st) + k))
      by (unfold uint32_range, two32; lia).
    rewrite to_ssize_t_small by (unfold two31; lia).
    rewrite Hs. change (BUFFER_READY =? BUFFER_READY) with true. cbn [andb].
    cbn [g_input_buffer g_output_buffer g_control read_offset total_read].
    change (Z.to_nat 0) with 0%nat. rewrite firstn_0, app_nil_l, Z.add_0_l.
    split; [reflexivity|]. split; [lia|]. split; [intro; lia|]. split; [reflexivity|].
    split; [reflexivity|]. split; [reflexivity|]. split; [reflexivity|].
    split; [reflexivity|]. intros ->. right. rewrite Z.add_0_r. reflexivity.
Qed.

(** X1. What [read] returns and where it leaves the input. On a channel whose
    cursor is inside an input of at most the capacity, a defined [read]
    returns [min (max_len, input.length - read_offset)] when the input is
    Ready and 0 otherwise; the cursor advances by the returned value,
    [total_read] grows by it modulo [2^32], the input bytes and length are
    untouched, and afterwards the input is Ready exactly when it was Ready
    and bytes are left to read. *)
Theorem read_result : forall st buf max_len buf' r st',
  length (g_input_buffer st) <= PGLITE_BUFFER_SIZE ->
  offset_inv st ->
  uint32_range (total_read (g_control st)) ->
  0 <= max_len ->
  pglite_polling_read buf max_len st = Some (buf', r, st') ->
  r = (if status (g_input_buffer st) =? BUFFER_READY
       then Z.min max_len (length (g_input_buffer st) - read_offset (g_control st))
       else 0) /\
  read_offset (g_control st') = read_offset (g_control st) + r /\
  total_read (g_control st') = to_uint32 (total_read (g_control st) + r) /\
  length (g_input_buffer st') = length (g_input_buffer st) /\
  data (g_input_buffer st') = data (g_input_buffer st) /\
  (status (g_input_buffer st') = BUFFER_READY <->
   status (g_input_buffer st) = BUFFER_READY /\
   read_offset (g_control st) + r < length (g_input_buffer st)).
Proof.
  intros st buf m buf' r st' Hlen Hinv Htr Hm H.
  destruct (read_wf_cases st buf m buf' r st' Hlen Hinv Hm H)
    as (Hr & Hk & _ & _ & Hin & _ & Hro & Htr1 & Htr0).
  cbv zeta in *. rewrite <- Hr in *. clear Hr.
  split; [reflexivity|]. split; [exact Hro|].
  split.
  { destruct (Z.eq_dec r 0) as [->|Hne].
    - rewrite Z.add_0_r, (to_uint32_small _ Htr).
      destruct (Htr0 eq_refl) as [E|E]; rewrite E; [reflexivity|].
      apply to_uint32_small. exact Htr.
    - exact (Htr1 Hne). }
  rewrite Hin.
  destruct (Z.eqb_spec (status (g_input_buffer st)) BUFFER_READY) as [Hs|Hs];
    destruct (Z.leb_spec (length (g_input_buffer st)) (read_offset (g_control st) + r));
    cbn [andb]; cbn [set_status status length data];
    (split; [reflexivity|]); (split; [reflexivity|]); split; intros Hx.
  - exfalso. discriminate Hx.
  - destruct Hx. lia.
  - split; [assumption | lia].
  - assumption.
  - contradiction.
  - destruct Hx. contradiction.
  - contradiction.
  - destruct Hx. contradiction.
Qed.

Lemma read_result_witness :
  exists buf' st',
    pglite_polling_read [0; 0; 0] 3 hello_ready = Some (buf', 3, st') /\
    read_offset (g_control st') = 3 /\
    status (g_input_buffer st') = BUFFER_READY.
Proof.
  eexists _, _. split; [exact hello_ready_read3|].
  assert (H1 : length (g_input_buffer hello_ready) <= PGLITE_BUFFER_SIZE)
    by (vm_compute; discriminate).
  assert (H2 : offset_inv hello_ready) by (unfold offset_inv; simpl; lia).
  assert (H3 : uint32_range (total_read (g_control hello_ready)))
    by (unfold uint32_range, two32; simpl; lia).
  assert (H4 : 0 <= 3) by lia.
  destruct (read_result hello_ready [0; 0; 0] 3 _ 3 _ H1 H2 H3 H4 hello_ready_read3)
    as (_ & Hro & _ & _ & _ & Hst).
  split; [exact Hro | reflexivity].
Defined.

(** X2. What [read] does to the destination. Under the same conditions a
    defined [read] that returns [r] has copied the [r] input bytes at the
    cursor, in order, into the first [r] cells of the destination and left
    every other cell of the destination as it was; [r] is between 0 and
    [max_len], and a copy of at least one byte stayed inside both arrays. *)
Theorem read_destination : forall st buf max_len buf' r st',
  length (g_input_buffer st) <= PGLITE_BUFFER_SIZE ->
  offset_inv st ->
  0 <= max_len ->
  pglite_polling_read buf max_len st = Some (buf', r, st') ->
  0 <= r <= max_len /\
  r <= Zlength buf /\
  (0 < r -> read_offset (g_control st) + r <= Zlength (data (g_input_buffer st))) /\
  Zlength buf' = Zlength buf /\
  firstn (Z.to_nat r) buf'
  = firstn (Z.to_nat r)
      (skipn (Z.to_nat (read_offset (g_control st))) (data (g_input_buffer st))) /\
  skipn (Z.to_nat r) buf' = skipn (Z.to_nat r) buf.
Proof.
  intros st buf m buf' r st' Hlen Hinv Hm H.
  destruct (read_wf_cases st buf m buf' r st' Hlen Hinv Hm H)
    as (Hr & Hk & Hsrc & Hbuf & _).
  cbv zeta in *.
  assert (Hrm : r <= m).
  { rewrite Hr. destruct (status (g_input_buffer st) =? BUFFER_READY); lia. }
  rewrite <- Hr in *. clear Hr.
  unfold offset_inv in Hinv.
  assert (Hl : List.length
                 (firstn (Z.to_nat r)
                    (skipn (Z.to_nat (read_offset (g_control st))) (data (g_input_buffer st))))
               = Z.to_nat r).
  { destruct (Z.eq_dec r 0) as [->|Hne]; [reflexivity|].
    rewrite length_firstn, length_skipn.
    specialize (Hsrc Hne). rewrite Zlength_correct in Hsrc. lia. }
  split; [lia|]. split; [lia|]. split; [intro; apply Hsrc; lia|].
  subst buf'. split; [|split].
  - rewrite Zlength_app, !Zlength_correct, Hl, length_skipn.
    rewrite Zlength_correct in Hk. lia.
  - apply firstn_app_exact. exact Hl.
  - rewrite skipn_app, Hl, Nat.sub_diag, skipn_0.
    rewrite skipn_all2 by lia. reflexivity.
Qed.

Lemma read_destination_witness :
  exists buf' st',
    pglite_polling_read [0; 0; 0] 3 hello_ready = Some (buf', 3, st') /\
    firstn 3 buf' = [104; 101; 108].
Proof.
  eexists _, _. split; [exact hello_ready_read3|].
  assert (H1 : length (g_input_buffer hello_ready) <= PGLITE_BUFFER_SIZE)
    by (vm_compute; discriminate).
  assert (H2 : offset_inv hello_ready) by (unfold offset_inv; simpl; lia).
  assert (H4 : 0 <= 3) by lia.
  destruct (read_destination hello_ready [0; 0; 0] 3 _ 3 _ H1 H2 H4 hello_ready_read3)
    as (_ & _ & _ & _ & Hcopy & _).
  exact Hcopy.
Defined.

End ReadResult.

(* ------------------------------------------------------------------ *)
(** ** The output direction *)

Section OutputDirection.

Import Polling.

(** X3. What [write] returns and where it leaves the output. On an output
    buffer within its array, a defined [write] returns [len] exactly when
    [len] is not negative and [output.length + len] does not exceed the
    capacity: then the [len] source bytes follow the bytes already there,
    the length and [total_written] (modulo [2^32]) grow by [len] and status
    and operation are untouched. Otherwise it returns -1, marks the output
    Ready and the operation WriteReady and changes neither bytes, length nor
    [total_written]. In both cases the bytes already in the output stay and
    the buffer stays within its array. *)
Theorem write_result : forall st buf len r st',
  output_ok st ->
  pglite_polling_write buf len st = Some (r, st') ->
  output_ok st' /\
  output_kept st st' /\
  ((r = -1 /\
    ~ (0 <= len /\ length (g_output_buffer st) + len <= PGLITE_BUFFER_SIZE) /\
    length (g_output_buffer st') = length (g_output_buffer st) /\
    data (g_output_buffer st') = data (g_output_buffer st) /\
    status (g_output_buffer st') = BUFFER_READY /\
    operation (g_control st') = OP_WRITE_READY /\
    total_written (g_control st') = total_written (g_control st)) \/
   (r = len /\
    0 <= len /\ length (g_output_buffer st) + len <= PGLITE_BUFFER_SIZE /\
    length (g_output_buffer st') = length (g_output_buffer st) + len /\
    firstn (Z.to_nat len)
      (skipn (Z.to_nat (length (g_output_buffer st))) (data (g_output_buffer st')))
    = firstn (Z.to_nat len) buf /\
    status (g_output_buffer st') = status (g_output_buffer st) /\
    operation (g_control st') = operation (g_control st) /\
    total_written (g_control st')
    = to_uint32 (total_written (g_control st) + len))).
Proof.
  intros st buf len r st' Hok H.
  pose proof Hok as [Hd Hl].
  destruct (write_defined_state st buf len r st' Hok H)
    as [(-> & Hno & ->) | (-> & Hlen & Hfit & Hst)].
  - split; [exact Hok|]. split; [split; [simpl; lia | reflexivity]|].
    left. repeat split. exact Hno.
  - destruct (write_appends_fields st buf len Hd ltac:(lia) Hlen Hfit)
      as (st2 & Hw & _ & Hs & Hl' & Hd' & Hp & Hc & Hop & _).
    rewrite Hw in H. injection H as <-.
    split; [split; [exact Hd' | lia]|].
    split; [split; [lia | exact Hp]|].
    right. split; [reflexivity|]. split; [lia|]. split; [exact Hfit|].
    split; [exact Hl'|]. split; [exact Hc|]. split; [exact Hs|]. split; [exact Hop|].
    rewrite Hst. reflexivity.
Qed.

Lemma write_result_witness :
  output_ok (pglite_reset_buffers zero_channel) /\
  length (g_output_buffer pending_channel) = 5 /\
  firstn 5 (skipn 0 (data (g_output_buffer pending_channel))) = hello.
Proof.
  assert (Hok : output_ok (pglite_reset_buffers zero_channel)).
  { split; [exact zero_data_Zlength | simpl; unfold PGLITE_BUFFER_SIZE; lia]. }
  split; [exact Hok|].
  destruct (write_result _ hello 5 5 pending_channel Hok pending_channel_reached)
    as (_ & _ & [(Habs & _) | (_ & _ & _ & Hl & Hb & _)]).
  - discriminate Habs.
  - split; [exact Hl | exact Hb].
Defined.

(** The bytes already in the output and their count after [flush]. *)
Lemma flush_output : forall st,
  length (g_output_buffer (pglite_polling_flush st)) = length (g_output_buffer st) /\
  data (g_output_buffer (pglite_polling_flush st)) = data (g_output_buffer st) /\
  status (g_output_buffer (pglite_polling_flush st))
  = (if 0 <? length (g_output_buffer st) then BUFFER_READY else status (g_output_buffer st)).
Proof.
  intro st. unfold pglite_polling_flush.
  destruct (0 <? length (g_output_buffer st)); repeat split.
Qed.

(** X4. [send] is [write] followed by [flush]: a defined [send] on an output
    buffer within its array either appends all [n] bytes and returns [n], or
    appends nothing and returns -1, never part of the bytes; afterwards
    [has_output] is true exactly when the call was rejected, or the output
    holds at least one byte, or it was true before. *)
Theorem send_result : forall st buf n r st',
  output_ok st ->
  send buf n st = Some (r, st') ->
  ((r = -1 /\
    ~ (0 <= n /\ length (g_output_buffer st) + n <= PGLITE_BUFFER_SIZE) /\
    pglite_get_output_length st' = length (g_output_buffer st) /\
    data (g_output_buffer st') = data (g_output_buffer st)) \/
   (r = n /\
    0 <= n /\ length (g_output_buffer st) + n <= PGLITE_BUFFER_SIZE /\
    pglite_get_output_length st' = length (g_output_buffer st) + n /\
    firstn (Z.to_nat n)
      (skipn (Z.to_nat (length (g_output_buffer st))) (data (g_output_buffer st')))
    = firstn (Z.to_nat n) buf)) /\
  output_kept st st' /\
  (pglite_has_output st' = 1 <->
   r = -1 \/ 0 < pglite_get_output_length st' \/ pglite_has_output st = 1).
Proof.
  intros st buf n r st' Hok H.
  pose proof Hok as [Hd Hl].
  unfold send in H. unfold bind in H.
  destruct (pglite_polling_write buf n st) as [[r1 s1]|] eqn:Hw; [|discriminate].
  injection H as <- <-.
  destruct (flush_output s1) as (Hfl & Hfd & Hfs).
  unfold pglite_get_output_length, pglite_has_output, output_kept.
  rewrite Hfl, Hfd, Hfs.
  destruct (write_defined_state st buf n r1 s1 Hok Hw)
    as [(-> & Hno & ->) | (-> & Hlen & Hfit & Hst)].
  - cbn [upd_control upd_output set_status g_output_buffer status length data].
    split; [left; repeat split; exact Hno|].
    split; [split; [lia | reflexivity]|].
    destruct (0 <? length (g_output_buffer st)); split; intros _;
      try reflexivity; left; reflexivity.
  - destruct (write_appends_fields st buf n Hd ltac:(lia) Hlen Hfit)
      as (st2 & Hw2 & _ & Hs & Hl' & Hd' & Hp & Hc & _).
    rewrite Hw2 in Hw. injection Hw as <-.
    rewrite Hl', Hs.
    split; [right; repeat split; try lia; exact Hc|].
    split; [split; [lia | exact Hp]|].
    destruct (Z.ltb_spec 0 (length (g_output_buffer st) + n));
      destruct (Z.eqb_spec (status (g_output_buffer st)) BUFFER_READY);
      change (BUFFER_READY =? BUFFER_READY) with true; cbv iota;
      split; intro Hx; try reflexivity; try (right; left; assumption);
      try (right; right; reflexivity); try discriminate Hx.
    destruct Hx as [Hx|[Hx|Hx]]; [lia | lia | discriminate Hx].
Qed.

Lemma send_result_witness :
  exists st',
    send hello 5 (pglite_reset_buffers zero_channel) = Some (5, st') /\
    pglite_get_output_length st' = 5 /\
    pglite_has_output st' = 1.
Proof.
  assert (Hok : output_ok (pglite_reset_buffers zero_channel)).
  { split; [exact zero_data_Zlength | simpl; unfold PGLITE_BUFFER_SIZE; lia]. }
  assert (Hs : send hello 5 (pglite_reset_buffers zero_channel)
               = Some (5, pglite_polling_flush pending_channel)).
  { unfold send. rewrite pending_channel_reached. reflexivity. }
  eexists. split; [exact Hs|].
  destruct (send_result _ hello 5 5 _ Hok Hs) as ([(Habs & _) | (_ & _ & _ & Hl & _)] & _ & Hh).
  - discriminate Habs.
  - split; [exact Hl|]. apply Hh. right. left. rewrite Hl. reflexivity.
Defined.

(** X5. Drain and retry. Whatever the output buffer held, once Side B has
    acknowledged it a [send] of up to the capacity succeeds: it returns [n],
    the output holds exactly the [n] source bytes, and [has_output] is true
    if [n] is positive. *)
Theorem send_after_ack : forall st buf n,
  Zlength (data (g_output_buffer st)) = PGLITE_BUFFER_SIZE ->
  0 <= n <= Zlength buf ->
  n <= PGLITE_BUFFER_SIZE ->
  exists st',
    send buf n (pglite_ack_output st) = Some (n, st') /\
    pglite_get_output_length st' = n /\
    firstn (Z.to_nat n) (data (g_output_buffer st')) = firstn (Z.to_nat n) buf /\
    (0 < n -> pglite_has_output st' = 1).
Proof.
  intros st buf n Hd Hn Hcap.
  destruct (write_appends_fields (pglite_ack_output st) buf n)
    as (s1 & Hw & _ & Hs & Hl & _ & _ & Hc & _).
  { exact Hd. } { simpl. lia. } { exact Hn. } { simpl. lia. }
  change (length (g_output_buffer (pglite_ack_output st))) with 0 in *.
  change (Z.to_nat 0) with 0%nat in Hc. rewrite skipn_0 in Hc. rewrite Z.add_0_l in Hl.
  exists (pglite_polling_flush s1).
  destruct (flush_output s1) as (Hfl & Hfd & Hfs).
  unfold send. rewrite Hw. unfold bind.
  split; [reflexivity|].
  unfold pglite_get_output_length, pglite_has_output. rewrite Hfl, Hfd, Hfs, Hl.
  split; [reflexivity|]. split; [exact Hc|].
  intro Hpos. destruct (Z.ltb_spec 0 n); [reflexivity | lia].
Qed.

Lemma send_after_ack_witness :
  exists st',
    send hello 5 (pglite_ack_output full_channel) = Some (5, st') /\
    pglite_get_output_length st' = 5.
Proof.
  destruct (send_after_ack full_channel hello 5) as (st' & Hs & Hl & _).
  - exact full_data_Zlength.
  - vm_compute. split; discriminate.
  - vm_compute. discriminate.
  - exists st'. split; [exact Hs | exact Hl].
Defined.

End OutputDirection.

Section OutputRoundTrip.

Import Polling.

Lemma write_calls_append : forall bufs st,
  output_ok st ->
  length (g_output_buffer st) + Zlength (concat bufs) <= PGLITE_BUFFER_SIZE ->
  exists st',
    write_calls bufs st = Some (map (@Zlength Z) bufs, st') /\
    output_ok st' /\
    output_kept st st' /\
    length (g_output_buffer st') = length (g_output_buffer st) + Zlength (concat bufs) /\
    firstn (Z.to_nat (Zlength (concat bufs)))
      (skipn (Z.to_nat (length (g_output_buffer st))) (data (g_output_buffer st')))
    = concat bufs /\
    status (g_output_buffer st') = status (g_output_buffer st).
Proof.
  induction bufs as [|buf bufs IH]; intros st Hok Hfit.
  - exists st. simpl concat. change (Zlength (@nil Z)) with 0.
    split; [reflexivity|]. split; [exact Hok|]. split; [apply output_kept_refl|].
    split; [lia|]. split; [reflexivity|]. reflexivity.
  - pose proof Hok as [Hd Hl].
    simpl concat in *. rewrite Zlength_app in *.
    pose proof (Zlength_nonneg buf) as Ha. pose proof (Zlength_nonneg (concat bufs)) as Hb.
    destruct (write_appends_fields st buf (Zlength buf) Hd ltac:(lia) ltac:(lia) ltac:(lia))
      as (s1 & Hw & _ & Hs1 & Hl1 & Hd1 & Hp1 & Hc1 & _).
    assert (Hok1 : output_ok s1) by (split; [exact Hd1 | lia]).
    destruct (IH s1 Hok1 ltac:(lia)) as (st' & Hrun & Hok' & Hk' & Hl' & Hc' & Hs').
    exists st'. cbn [write_calls map]. rewrite Hw. unfold bind at 1. cbv beta iota.
    rewrite Hrun. unfold bind.
    split; [reflexivity|]. split; [exact Hok'|].
    assert (Hk1 : output_kept st s1) by (split; [lia | exact Hp1]).
    split; [apply (output_kept_trans st s1 st'); [lia | exact Hk1 | exact Hk']|].
    split; [lia|]. split; [|rewrite Hs', Hs1; reflexivity].
    rewrite Z2Nat.inj_add by lia. rewrite firstn_add_split, skipn_skipn.
    rewrite Hl1 in Hc'.
    rewrite (Z2Nat.inj_add (length (g_output_buffer st)) (Zlength buf) ltac:(lia) Ha) in Hc'.
    rewrite (Nat.add_comm (Z.to_nat (Zlength buf))). rewrite Hc'.
    f_equal.
    destruct Hk' as [_ Hpre]. rewrite Hl1 in Hpre.
    rewrite (Z2Nat.inj_add (length (g_output_buffer st)) (Zlength buf) ltac:(lia) Ha) in Hpre.
    rewrite firstn_skipn_comm, Hpre, <- firstn_skipn_comm, Hc1.
    apply firstn_all2. rewrite Zlength_correct. lia.
Qed.

(** X6. Round trip of the output direction. From an acknowledged output
    buffer, a run of [write] calls whose sources together fit the capacity
    returns the length of each source, and after [flush] the output holds
    their concatenation: [get_output_length] is the total, the first bytes of
    the array are the sources in call order, and [has_output] is true exactly
    when the total is positive; [acknowledge_output] then empties the
    buffer. *)
Theorem output_round_trip : forall st bufs,
  Zlength (data (g_output_buffer st)) = PGLITE_BUFFER_SIZE ->
  Zlength (concat bufs) <= PGLITE_BUFFER_SIZE ->
  exists st1,
    write_calls bufs (pglite_ack_output st) = Some (map (@Zlength Z) bufs, st1) /\
    let st2 := pglite_polling_flush st1 in
    pglite_get_output_length st2 = Zlength (concat bufs) /\
    firstn (Z.to_nat (Zlength (concat bufs))) (data (g_output_buffer st2)) = concat bufs /\
    (pglite_has_output st2 = 1 <-> 0 < Zlength (concat bufs)) /\
    pglite_has_output (pglite_ack_output st2) = 0 /\
    pglite_get_output_length (pglite_ack_output st2) = 0.
Proof.
  intros st bufs Hd Hfit.
  destruct (write_calls_append bufs (pglite_ack_output st))
    as (st1 & Hrun & _ & _ & Hl & Hc & Hs).
  { split; [exact Hd | simpl; unfold PGLITE_BUFFER_SIZE; lia]. }
  { simpl. lia. }
  change (length (g_output_buffer (pglite_ack_output st))) with 0 in *.
  change (status (g_output_buffer (pglite_ack_output st))) with BUFFER_EMPTY in *.
  change (Z.to_nat 0) with 0%nat in Hc. rewrite skipn_0 in Hc. rewrite Z.add_0_l in Hl.
  exists st1. split; [exact Hrun|]. cbv zeta.
  destruct (flush_output st1) as (Hfl & Hfd & Hfs).
  unfold pglite_get_output_length, pglite_has_output. rewrite Hfl, Hfd, Hfs, Hl, Hs.
  split; [reflexivity|]. split; [exact Hc|].
  split; [|split; reflexivity].
  destruct (Z.ltb_spec 0 (Zlength (concat bufs))); split; intro Hx;
    try reflexivity; try assumption; try discriminate Hx; lia.
Qed.

Lemma output_round_trip_witness :
  exists st1,
    write_calls [hello; HELLO] (pglite_ack_output full_channel) = Some ([5; 5], st1) /\
    firstn 10 (data (g_output_buffer (pglite_polling_flush st1))) = hello ++ HELLO.
Proof.
  destruct (output_round_trip full_channel [hello; HELLO]) as (st1 & Hrun & _ & Hb & _).
  - exact full_data_Zlength.
  - vm_compute. discriminate.
  - exists st1. split; [exact Hrun | exact Hb].
Defined.

End OutputRoundTrip.

(* ------------------------------------------------------------------ *)
(** ** Bounds of the two buffers *)

Section BufferBounds.

Import Polling.

Lemma read_input_kept : forall st buf max_len buf' r st',
  pglite_polling_read buf max_len st = Some (buf', r, st') ->
  data (g_input_buffer st') = data (g_input_buffer st) /\
  length (g_input_buffer st') = length (g_input_buffer st).
Proof.
  intros st buf m buf' r st' H.
  apply read_defined_cases in H. cbv zeta in H.
  destruct H as [(_ & _ & _ & ->) | [(_ & _ & _ & _ & ->) | (_ & _ & _ & _ & ->)]].
  - split; reflexivity.
  - split; reflexivity.
  - cbn [g_input_buffer]. destruct (_ <=? _); split; reflexivity.
Qed.

Lemma write_keeps_output_ok : forall st buf len r st',
  output_ok st ->
  pglite_polling_write buf len st = Some (r, st') ->
  output_ok st'.
Proof.
  intros st buf len r st' Hok H.
  pose proof Hok as [Hd Hl].
  destruct (write_defined_state st buf len r st' Hok H)
    as [(-> & _ & ->) | (-> & Hlen & Hfit & _)].
  - exact Hok.
  - destruct (write_appends_fields st buf len Hd ltac:(lia) Hlen Hfit)
      as (st2 & Hw & _ & _ & Hl' & Hd' & _).
    rewrite Hw in H. injection H as <-. split; [exact Hd' | lia].
Qed.

Lemma buffers_ok_step : forall c st st',
  call_ok c -> buffers_ok st -> run_call c st = Some st' -> buffers_ok st'.
Proof.
  intros c st st' Hc (Hdi & Hli & Hout) Hrun.
  destruct c as [len | | | buf m | buf len | ]; simpl in Hrun, Hc.
  - injection Hrun as <-. split; [exact Hdi|]. split; [exact Hc | exact Hout].
  - injection Hrun as <-. destruct Hout as [Hdo _].
    split; [exact Hdi|]. split; [simpl; unfold PGLITE_BUFFER_SIZE; lia|].
    split; [exact Hdo | simpl; unfold PGLITE_BUFFER_SIZE; lia].
  - injection Hrun as <-. destruct Hout as [Hdo _].
    split; [exact Hdi|]. split; [exact Hli|].
    split; [exact Hdo | simpl; unfold PGLITE_BUFFER_SIZE; lia].
  - unfold bind in Hrun.
    destruct (pglite_polling_read buf m st) as [[[b r] s]|] eqn:Hr; [|discriminate].
    injection Hrun as ->.
    destruct (read_input_kept _ _ _ _ _ _ Hr) as [Hd' Hl'].
    destruct (read_frame _ _ _ _ _ _ Hr) as (Ho & _).
    unfold buffers_ok, output_ok. rewrite Hd', Hl', Ho.
    split; [exact Hdi|]. split; [exact Hli | exact Hout].
  - unfold bind in Hrun.
    destruct (pglite_polling_write buf len st) as [[r s]|] eqn:Hw; [|discriminate].
    injection Hrun as ->.
    destruct (write_frame _ _ _ _ _ Hw) as (Hi & _).
    unfold buffers_ok. rewrite Hi.
    split; [exact Hdi|]. split; [exact Hli|].
    exact (write_keeps_output_ok _ _ _ _ _ Hout Hw).
  - injection Hrun as <-.
    destruct (flush_frame st) as (Hi & _). destruct (flush_output st) as (Hl & Hd & _).
    unfold buffers_ok, output_ok. rewrite Hi, Hl, Hd.
    split; [exact Hdi|]. split; [exact Hli | exact Hout].
Qed.

(** X7. The lengths never leave the arrays. If both buffers hold a length
    between 0 and the capacity and arrays of [capacity] cells, they still do
    after any sequence of defined calls ([signal_input_ready] with at most
    the capacity, [reset], [acknowledge_output], [read], [write], [flush]),
    whatever lengths the [write] calls asked for; this holds in particular
    from the zero-initialised channel. *)
Theorem buffers_bounded : forall cs st st',
  Forall call_ok cs ->
  buffers_ok st ->
  run_calls cs st = Some st' ->
  buffers_ok st' /\ buffers_ok zero_channel.
Proof.
  assert (Hz : buffers_ok zero_channel).
  { split; [exact zero_data_Zlength|].
    split; [simpl; unfold PGLITE_BUFFER_SIZE; lia|].
    split; [exact zero_data_Zlength | simpl; unfold PGLITE_BUFFER_SIZE; lia]. }
  intros cs st st' Hcs Hst Hrun. split; [|exact Hz].
  revert st Hst Hrun.
  induction Hcs as [|c cs Hc _ IH]; intros st Hst Hrun; simpl in Hrun.
  - injection Hrun as <-. exact Hst.
  - unfold bind in Hrun.
    destruct (run_call c st) as [s|] eqn:Hs; [|discriminate].
    exact (IH s (buffers_ok_step c st s Hc Hst Hs) Hrun).
Qed.

Lemma buffers_bounded_witness :
  exists st',
    run_calls [ResetBuffers; Write hello 5; Flush] zero_channel = Some st' /\
    buffers_ok st'.
Proof.
  assert (Hrun : run_calls [ResetBuffers; Write hello 5; Flush] zero_channel
                 = Some (pglite_polling_flush pending_channel)).
  { cbn [run_calls run_call bind]. rewrite pending_channel_reached. reflexivity. }
  eexists. split; [exact Hrun|].
  refine (proj1 (buffers_bounded _ zero_channel _ _ _ Hrun)).
  - repeat constructor. unfold uint32_range, two32. lia.
  - split; [exact zero_data_Zlength|].
    split; [simpl; unfold PGLITE_BUFFER_SIZE; lia|].
    split; [exact zero_data_Zlength | simpl; unfold PGLITE_BUFFER_SIZE; lia].
Defined.

End BufferBounds.

Section Rewind.

Import Polling.

Lemma read_calls_output : forall reqs st res st',
  read_calls reqs st = Some (res, st') ->
  g_output_buffer st' = g_output_buffer st.
Proof.
  induction reqs as [|[buf m] reqs IH]; intros st res st' Hrun; simpl in Hrun.
  - injection Hrun as _ <-. reflexivity.
  - unfold bind in Hrun.
    destruct (pglite_polling_read buf m st) as [[[b r] s1]|] eqn:Hr; [|discriminate].
    destruct (read_calls reqs s1) as [[rest s2]|] eqn:Hrest; [|discriminate].
    injection Hrun as _ <-.
    rewrite (IH s1 rest s2 Hrest).
    exact (proj1 (read_frame _ _ _ _ _ _ Hr)).
Qed.

(** X8. [signal_input_ready] rearms the input from any state. However much of
    an earlier input has been read and whatever the input status is, once
    [L <= capacity] bytes sit at the start of the input array and
    [signal_input_ready (L)] has been called, a run of [read] calls asking for
    at least [L] bytes delivers exactly those [L] bytes in order; no [reset]
    is needed, and what was left unread of the earlier input is not
    delivered. *)
Theorem signal_rearms_input : forall st payload reqs,
  Zlength payload <= PGLITE_BUFFER_SIZE ->
  Zlength (data (g_input_buffer st)) = PGLITE_BUFFER_SIZE ->
  firstn (Z.to_nat (Zlength payload)) (data (g_input_buffer st)) = payload ->
  Forall request_ok reqs ->
  Zlength payload <= total reqs ->
  exists results st',
    read_calls reqs (pglite_signal_input_ready (Zlength payload) st)
    = Some (results, st') /\
    received results = payload /\
    total results = Zlength payload /\
    read_offset (g_control st') = Zlength payload /\
    g_output_buffer st' = g_output_buffer st.
Proof.
  intros st payload reqs HL Hd Hp Hok Hreq.
  pose proof (Zlength_nonneg payload) as H0.
  set (L := Zlength payload) in *.
  set (s := pglite_signal_input_ready L st).
  destruct (read_calls_deliver reqs s) as (res & st' & Hrun & Hrec & Hsum & Hd' & Hl' & Ho').
  - exact Hd.
  - exact HL.
  - simpl. lia.
  - left. reflexivity.
  - exact Hok.
  - change (length (g_input_buffer s)) with L in *.
    change (read_offset (g_control s)) with 0 in *.
    change (data (g_input_buffer s)) with (data (g_input_buffer st)) in *.
    rewrite Z.sub_0_r, Z.min_r in * by lia.
    exists res, st'. split; [exact Hrun|]. split; [|split; [exact Hsum|split; [lia|]]].
    + rewrite Hrec. change (Z.to_nat 0) with 0%nat. rewrite skipn_0. exact Hp.
    + exact (read_calls_output _ _ _ _ Hrun).
Qed.

Lemma signal_rearms_input_witness :
  exists results st',
    read_calls [([0; 0; 0], 3); ([0; 0; 0], 3)] (pglite_signal_input_ready 5 hello_ready)
    = Some (results, st') /\
    received results = hello.
Proof.
  destruct (signal_rearms_input hello_ready hello [([0; 0; 0], 3); ([0; 0; 0], 3)])
    as (results & st' & Hrun & Hrec & _).
  - vm_compute. discriminate.
  - exact hello_data_Zlength.
  - reflexivity.
  - repeat constructor; vm_compute; congruence.
  - vm_compute. discriminate.
  - exists results, st'. split; [exact Hrun | exact Hrec].
Defined.

End Rewind.

(* ------------------------------------------------------------------ *)
(** ** The echo emitter on any channel *)

Section EchoGeneral.

Import TestWasm.

(** [process_message] when its [read] delivers nothing: the error return. *)
Lemma process_message_no_input : forall local_buffer st,
  status (g_input st) <> BUFFER_READY \/ read_offset (g_control st) = length (g_input st) ->
  exists st',
    process_message local_buffer st = Some (-1, st') /\
    g_output st' = g_output st /\
    data (g_input st') = data (g_input st) /\
    length (g_input st') = length (g_input st) /\
    status (g_input st') <> BUFFER_READY /\
    (status (g_input st') = status (g_input st) \/ status (g_input st') = BUFFER_EMPTY) /\
    g_control st' = set_operation OP_ERROR (set_error_code (-1) (g_control st)).
Proof.
  intros local st Hno.
  assert (Hread : exists s,
            internal_read local (1024 - 1) st = Some (local, 0, s) /\
            g_output s = g_output st /\ data (g_input s) = data (g_input st) /\
            length (g_input s) = length (g_input st) /\
            status (g_input s) <> BUFFER_READY /\
            (status (g_input s) = status (g_input st) \/ status (g_input s) = BUFFER_EMPTY) /\
            g_control s = g_control st).
  { rewrite internal_read_same.
    destruct (Z.eq_dec (status (g_input st)) BUFFER_READY) as [Hs|Hs].
    - destruct Hno as [Hn|Hend]; [contradiction|].
      exists (upd_input (set_status BUFFER_EMPTY) st).
      split; [apply read_drained; assumption|].
      repeat split; try discriminate. right. reflexivity.
    - exists st. split; [apply read_not_ready; assumption|].
      repeat split; try assumption. left. reflexivity. }
  destruct Hread as (s & Hr & Ho & Hd & Hl & Hs & Hs' & Hc).
  unfold process_message. rewrite Hr. unfold bind.
  change (0 <=? 0) with true. cbv iota.
  eexists. split; [reflexivity|].
  cbn [upd_control g_output_buffer g_input_buffer g_control].
  rewrite Hc. repeat split; assumption.
Qed.

(** [process_message] when its [read] delivers [n > 0] bytes: everything the
    call leaves behind. *)
Lemma process_message_delivers : forall local_buffer st,
  Zlength local_buffer = 1024 ->
  status (g_input st) = BUFFER_READY ->
  Zlength (data (g_input st)) = BUFFER_SIZE ->
  0 <= read_offset (g_control st) < length (g_input st) ->
  length (g_input st) <= BUFFER_SIZE ->
  output_ok st ->
  let n := Z.min 1023 (length (g_input st) - read_offset (g_control st)) in
  exists st',
    process_message local_buffer st = Some (0, st') /\
    g_input st' = (if length (g_input st) <=? read_offset (g_control st) + n
                   then set_status BUFFER_EMPTY (g_input st) else g_input st) /\
    read_offset (g_control st') = read_offset (g_control st) + n /\
    total_read (g_control st') = to_uint32 (total_read (g_control st) + n) /\
    operation (g_control st') = OP_COMPLETED /\
    error_code (g_control st') = error_code (g_control st) /\
    status (g_output st') = BUFFER_READY /\
    output_ok st' /\
    output_kept st st' /\
    (length (g_output st) + 5 + n <= BUFFER_SIZE ->
     length (g_output st') = length (g_output st) + 5 + n /\
     firstn (Z.to_nat (5 + n))
       (skipn (Z.to_nat (length (g_output st))) (data (g_output st')))
     = header_bytes 82 (n + 4)
       ++ map to_upper
            (firstn (Z.to_nat n)
               (skipn (Z.to_nat (read_offset (g_control st))) (data (g_input st))))).
Proof.
  intros local st Hloc Hs Hd Hro Hlen Hout n.
  rewrite (process_message_reads local st Hloc Hs Hd Hro Hlen).
  fold n.
  assert (Hn : 0 < n <= 1023) by (subst n; lia).
  set (chunk := firstn (Z.to_nat n)
                  (skipn (Z.to_nat (read_offset (g_control st))) (data (g_input st)))).
  assert (Hchunk : List.length chunk = Z.to_nat n).
  { subst chunk. rewrite length_firstn, length_skipn.
    rewrite Zlength_correct in Hd. unfold BUFFER_SIZE in *. lia. }
  match goal with
  | |- context [internal_write _ 5 ?c] => set (s_r := c)
  end.
  assert (Hout_r : output_ok s_r) by exact Hout.
  pose proof Hout as [Hdo Hlo].
  set (header := header_bytes 82 (n + 4)).
  assert (Hhdr : Zlength header = 5) by reflexivity.
  destruct (write_outcome s_r header 5 Hout_r)
    as (r1 & s1 & Hw1 & Hok1 & Hk1 & Hi1 & He1 & Hcase1).
  { rewrite Hhdr. lia. } { unfold two32, PGLITE_BUFFER_SIZE. lia. }
  match goal with
  | |- context [internal_write ?b n] => set (payload := b)
  end.
  assert (Hpay : n <= Zlength payload).
  { subst payload. rewrite Zlength_app, Zlength_cons, Zlength_correct, length_map, Hchunk.
    pose proof (Zlength_nonneg (skipn (Z.to_nat (n + 1)) local)). lia. }
  destruct (write_outcome s1 payload n Hok1)
    as (r2 & s2 & Hw2 & Hok2 & Hk2 & Hi2 & He2 & Hcase2).
  { lia. } { unfold two32, PGLITE_BUFFER_SIZE. lia. }
  rewrite internal_write_same, Hw1. unfold bind at 1. cbv beta iota.
  rewrite internal_write_same, Hw2. unfold bind.
  eexists. split; [reflexivity|].
  rewrite internal_flush_same.
  destruct (flush_output s2) as (Hfl & Hfd & Hfs).
  destruct (flush_frame s2) as (Hfi & Hfro & Hftr).
  destruct (write_frame _ _ _ _ _ Hw1) as (_ & Hro1 & Htr1).
  destruct (write_frame _ _ _ _ _ Hw2) as (_ & Hro2 & Htr2).
  assert (Hfe : error_code (g_control (Polling.pglite_polling_flush s2))
                = error_code (g_control s2)).
  { unfold Polling.pglite_polling_flush. destruct (0 <? length (g_output_buffer s2)); reflexivity. }
  unfold output_ok, output_kept in *.
  cbn [upd_control set_operation g_control g_output_buffer g_input_buffer
       operation error_code read_offset total_read].
  rewrite Hfi, Hi2, Hi1, Hfro, Hro2, Hro1, Hftr, Htr2, Htr1, Hfe, He2, He1, Hfl, Hfd, Hfs.
  split; [reflexivity|]. split; [reflexivity|]. split; [reflexivity|].
  split; [reflexivity|]. split; [reflexivity|].
  assert (Hk02 : length (g_output_buffer s_r) <= length (g_output_buffer s2) /\
                 firstn (Z.to_nat (length (g_output_buffer s_r))) (data (g_output_buffer s2))
                 = firstn (Z.to_nat (length (g_output_buffer s_r))) (data (g_output_buffer s_r))).
  { apply (output_kept_trans s_r s1 s2); [lia | exact Hk1 | exact Hk2]. }
  split.
  { (* the output is Ready *)
    destruct (Z.ltb_spec 0 (length (g_output_buffer s2))); [reflexivity|].
    destruct Hcase2 as [(_ & _ & _ & Hst2) | (_ & _ & Hl2 & Hst2)]; [exact Hst2|].
    rewrite Hst2.
    destruct Hcase1 as [(_ & _ & _ & Hst1) | (_ & _ & Hl1 & _)]; [exact Hst1|].
    change (length (g_output_buffer s_r)) with (length (g_output_buffer st)) in Hl1. lia. }
  split; [exact Hok2|]. split; [exact Hk02|].
  (* both writes fit *)
  intro Hfit. change BUFFER_SIZE with PGLITE_BUFFER_SIZE in Hfit.
  assert (Ha1 : 0 <= length (g_output_buffer s_r)) by (apply Hlo).
  assert (Ha2 : 0 <= 5 <= Zlength header) by (rewrite Hhdr; lia).
  assert (Ha3 : length (g_output_buffer s_r) + 5 <= PGLITE_BUFFER_SIZE)
    by (change (length (g_output_buffer s_r)) with (length (g_output_buffer st)); lia).
  destruct (write_appends_fields s_r header 5 Hdo Ha1 Ha2 Ha3)
    as (s1' & Hw1' & _ & _ & Hl1 & Hd1 & Hp1 & Hc1 & _).
  rewrite Hw1 in Hw1'. injection Hw1' as -> <-.
  change (length (g_output_buffer s_r)) with (length (g_output_buffer st)) in *.
  change (data (g_output_buffer s_r)) with (data (g_output_buffer st)) in *.
  assert (Hb1 : 0 <= length (g_output_buffer s1)) by lia.
  assert (Hb2 : 0 <= n <= Zlength payload) by lia.
  assert (Hb3 : length (g_output_buffer s1) + n <= PGLITE_BUFFER_SIZE) by lia.
  destruct (write_appends_fields s1 payload n Hd1 Hb1 Hb2 Hb3)
    as (s2' & Hw2' & _ & _ & Hl2 & Hd2 & Hp2 & Hc2 & _).
  rewrite Hw2 in Hw2'. injection Hw2' as -> <-.
  split; [lia|].
  rewrite Hl1 in Hp2, Hc2.
  rewrite (Z2Nat.inj_add (length (g_output_buffer st)) 5) in Hp2, Hc2 by lia.
  rewrite (Z2Nat.inj_add 5 n) by lia.
  rewrite firstn_add_split, skipn_skipn.
  rewrite (Nat.add_comm (Z.to_nat 5)), Hc2.
  rewrite firstn_skipn_comm, Hp2, <- firstn_skipn_comm, Hc1.
  f_equal.
  subst payload. apply firstn_app_exact. rewrite length_map. exact Hchunk.
Qed.

End EchoGeneral.

Section EchoExtras.

Import TestWasm.

(** X9. [process_message] without input. When the input is not Ready, or is
    Ready with nothing left to read (a reset channel, or
    [signal_input_ready (0)]), [process_message] returns -1 with error code -1
    and operation Error; it writes nothing: the output buffer, the cursor and
    [total_read] are as before, and the input is not Ready afterwards. *)
Theorem process_message_without_input : forall local_buffer st,
  status (g_input st) <> BUFFER_READY \/ read_offset (g_control st) = length (g_input st) ->
  exists st',
    process_message local_buffer st = Some (-1, st') /\
    error_code (g_control st') = -1 /\
    operation (g_control st') = OP_ERROR /\
    g_output st' = g_output st /\
    read_offset (g_control st') = read_offset (g_control st) /\
    total_read (g_control st') = total_read (g_control st) /\
    total_written (g_control st') = total_written (g_control st) /\
    status (g_input st') <> BUFFER_READY.
Proof.
  intros local st Hno.
  destruct (process_message_no_input local st Hno)
    as (st' & Hrun & Ho & _ & _ & Hs & _ & Hc).
  exists st'. split; [exact Hrun|]. rewrite Hc.
  repeat split; assumption.
Qed.

Lemma process_message_without_input_witness :
  exists st',
    process_message [] (signal_input_ready 0 (reset_buffers zero_channel)) = Some (-1, st') /\
    error_code (g_control st') = -1 /\
    g_output st' = zero_buffer.
Proof.
  destruct (process_message_without_input []
              (signal_input_ready 0 (reset_buffers zero_channel)))
    as (st' & Hrun & He & _ & Ho & _).
  - right. reflexivity.
  - exists st'. split; [exact Hrun|]. split; [exact He | exact Ho].
Defined.

(** X10. [process_message] echoes one chunk. With the input Ready, the cursor
    inside it and room in the output for the whole message, [process_message]
    consumes [n = min (1023, input.length - read_offset)] bytes at the
    cursor and appends, after the bytes already in the output, the tag ['R'],
    the big-endian [n + 4] and the [n] bytes upper-cased; it returns 0, the
    output is Ready, the operation Completed, the cursor has advanced by [n],
    and the input stays Ready exactly when bytes are left for a next call. *)
Theorem process_message_chunk : forall local_buffer st,
  Zlength local_buffer = 1024 ->
  status (g_input st) = BUFFER_READY ->
  Zlength (data (g_input st)) = BUFFER_SIZE ->
  0 <= read_offset (g_control st) < length (g_input st) ->
  length (g_input st) <= BUFFER_SIZE ->
  output_ok st ->
  let n := Z.min 1023 (length (g_input st) - read_offset (g_control st)) in
  length (g_output st) + 5 + n <= BUFFER_SIZE ->
  exists st',
    process_message local_buffer st = Some (0, st') /\
    length (g_output st') = length (g_output st) + 5 + n /\
    firstn (Z.to_nat (5 + n))
      (skipn (Z.to_nat (length (g_output st))) (data (g_output st')))
    = header_bytes 82 (n + 4)
      ++ map to_upper
           (firstn (Z.to_nat n)
              (skipn (Z.to_nat (read_offset (g_control st))) (data (g_input st)))) /\
    output_kept st st' /\
    status (g_output st') = BUFFER_READY /\
    operation (g_control st') = OP_COMPLETED /\
    read_offset (g_control st') = read_offset (g_control st) + n /\
    data (g_input st') = data (g_input st) /\
    (status (g_input st') = BUFFER_READY <->
     read_offset (g_control st) + n < length (g_input st)).
Proof.
  intros local st Hloc Hs Hd Hro Hlen Hout n Hfit.
  destruct (process_message_delivers local st Hloc Hs Hd Hro Hlen Hout)
    as (st' & Hrun & Hin & Hro' & _ & Hop & _ & Hst & _ & Hk & Hbytes).
  fold n in Hin, Hro', Hbytes.
  destruct (Hbytes Hfit) as [Hl Hb].
  exists st'. split; [exact Hrun|]. split; [exact Hl|]. split; [exact Hb|].
  split; [exact Hk|]. split; [exact Hst|]. split; [exact Hop|]. split; [exact Hro'|].
  rewrite Hin.
  destruct (Z.leb_spec (length (g_input st)) (read_offset (g_control st) + n)).
  - split; [reflexivity|]. cbn [set_status status]. split; intro Hx; [discriminate Hx | lia].
  - split; [reflexivity|]. split; intro; [assumption | exact Hs].
Qed.

Lemma process_message_chunk_witness :
  exists st',
    process_message (repeat 0 1024) hello_ready = Some (0, st') /\
    length (g_output st') = 10 /\
    read_offset (g_control st') = 5.
Proof.
  destruct (process_message_chunk (repeat 0 1024) hello_ready)
    as (st' & Hrun & Hl & _ & _ & _ & _ & Hro & _).
  - rewrite Zlength_repeat. reflexivity.
  - reflexivity.
  - exact hello_data_Zlength.
  - simpl. lia.
  - vm_compute. discriminate.
  - split; [exact zero_data_Zlength | simpl; unfold PGLITE_BUFFER_SIZE; lia].
  - vm_compute. discriminate.
  - exists st'. split; [exact Hrun|]. split; [exact Hl | exact Hro].
Defined.

(** X11. The message header. For every tag and every [uint32_t] length the
    five header bytes are the tag followed by four bytes, each in [0, 256),
    that encode the length most significant byte first; so the length can
    be recovered from the header. *)
Theorem header_bytes_big_endian : forall tag len,
  uint32_range len ->
  exists b1 b2 b3 b4,
    header_bytes tag len = [tag; b1; b2; b3; b4] /\
    0 <= b1 < 256 /\ 0 <= b2 < 256 /\ 0 <= b3 < 256 /\ 0 <= b4 < 256 /\
    be32 b1 b2 b3 b4 = len.
Proof.
  intros tag len [H0 H1]. unfold two32 in H1.
  unfold header_bytes. eexists _, _, _, _. split; [reflexivity|].
  change 255 with (Z.ones 8).
  rewrite !Z.land_ones by lia. rewrite !Z.shiftr_div_pow2 by lia.
  change (2 ^ 8) with 256. change (2 ^ 16) with 65536. change (2 ^ 24) with 16777216.
  unfold be32.
  repeat split; try (apply Z.mod_pos_bound; lia).
  pose proof (Z.div_mod len 256 ltac:(lia)).
  pose proof (Z.div_mod (len / 256) 256 ltac:(lia)).
  pose proof (Z.div_mod (len / 256 / 256) 256 ltac:(lia)).
  rewrite Z.div_div in * by lia. change (256 * 256) with 65536 in *.
  rewrite Z.div_div in * by lia. change (65536 * 256) with 16777216 in *.
  assert (Htop : (len / 16777216) mod 256 = len / 16777216).
  { apply Z.mod_small. split; [apply Z.div_pos; lia|].
    apply Z.div_lt_upper_bound; lia. }
  pose proof (Z.div_mod (len / 16777216) 256 ltac:(lia)) as Hq.
  rewrite Htop in *. lia.
Qed.

Lemma header_bytes_big_endian_witness :
  exists b1 b2 b3 b4,
    header_bytes 82 9 = [82; b1; b2; b3; b4] /\ be32 b1 b2 b3 b4 = 9.
Proof.
  destruct (header_bytes_big_endian 82 9) as (b1 & b2 & b3 & b4 & Hh & _ & _ & _ & _ & Hv).
  - split; [discriminate | reflexivity].
  - exists b1, b2, b3, b4. split; [exact Hh | exact Hv].
Defined.

(** X12. The upper-casing loop. Run for [n] cells from index 0 on an array of
    at least [n] cells, the loop of [process_message] is defined, keeps the
    size of the array, replaces in the first [n] cells every byte from ['a']
    (97) to ['z'] (122) by the byte 32 below it and leaves every other byte,
    and every cell from index [n] on, as it was. *)
Theorem uppercase_loop_cells : forall buf n,
  0 <= n <= Zlength buf ->
  exists buf',
    uppercase_loop (Z.to_nat n) 0 buf = Some buf' /\
    Zlength buf' = Zlength buf /\
    forall j, 0 <= j < Zlength buf ->
      load buf' j
      = (if (j <? n) && (97 <=? load buf j) && (load buf j <=? 122)
         then load buf j - 32 else load buf j).
Proof.
  intros buf n Hn.
  rewrite Zlength_correct in Hn.
  assert (Hmid : List.length (firstn (Z.to_nat n) buf) = Z.to_nat n)
    by (rewrite length_firstn; lia).
  pose proof (uppercase_loop_spec (firstn (Z.to_nat n) buf) [] (skipn (Z.to_nat n) buf) 0 eq_refl)
    as Hu.
  rewrite !app_nil_l, Hmid, firstn_skipn in Hu.
  eexists. split; [exact Hu|]. split.
  - rewrite Zlength_app, !Zlength_correct, length_map, Hmid, length_skipn. lia.
  - intros j Hj. rewrite Zlength_correct in Hj. unfold load.
    destruct (Z.ltb_spec j n) as [Hlt|Hge]; cbn [andb].
    + rewrite app_nth1 by (rewrite length_map, Hmid; lia).
      rewrite (nth_indep _ 0 (to_upper 0)) by (rewrite length_map, Hmid; lia).
      rewrite map_nth, nth_firstn.
      destruct (Nat.ltb_spec (Z.to_nat j) (Z.to_nat n)); [|lia].
      unfold to_upper, to_uint8.
      destruct (Z.leb_spec 97 (nth (Z.to_nat j) buf 0));
        destruct (Z.leb_spec (nth (Z.to_nat j) buf 0) 122); cbn [andb]; try reflexivity.
      rewrite Z.mod_small by lia. lia.
    + rewrite app_nth2 by (rewrite length_map, Hmid; lia).
      rewrite length_map, Hmid, nth_skipn. f_equal. lia.
Qed.

Lemma uppercase_loop_cells_witness :
  exists buf',
    uppercase_loop (Z.to_nat 3) 0 [104; 105; 33; 122] = Some buf' /\
    load buf' 0 = 72.
Proof.
  destruct (uppercase_loop_cells [104; 105; 33; 122] 3) as (buf' & Hrun & _ & Hcell).
  - vm_compute. split; discriminate.
  - exists buf'. split; [exact Hrun|].
    rewrite Hcell by (vm_compute; split; [discriminate | reflexivity]). reflexivity.
Defined.

End EchoExtras.

(* ------------------------------------------------------------------ *)
(** ** The rows of the multi-row emitter *)

Section Appended.

Import Polling.

Lemma appended_trans : forall st s1 s2 b1 b2,
  0 <= length (g_output_buffer st) ->
  appended st s1 b1 -> appended s1 s2 b2 -> appended st s2 (b1 ++ b2).
Proof.
  intros st s1 s2 b1 b2 H0 (Hok1 & Hk1 & Hl1 & Hb1) (Hok2 & Hk2 & Hl2 & Hb2).
  pose proof (Zlength_nonneg b1) as Ha. pose proof (Zlength_nonneg b2) as Hb.
  split; [exact Hok2|].
  split; [apply (output_kept_trans st s1 s2); assumption|].
  rewrite Zlength_app. split; [lia|].
  rewrite Z2Nat.inj_add by lia. rewrite firstn_add_split, skipn_skipn.
  unfold output_kept in Hk2. rewrite Hl1 in Hb2, Hk2.
  rewrite (Z2Nat.inj_add (length (g_output_buffer st)) (Zlength b1) H0 Ha) in Hb2.
  rewrite (Nat.add_comm (Z.to_nat (Zlength b1))), Hb2.
  f_equal.
  destruct Hk2 as [_ Hpre].
  rewrite (Z2Nat.inj_add (length (g_output_buffer st)) (Zlength b1) H0 Ha) in Hpre.
  rewrite firstn_skipn_comm, Hpre, <- firstn_skipn_comm. exact Hb1.
Qed.

(** A [write] that fits appends the first [len] bytes of its source. *)
Lemma write_appended : forall st buf len,
  output_ok st ->
  0 <= len <= Zlength buf ->
  length (g_output_buffer st) + len <= PGLITE_BUFFER_SIZE ->
  exists st',
    pglite_polling_write buf len st = Some (len, st') /\
    appended st st' (firstn (Z.to_nat len) buf) /\
    g_input_buffer st' = g_input_buffer st /\
    status (g_output_buffer st') = status (g_output_buffer st) /\
    operation (g_control st') = operation (g_control st) /\
    error_code (g_control st') = error_code (g_control st).
Proof.
  intros st buf len [Hd Hl] Hlen Hfit.
  destruct (write_appends_fields st buf len Hd ltac:(lia) Hlen Hfit)
    as (st' & Hw & Hi & Hs & Hl' & Hd' & Hp & Hc & Hop & He).
  assert (Hz : Zlength (firstn (Z.to_nat len) buf) = len) by (apply Zlength_firstn; lia).
  exists st'. split; [exact Hw|].
  split; [|repeat split; assumption].
  split; [split; [exact Hd' | lia]|].
  split; [split; [lia | exact Hp]|].
  rewrite Hz. split; [exact Hl' | exact Hc].
Qed.

End Appended.

Section MultiRowFrames.

Import TestWasm.

Lemma rows_frames_length : forall n i num_rows,
  Zlength (rows_frames n i num_rows) = rows_bytes n i num_rows.
Proof.
  induction n as [|n IH]; intros i num_rows; cbn [rows_frames rows_bytes].
  - reflexivity.
  - rewrite !Zlength_app, IH.
    change (Zlength (header_bytes 68 (Zlength (row_text (i + 1) num_rows) + 4))) with 5.
    lia.
Qed.

(** When every row fits, the loop of [process_multi_row] appends the framed
    rows and nothing else. *)
Lemma multi_row_loop_frames : forall n i num_rows st,
  output_ok st ->
  length (g_output st) + rows_bytes n i num_rows <= BUFFER_SIZE ->
  exists st',
    multi_row_loop n i num_rows st = Some (None, st') /\
    appended st st' (rows_frames n i num_rows) /\
    status (g_output st') = status (g_output st) /\
    operation (g_control st') = operation (g_control st) /\
    error_code (g_control st') = error_code (g_control st).
Proof.
  induction n as [|n IH]; intros i num_rows st Hok Hfit.
  - exists st. cbn [multi_row_loop rows_frames].
    split; [reflexivity|]. split; [|repeat split].
    split; [exact Hok|]. split; [apply output_kept_refl|].
    change (Zlength (@nil Z)) with 0. split; [lia | reflexivity].
  - cbn [multi_row_loop rows_frames rows_bytes] in *. rewrite snprintf_row_fits.
    set (text := row_text (i + 1) num_rows) in *.
    pose proof (row_text_length (i + 1) num_rows) as Htext. fold text in Htext.
    pose proof (rows_bytes_nonneg n (i + 1) num_rows) as Hrest.
    pose proof Hok as [_ Hl0].
    change BUFFER_SIZE with PGLITE_BUFFER_SIZE in Hfit.
    rewrite (to_uint32_small (Zlength text + 4)) by (unfold uint32_range, two32; lia).
    set (header := header_bytes 68 (Zlength text + 4)).
    assert (Hhdr : Zlength header = 5) by reflexivity.
    rewrite internal_write_same.
    destruct (write_appended st header 5 Hok) as (s1 & Hw1 & Ha1 & _ & Hs1 & Hop1 & He1).
    { rewrite Hhdr. lia. } { lia. }
    change (firstn (Z.to_nat 5) header) with header in Ha1.
    rewrite Hw1. unfold bind at 1. cbv beta iota.
    change (5 <? 0) with false. cbv iota.
    rewrite (to_size_t_small (Zlength text)) by (unfold uint32_range, two32; lia).
    rewrite internal_write_same.
    pose proof Ha1 as (Hok1 & _ & Hl1 & _). rewrite Hhdr in Hl1.
    destruct (write_appended s1 (text ++ [0]) (Zlength text) Hok1)
      as (s2 & Hw2 & Ha2 & _ & Hs2 & Hop2 & He2).
    { rewrite Zlength_app. change (Zlength [0]) with 1. lia. } { lia. }
    assert (Hft : firstn (Z.to_nat (Zlength text)) (text ++ [0]) = text).
    { apply firstn_app_exact. rewrite Zlength_correct. lia. }
    rewrite Hft in Ha2.
    rewrite Hw2. unfold bind at 1. cbv beta iota.
    destruct (Z.ltb_spec (Zlength text) 0); [lia|].
    pose proof Ha2 as (Hok2 & _ & Hl2 & _).
    destruct (IH (i + 1) num_rows s2 Hok2) as (st' & Hrun & Ha' & Hs' & Hop' & He').
    { change BUFFER_SIZE with PGLITE_BUFFER_SIZE. lia. }
    exists st'. split; [exact Hrun|].
    split.
    { apply (appended_trans st s1 st'); [lia | exact Ha1|].
      apply (appended_trans s1 s2 st'); [lia | exact Ha2 | exact Ha']. }
    split; [rewrite Hs', Hs2, Hs1; reflexivity|].
    split; [rewrite Hop', Hop2, Hop1; reflexivity|].
    rewrite He', He2, He1. reflexivity.
Qed.

(** X13. The rows [process_multi_row] emits. When the output buffer has room
    for all rows, [process_multi_row (num_rows)] returns 0 and appends, after
    the bytes already in the output, one framed message per row [i] from 1 to
    [num_rows]: the tag ['D'], the big-endian length of the text plus 4, and
    the text ["Row i of num_rows\n"]; nothing else is appended, the operation
    is Completed, and the output is Ready as soon as it holds a byte. *)
Theorem process_multi_row_frames : forall num_rows st,
  output_ok st ->
  length (g_output st) + rows_bytes (Z.to_nat num_rows) 0 num_rows <= BUFFER_SIZE ->
  exists st',
    process_multi_row num_rows st = Some (0, st') /\
    appended st st' (rows_frames (Z.to_nat num_rows) 0 num_rows) /\
    Zlength (rows_frames (Z.to_nat num_rows) 0 num_rows)
    = rows_bytes (Z.to_nat num_rows) 0 num_rows /\
    operation (g_control st') = OP_COMPLETED /\
    error_code (g_control st') = error_code (g_control st) /\
    (0 < length (g_output st') -> status (g_output st') = BUFFER_READY).
Proof.
  intros num_rows st Hok Hfit.
  destruct (multi_row_loop_frames (Z.to_nat num_rows) 0 num_rows st Hok Hfit)
    as (s & Hrun & (Hok' & Hk & Hl & Hb) & Hs & Hop & He).
  unfold process_multi_row. rewrite Hrun. unfold bind.
  eexists. split; [reflexivity|].
  rewrite internal_flush_same.
  destruct (flush_output s) as (Hfl & Hfd & Hfs).
  assert (Hfe : error_code (g_control (Polling.pglite_polling_flush s))
                = error_code (g_control s)).
  { unfold Polling.pglite_polling_flush. destruct (0 <? length (g_output_buffer s)); reflexivity. }
  unfold appended, output_ok, output_kept in *.
  cbn [upd_control set_operation g_control g_output_buffer operation error_code].
  rewrite Hfl, Hfd, Hfs, Hfe.
  split; [split; [exact Hok' | split; [exact Hk | split; [exact Hl | exact Hb]]]|].
  split; [apply rows_frames_length|].
  split; [reflexivity|]. split; [exact He|].
  intro Hpos. destruct (Z.ltb_spec 0 (length (g_output_buffer s))); [reflexivity | lia].
Qed.

Lemma process_multi_row_frames_witness :
  exists st',
    process_multi_row 3 (reset_buffers zero_channel) = Some (0, st') /\
    length (g_output st') = 48 /\
    firstn 16 (data (g_output st'))
    = [68; 0; 0; 0; 15; 82; 111; 119; 32; 49; 32; 111; 102; 32; 51; 10].
Proof.
  destruct (process_multi_row_frames 3 (reset_buffers zero_channel))
    as (st' & Hrun & (_ & _ & Hl & Hb) & _).
  - split; [exact zero_data_Zlength | simpl; unfold PGLITE_BUFFER_SIZE; lia].
  - vm_compute. discriminate.
  - exists st'. split; [exact Hrun|]. split; [exact Hl|].
    change (length (g_output (reset_buffers zero_channel))) with 0 in Hb.
    change (Z.to_nat 0) with 0%nat in Hb. rewrite skipn_0 in Hb.
    apply (f_equal (firstn 16)) in Hb. rewrite firstn_firstn in Hb. exact Hb.
Defined.

End MultiRowFrames.

(* ------------------------------------------------------------------ *)
(** ** No call leaves the arrays *)

Section DefinedRuns.

Import Polling.

Lemma zero_channel_buffers_ok : buffers_ok zero_channel.
Proof.
  split; [exact zero_data_Zlength|].
  split; [simpl; unfold PGLITE_BUFFER_SIZE; lia|].
  split; [exact zero_data_Zlength | simpl; unfold PGLITE_BUFFER_SIZE; lia].
Qed.

Lemma call_safe_ok : forall c, call_safe c -> call_ok c.
Proof.
  intros [len | | | buf m | buf len | ]; simpl; unfold uint32_range, two32, PGLITE_BUFFER_SIZE;
    intros; lia || exact I.
Qed.

(** A [read] into a destination with room for [max_len] bytes is defined. *)
Lemma read_defined : forall st buf max_len,
  buffers_ok st -> offset_inv st ->
  0 <= max_len <= Zlength buf ->
  exists buf' r st', pglite_polling_read buf max_len st = Some (buf', r, st').
Proof.
  intros st buf m (Hdi & Hli & _) Hoff Hm. unfold offset_inv in Hoff.
  destruct (Z.eq_dec (status (g_input_buffer st)) BUFFER_READY) as [Hs|Hs].
  - destruct (Z.eq_dec (read_offset (g_control st)) (length (g_input_buffer st))) as [He|Hne].
    + eexists _, _, _. apply read_drained; assumption.
    + eexists _, _, _. apply read_copies; try assumption; lia.
  - eexists _, _, _. apply read_not_ready; assumption.
Qed.

Lemma run_call_defined : forall c st,
  call_safe c -> buffers_ok st -> offset_inv st ->
  exists st', run_call c st = Some st'.
Proof.
  intros c st Hc Hb Hoff.
  destruct c as [len | | | buf m | buf len | ]; cbn [run_call]; simpl in Hc;
    try (eexists; reflexivity).
  - destruct (read_defined st buf m Hb Hoff (proj1 Hc)) as (b & r & s & Hr).
    rewrite Hr. eexists; reflexivity.
  - destruct Hb as (_ & _ & Hout).
    destruct (write_outcome st buf len Hout (proj1 Hc) (proj2 Hc)) as (r & s & Hw & _).
    rewrite Hw. eexists; reflexivity.
Qed.

(** X15. No call of the polling channel copies outside an array. From a
    channel whose two lengths are within the capacity and whose cursor is
    inside the input, every sequence of calls is defined, provided the
    callers keep their side: the host announces at most [capacity] bytes,
    the destination of each [read] has room for [max_len] bytes, the source
    of each [write] holds [len] bytes. The channel is then again within its
    bounds, so that the run can go on. (A [write] may still be rejected with
    -1; what cannot happen is a copy that leaves the input array, the output
    array or the caller's array.) *)
Theorem calls_defined : forall cs st,
  buffers_ok st -> offset_inv st ->
  Forall call_safe cs ->
  exists st', run_calls cs st = Some st' /\ buffers_ok st' /\ offset_inv st'.
Proof.
  intros cs st Hb Hoff Hcs. revert st Hb Hoff.
  induction Hcs as [|c cs Hc _ IH]; intros st Hb Hoff.
  - exists st. split; [reflexivity|]. split; assumption.
  - destruct (run_call_defined c st Hc Hb Hoff) as (s & Hs).
    assert (Hty : input_length_typed st).
    { destruct Hb as (_ & Hl & _). unfold input_length_typed, uint32_range, two32.
      unfold PGLITE_BUFFER_SIZE in Hl. lia. }
    destruct (offset_inv_step c st s (call_safe_ok c Hc) Hty Hoff Hs) as [Hoff' _].
    pose proof (buffers_ok_step c st s (call_safe_ok c Hc) Hb Hs) as Hb'.
    destruct (IH s Hb' Hoff') as (st' & Hrun & Hr).
    exists st'. split; [|exact Hr].
    cbn [run_calls]. rewrite Hs. exact Hrun.
Qed.

Lemma calls_defined_witness :
  exists st',
    run_calls [SignalInputReady 5; Read (repeat 0 8%nat) 8; Write hello 5; Flush;
               Write (repeat 0 cells) PGLITE_BUFFER_SIZE; AckOutput] zero_channel
    = Some st' /\ buffers_ok st' /\ offset_inv st'.
Proof.
  apply (calls_defined _ zero_channel).
  - exact zero_channel_buffers_ok.
  - unfold offset_inv. simpl. lia.
  - repeat constructor; try exact I;
      rewrite ?Zlength_repeat, ?cells_size;
      unfold two32, PGLITE_BUFFER_SIZE; simpl; try lia; try discriminate.
Defined.

End DefinedRuns.

(* ------------------------------------------------------------------ *)
(** ** The test module between two exported calls *)

Section Exports.

Import TestWasm.

(** What the loop of [process_multi_row] does not touch. *)
Lemma multi_row_loop_rest : forall n i num_rows st early st',
  output_ok st ->
  multi_row_loop n i num_rows st = Some (early, st') ->
  g_input st' = g_input st /\
  read_offset (g_control st') = read_offset (g_control st) /\
  (early = None -> status (g_output st') = status (g_output st)).
Proof.
  induction n as [|n IH]; intros i num_rows st early st' Hok H.
  - cbn [multi_row_loop] in H. injection H as <- <-. repeat split.
  - cbn [multi_row_loop] in H. rewrite snprintf_row_fits in H.
    cbv beta iota zeta in H. rewrite internal_write_same in H.
    unfold bind at 1 in H.
    destruct (Polling.pglite_polling_write _ 5 st) as [[r1 s1]|] eqn:Hw1; [|discriminate].
    destruct (write_frame _ _ _ _ _ Hw1) as (Hi1 & Hro1 & _).
    pose proof (write_keeps_output_ok _ _ _ _ _ Hok Hw1) as Hok1.
    destruct (write_defined_state _ _ _ _ _ Hok Hw1) as [(-> & _ & _) | (-> & _ & _ & Hs1)].
    + change (-1 <? 0) with true in H. cbv iota in H. injection H as <- <-.
      cbn [upd_control g_input_buffer g_control set_operation set_error_code read_offset].
      split; [exact Hi1|]. split; [exact Hro1 | discriminate].
    + change (5 <? 0) with false in H. cbv iota in H.
      rewrite internal_write_same in H. unfold bind at 1 in H.
      destruct (Polling.pglite_polling_write _ _ s1) as [[r2 s2]|] eqn:Hw2; [|discriminate].
      destruct (write_frame _ _ _ _ _ Hw2) as (Hi2 & Hro2 & _).
      pose proof (write_keeps_output_ok _ _ _ _ _ Hok1 Hw2) as Hok2.
      destruct (write_defined_state _ _ _ _ _ Hok1 Hw2)
        as [(-> & _ & _) | (-> & Hlen2 & _ & Hs2)].
      * change (-1 <? 0) with true in H. cbv iota in H. injection H as <- <-.
        cbn [upd_control g_input_buffer g_control set_operation set_error_code read_offset].
        split; [rewrite Hi2; exact Hi1|]. split; [rewrite Hro2; exact Hro1 | discriminate].
      * destruct (Z.ltb_spec (to_size_t (Zlength (row_text (i + 1) num_rows))) 0) as [Hneg|_];
          [lia|].
        destruct (IH _ _ _ _ _ Hok2 H) as (Hi & Hro & Hst).
        split; [rewrite Hi, Hi2; exact Hi1|].
        split; [rewrite Hro, Hro2; exact Hro1|].
        intro He. rewrite (Hst He), Hs2, Hs1. reflexivity.
Qed.

Lemma export_inv_step : forall c st,
  export_ok c -> export_inv st ->
  exists st', run_export c st = Some st' /\ export_inv st'.
Proof.
  intros c st Hc (Hb & Hoff & Hsi & Hso & Hop & Herr).
  pose proof Hb as (Hdi & Hli & Hdo & Hlo).
  unfold offset_inv in Hoff.
  assert (Hsz : PGLITE_BUFFER_SIZE = 65536) by reflexivity.
  destruct c as [ | len | | local | num_rows]; cbn [run_export]; simpl in Hc.
  - (* reset_buffers *)
    eexists. split; [reflexivity|].
    unfold export_inv, buffers_ok, output_ok, offset_inv, reset_buffers.
    cbn [upd_input upd_output upd_control set_status set_length set_operation set_error_code
         set_read_offset set_total_read set_total_written g_input_buffer g_output_buffer
         g_control status length data operation error_code read_offset].
    repeat split; try assumption; try lia; auto.
  - (* signal_input_ready *)
    eexists. split; [reflexivity|].
    unfold export_inv, buffers_ok, output_ok, offset_inv, signal_input_ready.
    cbn [upd_input upd_output upd_control set_status set_length set_read_offset
         g_input_buffer g_output_buffer g_control status length data operation error_code
         read_offset].
    change BUFFER_SIZE with PGLITE_BUFFER_SIZE in Hc.
    repeat split; try assumption; try lia; auto.
  - (* ack_output *)
    eexists. split; [reflexivity|].
    unfold export_inv, buffers_ok, output_ok, offset_inv, ack_output.
    cbn [upd_input upd_output upd_control set_status set_length
         g_input_buffer g_output_buffer g_control status length data operation error_code
         read_offset].
    repeat split; try assumption; try lia; auto.
  - (* process_message *)
    assert (Hno : (status (g_input st) = BUFFER_READY /\
                   read_offset (g_control st) <> length (g_input st)) \/
                  (status (g_input st) <> BUFFER_READY \/
                   read_offset (g_control st) = length (g_input st))).
    { destruct (Z.eq_dec (status (g_input st)) BUFFER_READY);
        destruct (Z.eq_dec (read_offset (g_control st)) (length (g_input st))); tauto. }
    destruct Hno as [[Hs Hne] | Hno].
    + destruct (process_message_delivers local st Hc Hs Hdi ltac:(lia) (proj2 Hli)
                  (conj Hdo Hlo))
        as (st' & Hrun & Hi & Hro & _ & Hop' & He' & Hs' & Hok' & _).
      rewrite Hrun. unfold bind. exists st'. split; [reflexivity|].
      unfold export_inv, buffers_ok, offset_inv.
      rewrite Hi, Hro, Hop', He', Hs'.
      destruct (_ <=? _) eqn:Hend;
        cbn [set_status status length data];
        (split; [split; [exact Hdi | split; [exact Hli | exact Hok']]|]);
        (split; [lia|]); (split; [auto|]); (split; [left; reflexivity|]);
        (split; [right; left; reflexivity | exact Herr]).
    + destruct (process_message_no_input local st Hno)
        as (st' & Hrun & Ho & Hd & Hl & Hs1 & Hs2 & Hctl).
      rewrite Hrun. unfold bind. exists st'. split; [reflexivity|].
      unfold export_inv, buffers_ok, output_ok, offset_inv.
      rewrite Ho, Hd, Hl, Hctl.
      cbn [set_operation set_error_code operation error_code read_offset].
      split; [split; [exact Hdi | split; [exact Hli | split; [exact Hdo | exact Hlo]]]|].
      split; [exact Hoff|].
      split; [destruct Hs2 as [Hs2 | Hs2]; [rewrite Hs2; exact Hsi | left; exact Hs2]|].
      split; [exact Hso|].
      split; [right; right; reflexivity | right; left; reflexivity].
  - (* process_multi_row *)
    destruct (multi_row_loop_outcome (Z.to_nat num_rows) 0 num_rows st (conj Hdo Hlo))
      as (early & s & Hrun & Hok' & _ & Hcases).
    destruct (multi_row_loop_rest _ _ _ _ _ _ (conj Hdo Hlo) Hrun) as (Hi & Hro & Hst).
    unfold process_multi_row. rewrite Hrun. unfold bind at 2. cbv beta iota.
    destruct Hcases as [(-> & Hop' & He' & Hl') | (-> & Hop' & He' & Hs' & _)].
    + unfold bind. eexists. split; [reflexivity|].
      rewrite internal_flush_same.
      destruct (flush_frame s) as (Hfi & Hfro & _).
      destruct (flush_output s) as (Hfl & Hfd & Hfs).
      assert (Hfe : error_code (g_control (Polling.pglite_polling_flush s))
                    = error_code (g_control s)).
      { unfold Polling.pglite_polling_flush.
        destruct (0 <? length (g_output_buffer s)); reflexivity. }
      unfold export_inv, buffers_ok, output_ok, offset_inv.
      cbn [upd_control set_operation g_input_buffer g_output_buffer g_control operation
           error_code read_offset].
      rewrite Hfi, Hfro, Hfl, Hfd, Hfs, Hfe, Hi, Hro, He', (Hst eq_refl).
      split; [split; [exact Hdi | split; [exact Hli | exact Hok']]|].
      split; [exact Hoff|]. split; [exact Hsi|].
      split.
      { destruct (Z.ltb_spec 0 (length (g_output_buffer s))) as [Hpos|Hzero];
          [left; reflexivity|].
        destruct Hso as [Hso | [Hso Hz]]; [left; exact Hso|].
        right. split; [exact Hso|]. destruct Hok' as [_ Hl2]. lia. }
      split; [right; left; reflexivity | exact Herr].
    + unfold bind. exists s. split; [reflexivity|].
      unfold export_inv, buffers_ok, offset_inv.
      rewrite Hi, Hro, Hop', Hs'.
      split; [split; [exact Hdi | split; [exact Hli | exact Hok']]|].
      split; [exact Hoff|]. split; [exact Hsi|].
      split; [left; reflexivity|].
      split; [right; right; reflexivity|].
      destruct He' as [-> | ->]; auto.
Qed.

Lemma export_inv_initial : export_inv zero_channel.
Proof.
  split; [exact zero_channel_buffers_ok|].
  split; [unfold offset_inv; simpl; lia|].
  split; [left; reflexivity|]. split; [right; split; reflexivity|].
  split; [left; reflexivity | left; reflexivity].
Qed.

(** X16. What the host can rely on between two exported calls of the test
    module. From the zero-initialised globals, or from any state with the
    properties below, every sequence of [reset_buffers], [signal_input_ready]
    (with at most [BUFFER_SIZE]), [ack_output], [process_message] and
    [process_multi_row] is defined (no copy and no store leaves an array,
    whatever the stack array of [process_message] held), and afterwards: both
    lengths are within the capacity and the cursor is inside the input; each
    status is Empty or Ready; the operation is None, Completed or Error, so
    that ReadRequest and WriteReady never show between two calls; the error
    code is 0, -1, -2 or -3; and whenever [has_output ()] is false the output
    is empty, [get_output_length ()] is 0 and [ack_output] changes nothing. *)
Theorem exports_safe : forall cs st,
  export_inv st ->
  Forall export_ok cs ->
  exists st',
    run_exports cs st = Some st' /\
    export_inv st' /\
    (has_output st' = 0 -> get_output_length st' = 0 /\ ack_output st' = st').
Proof.
  intros cs st Hinv Hcs. revert st Hinv.
  induction Hcs as [|c cs Hc _ IH]; intros st Hinv.
  - exists st. split; [reflexivity|]. split; [exact Hinv|].
    destruct Hinv as (_ & _ & _ & Hso & _).
    unfold has_output, get_output_length, ack_output. intro Hno.
    destruct (Z.eqb_spec (status (g_output st)) BUFFER_READY) as [|Hne]; [discriminate|].
    destruct Hso as [Hso | [Hso Hz]]; [contradiction|].
    split; [exact Hz|].
    destruct st as [inp [so lo d] ctl]. simpl in Hso, Hz. subst so lo. reflexivity.
  - destruct (export_inv_step c st Hc Hinv) as (s & Hs & Hinv').
    destruct (IH s Hinv') as (st' & Hrun & Hr).
    exists st'. split; [|exact Hr].
    cbn [run_exports]. rewrite Hs. exact Hrun.
Qed.

Lemma exports_safe_witness :
  exists st',
    run_exports [ExportSignalInputReady 5; ExportProcessMessage (repeat 0 1024%nat);
                 ExportProcessMultiRow 3; ExportAckOutput; ExportProcessMessage (repeat 7 1024%nat);
                 ExportResetBuffers] zero_channel
    = Some st' /\
    export_inv st' /\
    (has_output st' = 0 -> get_output_length st' = 0 /\ ack_output st' = st').
Proof.
  apply (exports_safe _ zero_channel).
  - exact export_inv_initial.
  - repeat constructor; try exact I; simpl;
      unfold BUFFER_SIZE, int32_range, two31; try lia; try reflexivity; try discriminate.
Defined.

End Exports.

(* ------------------------------------------------------------------ *)
(** ** What a rejected row leaves in the output *)

Section MultiRowChecked.

Import TestWasm.

Lemma appended_refl : forall st, output_ok st -> appended st st [].
Proof.
  intros st Hok. split; [exact Hok|]. split; [apply output_kept_refl|].
  change (Zlength (@nil Z)) with 0. split; [lia | reflexivity].
Qed.

(** [appended] looks at the output bytes and their count only. *)
Lemma appended_output_eq : forall st s st' b,
  appended st s b ->
  data (g_output_buffer st') = data (g_output_buffer s) ->
  length (g_output_buffer st') = length (g_output_buffer s) ->
  appended st st' b.
Proof.
  intros st s st' b Ha Hd Hlen.
  unfold appended, output_ok, output_kept in *. rewrite Hd, Hlen. exact Ha.
Qed.

(** The rejecting branch of [write], for a length far from [2^32]. *)
Lemma write_rejected : forall st buf len,
  output_ok st ->
  0 <= len < two32 - PGLITE_BUFFER_SIZE ->
  PGLITE_BUFFER_SIZE < length (g_output_buffer st) + len ->
  Polling.pglite_polling_write buf len st
  = Some (-1, upd_control (set_operation OP_WRITE_READY)
                (upd_output (set_status BUFFER_READY) st)).
Proof.
  intros st buf len [_ Hl] Hlen Hover. apply write_rejects.
  rewrite to_size_t_small; [exact Hover|]. unfold uint32_range. lia.
Qed.

(** The loop of [process_multi_row], with what exactly it has appended when
    it stops: all [n] rows, or, at the first rejected [write], the [k] rows
    before it and, if the header of the next row went in, that header. *)
Lemma multi_row_loop_checked : forall n i num_rows st,
  output_ok st ->
  exists early st',
    multi_row_loop n i num_rows st = Some (early, st') /\
    ((early = None /\
      appended st st' (rows_frames n i num_rows) /\
      operation (g_control st') = operation (g_control st) /\
      error_code (g_control st') = error_code (g_control st)) \/
     (early = Some (-1) /\
      operation (g_control st') = OP_ERROR /\
      status (g_output st') = BUFFER_READY /\
      BUFFER_SIZE < length (g_output st) + rows_bytes n i num_rows /\
      exists k, (k < n)%nat /\
        ((error_code (g_control st') = -2 /\
          appended st st' (rows_frames k i num_rows) /\
          BUFFER_SIZE < length (g_output st') + 5) \/
         (error_code (g_control st') = -3 /\
          appended st st'
            (rows_frames k i num_rows
             ++ header_bytes 68 (Zlength (row_text (i + Z.of_nat k + 1) num_rows) + 4)) /\
          BUFFER_SIZE
          < length (g_output st') + Zlength (row_text (i + Z.of_nat k + 1) num_rows))))).
Proof.
  induction n as [|n IH]; intros i num_rows st Hok.
  - exists None, st. split; [reflexivity|]. left. split; [reflexivity|].
    split; [apply appended_refl; exact Hok|]. split; reflexivity.
  - change BUFFER_SIZE with PGLITE_BUFFER_SIZE in *.
    cbn [multi_row_loop rows_bytes]. rewrite snprintf_row_fits.
    set (text := row_text (i + 1) num_rows).
    pose proof (row_text_length (i + 1) num_rows) as Htext. fold text in Htext.
    pose proof (rows_bytes_nonneg n (i + 1) num_rows) as Hrest.
    pose proof Hok as [_ Hl0].
    assert (Hsz : PGLITE_BUFFER_SIZE = 65536) by reflexivity.
    rewrite (to_uint32_small (Zlength text + 4)) by (unfold uint32_range, two32; lia).
    set (header := header_bytes 68 (Zlength text + 4)).
    assert (Hhdr : Zlength header = 5) by reflexivity.
    rewrite internal_write_same.
    destruct (Z_lt_le_dec PGLITE_BUFFER_SIZE (length (g_output_buffer st) + 5))
      as [Hov1|Hfit1].
    + (* the header is rejected *)
      rewrite (write_rejected st header 5 Hok ltac:(unfold two32; lia) Hov1).
      unfold bind at 1. cbv beta iota. change (-1 <? 0) with true. cbv iota.
      eexists _, _. split; [reflexivity|]. right. split; [reflexivity|].
      cbn [upd_control upd_output set_operation set_error_code set_status g_control
           g_output_buffer operation error_code status length].
      split; [reflexivity|]. split; [reflexivity|]. split; [lia|].
      exists 0%nat. split; [lia|]. left. split; [reflexivity|].
      split; [|exact Hov1].
      apply (appended_output_eq st st); [apply appended_refl; exact Hok | |]; reflexivity.
    + destruct (write_appended st header 5 Hok) as (s1 & Hw1 & Ha1 & _ & Hs1 & Hop1 & He1).
      { rewrite Hhdr. lia. } { lia. }
      change (firstn (Z.to_nat 5) header) with header in Ha1.
      rewrite Hw1. unfold bind at 1. cbv beta iota.
      change (5 <? 0) with false. cbv iota.
      rewrite (to_size_t_small (Zlength text)) by (unfold uint32_range, two32; lia).
      rewrite internal_write_same.
      pose proof Ha1 as (Hok1 & _ & Hl1 & _). rewrite Hhdr in Hl1.
      destruct (Z_lt_le_dec PGLITE_BUFFER_SIZE (length (g_output_buffer s1) + Zlength text))
        as [Hov2|Hfit2].
      * (* the row is rejected: its header stays *)
        rewrite (write_rejected s1 (text ++ [0]) (Zlength text) Hok1
                   ltac:(unfold two32; lia) Hov2).
        unfold bind at 1. cbv beta iota. change (-1 <? 0) with true. cbv iota.
        eexists _, _. split; [reflexivity|]. right. split; [reflexivity|].
        cbn [upd_control upd_output set_operation set_error_code set_status g_control
             g_output_buffer operation error_code status length].
        split; [reflexivity|]. split; [reflexivity|]. split; [lia|].
        exists 0%nat. split; [lia|]. right.
        change (Z.of_nat 0) with 0. rewrite Z.add_0_r.
        cbn [rows_frames app]. fold text. fold header.
        split; [reflexivity|]. split; [|exact Hov2].
        apply (appended_output_eq st s1); [exact Ha1 | |]; reflexivity.
      * destruct (write_appended s1 (text ++ [0]) (Zlength text) Hok1)
          as (s2 & Hw2 & Ha2 & _ & Hs2 & Hop2 & He2).
        { rewrite Zlength_app. change (Zlength [0]) with 1. lia. } { exact Hfit2. }
        assert (Hft : firstn (Z.to_nat (Zlength text)) (text ++ [0]) = text).
        { apply firstn_app_exact. rewrite Zlength_correct. lia. }
        rewrite Hft in Ha2.
        rewrite Hw2. unfold bind at 1. cbv beta iota.
        destruct (Z.ltb_spec (Zlength text) 0); [lia|].
        pose proof Ha2 as (Hok2 & _ & Hl2 & _).
        assert (Ha02 : appended st s2 (header ++ text)).
        { apply (appended_trans st s1 s2); [lia | exact Ha1 | exact Ha2]. }
        destruct (IH (i + 1) num_rows s2 Hok2) as (early & st' & Hrun & Hc).
        exists early, st'. split; [exact Hrun|].
        destruct Hc as [(-> & Ha' & Hop' & He') | (-> & Hop' & Hs' & Hbig & k & Hk & Hc)].
        -- left. split; [reflexivity|]. split.
           { cbn [rows_frames]. fold text. fold header. rewrite app_assoc.
             apply (appended_trans st s2 st'); [lia | exact Ha02 | exact Ha']. }
           split; [rewrite Hop', Hop2, Hop1; reflexivity
                  | rewrite He', He2, He1; reflexivity].
        -- right. split; [reflexivity|]. split; [exact Hop'|]. split; [exact Hs'|].
           split; [lia|].
           exists (S k). split; [lia|].
           replace (i + Z.of_nat (S k) + 1) with (i + 1 + Z.of_nat k + 1) by lia.
           cbn [rows_frames]. fold text. fold header.
           destruct Hc as [(Hcode & Ha' & Hov) | (Hcode & Ha' & Hov)].
           ++ left. split; [exact Hcode|]. split; [|exact Hov].
              rewrite app_assoc.
              apply (appended_trans st s2 st'); [lia | exact Ha02 | exact Ha'].
           ++ right. split; [exact Hcode|]. split; [|exact Hov].
              rewrite <- !app_assoc. rewrite (app_assoc header text).
              apply (appended_trans st s2 st'); [lia | exact Ha02 | exact Ha'].
Qed.

(** X14. [process_multi_row] checks its writes. On an output buffer within
    its array the call is defined, and it returns 0 exactly when all rows
    fit: then the operation is Completed, the error code is untouched and
    the output has gained the frames of all rows. Otherwise it returns -1
    with operation Error and the output Ready, and nothing written before
    the rejected [write] is lost or taken back: for some [k < num_rows] the
    output has gained exactly the complete frames of rows 1 to [k], when the
    header of row [k + 1] found no room (error code -2), or those frames
    followed by the five header bytes of row [k + 1], when its text found no
    room (error code -3). In both cases the bytes that were in the output at
    entry are still there, before the new ones. *)
Theorem process_multi_row_checked : forall num_rows st,
  output_ok st ->
  exists r st',
    process_multi_row num_rows st = Some (r, st') /\
    ((r = 0 /\
      length (g_output st) + rows_bytes (Z.to_nat num_rows) 0 num_rows <= BUFFER_SIZE /\
      operation (g_control st') = OP_COMPLETED /\
      error_code (g_control st') = error_code (g_control st) /\
      appended st st' (rows_frames (Z.to_nat num_rows) 0 num_rows)) \/
     (r = -1 /\
      BUFFER_SIZE < length (g_output st) + rows_bytes (Z.to_nat num_rows) 0 num_rows /\
      operation (g_control st') = OP_ERROR /\
      status (g_output st') = BUFFER_READY /\
      exists k, (k < Z.to_nat num_rows)%nat /\
        ((error_code (g_control st') = -2 /\
          appended st st' (rows_frames k 0 num_rows) /\
          BUFFER_SIZE < length (g_output st') + 5) \/
         (error_code (g_control st') = -3 /\
          appended st st'
            (rows_frames k 0 num_rows
             ++ header_bytes 68 (Zlength (row_text (Z.of_nat k + 1) num_rows) + 4)) /\
          BUFFER_SIZE
          < length (g_output st') + Zlength (row_text (Z.of_nat k + 1) num_rows))))).
Proof.
  intros num_rows st Hok. unfold process_multi_row.
  destruct (multi_row_loop_checked (Z.to_nat num_rows) 0 num_rows st Hok)
    as (early & s & Hrun & Hc).
  rewrite Hrun. unfold bind.
  destruct Hc as [(-> & Ha & Hop & He) | (-> & Hop & Hs & Hbig & k & Hk & Hc)].
  - eexists _, _. split; [reflexivity|]. left. split; [reflexivity|].
    rewrite internal_flush_same.
    destruct (flush_output s) as (Hfl & Hfd & _).
    assert (Hfe : error_code (g_control (Polling.pglite_polling_flush s))
                  = error_code (g_control s)).
    { unfold Polling.pglite_polling_flush.
      destruct (0 <? length (g_output_buffer s)); reflexivity. }
    split.
    { destruct Ha as ((_ & Hle) & _ & Hl & _). rewrite rows_frames_length in Hl.
      change BUFFER_SIZE with PGLITE_BUFFER_SIZE. lia. }
    split; [reflexivity|].
    split; [cbn [upd_control set_operation g_control error_code]; rewrite Hfe; exact He|].
    apply (appended_output_eq st s); [exact Ha | exact Hfd | exact Hfl].
  - exists (-1), s. split; [reflexivity|]. right. split; [reflexivity|].
    split; [exact Hbig|]. split; [exact Hop|]. split; [exact Hs|].
    exists k. split; [exact Hk|]. rewrite Z.add_0_l in Hc. exact Hc.
Qed.

Lemma process_multi_row_checked_witness :
  exists st',
    process_multi_row 3 full_channel = Some (-1, st') /\
    operation (g_control st') = OP_ERROR.
Proof.
  destruct (process_multi_row_checked 3 full_channel) as (r & st' & Hrun & Hc).
  - split; [exact full_data_Zlength | simpl; unfold PGLITE_BUFFER_SIZE; lia].
  - destruct Hc as [(_ & Hfit & _) | (-> & _ & Hop & _)].
    + exfalso.
      change (length (g_output full_channel)) with PGLITE_BUFFER_SIZE in Hfit.
      vm_compute in Hfit. apply Hfit. reflexivity.
    + exists st'. split; [exact Hrun | exact Hop].
Defined.

End MultiRowChecked.
